(** * The spook renderer: pagination, filtering, template choice and output

    A shallow embedding of [renderer/renderer.go] (and of the view models
    of the same package) together with the facts about it that the
    specification states.

    Conventions of the embedding.
    - Go's [int] is a 64-bit two's complement integer; it is a [Z] here and
      every arithmetic operation of the source is followed by [Go.wrap].
    - A Go [string] is a sequence of bytes: Rocq's [string].
    - A slice is a [list]; slicing out of range panics, which is the [Panic]
      outcome of [Go.run].
    - [float64] is IEEE 754 binary64, taken from the Standard Library's
      [SpecFloat] (precision 53, exponent bound 1024).
    - An [io.Writer] is the sequence of bytes written to it so far.
    - The operating system, [html/template], the minifier and the markdown
      engine are collaborators; they are the fields of the class [Env]. *)

From Stdlib Require Import ZArith List String Ascii Bool Lia.
From Stdlib Require Import Sorting.Sorted Sorting.Permutation.
From Stdlib Require Import Floats.SpecFloat.
Import ListNotations.

Local Open Scope string_scope.
Local Open Scope list_scope.
Local Open Scope Z_scope.

(** ** The Go language level *)

Module Go.

Definition int := Z.

Definition min_int : Z := - 2 ^ 63.
Definition max_int : Z := 2 ^ 63 - 1.

(** Overflowing arithmetic on [int] wraps around. *)
Definition wrap (z : Z) : int := (z + 2 ^ 63) mod 2 ^ 64 - 2 ^ 63.

Definition add (a b : int) : int := wrap (a + b).
Definition sub (a b : int) : int := wrap (a - b).
Definition mul (a b : int) : int := wrap (a * b).

Definition len {A : Type} (s : list A) : int := Z.of_nat (List.length s).

(** A computation either finishes or panics at run time. *)
Inductive run (A : Type) : Type :=
| Done (a : A)
| Panic (msg : string).
Arguments Done {A} a.
Arguments Panic {A} msg.

(** [s[lo:hi]].  The bounds are checked against the capacity of the
    slice; every slice expression of the renderer has [hi <= len(s)], so
    the length stands for the capacity. *)
Definition slice {A : Type} (s : list A) (lo hi : int) : run (list A) :=
  if (0 <=? lo) && (lo <=? hi) && (hi <=? len s)
  then Done (firstn (Z.to_nat (hi - lo)) (skipn (Z.to_nat lo) s))
  else Panic "slice bounds out of range".

(** The [error] values of the package: the ones it makes itself with
    [fmt.Errorf] and the ones its collaborators hand to it. *)
Inductive error : Type :=
| Errorf (msg : string)
| Foreign (origin msg : string).

(** A call that returns [(value, error)]. *)
Inductive result (A : Type) : Type :=
| Ok (a : A)
| Failed (err : error).
Arguments Ok {A} a.
Arguments Failed {A} err.

(** The bytes an [io.Writer] has received. *)
Definition Writer := string.

End Go.

(** ** Package [strings] *)

Module strings.

(** [len(s) >= len(prefix) && s[0:len(prefix)] == prefix] *)
Definition HasPrefix (s prefix : string) : bool :=
  (String.length prefix <=? String.length s)%nat
  && String.eqb (substring 0 (String.length prefix) s) prefix.

(** [len(s) >= len(suffix) && s[len(s)-len(suffix):] == suffix] *)
Definition HasSuffix (s suffix : string) : bool :=
  (String.length suffix <=? String.length s)%nat
  && String.eqb
       (substring (String.length s - String.length suffix)
                  (String.length suffix) s)
       suffix.

(** [strings.Join(elems, sep)] *)
Fixpoint Join (elems : list string) (sep : string) : string :=
  match elems with
  | [] => ""
  | [e] => e
  | e :: rest => (e ++ sep ++ Join rest sep)%string
  end.

End strings.

(** ** Package [path]

    [path.Clean] and [path.Join] of the Go standard library.  [Clean] reads
    the path byte by byte and writes the cleaned path into a buffer;
    [rest] is the unread part of the path ([path[r:]]), [out] the buffer
    ([out.w] is its length) and [dotdot] the index in the buffer where a
    [..] must stop. *)

Module path.

Local Open Scope char_scope.

Definition slash : ascii := "/".
Definition dot : ascii := ".".

Definition is_slash (c : ascii) : bool := Ascii.eqb c slash.
Definition is_dot (c : ascii) : bool := Ascii.eqb c dot.

(** [r == n || path[r] == '/'] *)
Definition at_end_or_slash (rest : list ascii) : bool :=
  match rest with
  | [] => true
  | c :: _ => is_slash c
  end.

(** [path[r] == '.'] with [r < n] *)
Definition at_dot (rest : list ascii) : bool :=
  match rest with
  | [] => false
  | c :: _ => is_dot c
  end.

(** The element that starts at [r]: the bytes up to the next slash, and
    what follows them. *)
Fixpoint element (rest : list ascii) : list ascii * list ascii :=
  match rest with
  | [] => ([], [])
  | c :: rest' =>
      if is_slash c then ([], rest)
      else let '(e, tl) := element rest' in (c :: e, tl)
  end.

(** [out.w--; for out.w > dotdot && out.index(out.w) != '/' { out.w-- }],
    started with [w = out.w - 1]: the new [out.w]. *)
Fixpoint backtrack (out : list ascii) (dotdot w : nat) : nat :=
  match w with
  | O => O
  | S w' =>
      if (dotdot <? w)%nat && negb (is_slash (nth w out slash))
      then backtrack out dotdot w'
      else w
  end.

(** One turn of the loop [for r < n] for each unit of [fuel]; the loop
    reads at least one byte per turn. *)
Fixpoint clean_loop (fuel : nat) (rooted : bool)
         (rest out : list ascii) (dotdot : nat) : list ascii :=
  match fuel with
  | O => out
  | S fuel' =>
      match rest with
      | [] => out
      | c :: rest1 =>
          if is_slash c then
            (* empty path element *)
            clean_loop fuel' rooted rest1 out dotdot
          else if is_dot c && at_end_or_slash rest1 then
            (* . element *)
            clean_loop fuel' rooted rest1 out dotdot
          else if is_dot c && at_dot rest1 && at_end_or_slash (tl rest1) then
            (* .. element: remove to last slash *)
            let rest2 := tl rest1 in
            if (dotdot <? List.length out)%nat then
              let w := backtrack out dotdot (List.length out - 1) in
              clean_loop fuel' rooted rest2 (firstn w out) dotdot
            else if negb rooted then
              let out1 := if (0 <? List.length out)%nat then out ++ [slash] else out in
              let out2 := out1 ++ [dot; dot] in
              clean_loop fuel' rooted rest2 out2 (List.length out2)
            else
              clean_loop fuel' rooted rest2 out dotdot
          else
            (* real path element: add slash if needed, copy element *)
            let out1 :=
              if (rooted && negb (List.length out =? 1)%nat)
                 || (negb rooted && negb (List.length out =? 0)%nat)
              then out ++ [slash] else out in
            let '(e, rest') := element rest in
            clean_loop fuel' rooted rest' (out1 ++ e) dotdot
      end
  end.

Definition clean_bytes (p : list ascii) : list ascii :=
  match p with
  | [] => [dot]
  | c :: p' =>
      let rooted := is_slash c in
      let out :=
        if rooted
        then clean_loop (List.length p) true p' [slash] 1
        else clean_loop (List.length p) false p [] 0 in
      match out with
      | [] => [dot]
      | _ => out
      end
  end.

Definition Clean (p : string) : string :=
  string_of_list_ascii (clean_bytes (list_ascii_of_string p)).

(** [Join] ignores the empty elements that come first, joins the others
    with slashes and cleans the result. *)
Fixpoint Join (elem : list string) : string :=
  match elem with
  | [] => ""
  | e :: rest =>
      if String.eqb e "" then Join rest
      else Clean (strings.Join elem "/")
  end.

End path.

(** ** Package [path/filepath]

    On the systems whose separator is the slash, [filepath.Join] is
    [path.Join]; the renderer is modelled on such a system. *)

Module fp.
Definition Join (elem : list string) : string := path.Join elem.
End fp.

(** ** [float64]

    IEEE 754 binary64 with the operations the renderer uses: the conversion
    of an [int], the division, [math.Ceil] and the conversion back to
    [int]. *)

Module float64.

Definition prec : Z := 53.
Definition emax : Z := 1024.

Definition t := spec_float.

(** [float64(n)]: the binary64 number nearest to [n]. *)
Definition of_int (n : Go.int) : t := binary_normalize prec emax n 0 false.

(** [x / y] *)
Definition div (x y : t) : t := SFdiv prec emax x y.

(** The signed mantissa of a finite number. *)
Definition signed (s : bool) (m : positive) : Z := cond_Zopp s (Zpos m).

(** The least integer not below [a / b], for [0 < b]. *)
Definition cdiv (a b : Z) : Z := - ((- a) / b).

(** [math.Ceil]: the least integer value not below [x]; zeros,
    infinities and NaN are returned as they are, and a negative number
    above -1 gives the negative zero. *)
Definition Ceil (x : t) : t :=
  match x with
  | S754_finite s m e =>
      if 0 <=? e then x
      else binary_normalize prec emax (cdiv (signed s m) (2 ^ (- e))) 0 s
  | _ => x
  end.

(** [int(x)]: the fraction is discarded; when the value does not fit an
    [int] (or is not a number) the conversion succeeds with a result
    that depends on the implementation, [unrepresentable x]. *)
Definition to_int (unrepresentable : t -> Go.int) (x : t) : Go.int :=
  match x with
  | S754_zero _ => 0
  | S754_finite s m e =>
      let z := if 0 <=? e then signed s m * 2 ^ e
               else Z.quot (signed s m) (2 ^ (- e)) in
      if (Go.min_int <=? z) && (z <=? Go.max_int) then z
      else unrepresentable x
  | _ => unrepresentable x
  end.

End float64.

(** ** Package [sort]

    [sort.Slice] on the slices the renderer sorts.  Go sorts a slice of
    fewer than twelve elements by insertion: element [i] is swapped
    leftwards while it is less than its left neighbour.  [sorted] is the
    part of the slice before [i], last element first.  A longer slice is
    sorted by another, unstable, algorithm; the groups the renderer sorts
    have one sorted arrangement only ([tags_any_sort] below), so the
    result is the same. *)

Module sort.

Section Slice.
Context {A : Type}.
Variable less : A -> A -> bool.

(** [for j := i; j > a && less(j, j-1); j-- { swap(j, j-1) }] *)
Fixpoint sink (x : A) (sorted : list A) : list A :=
  match sorted with
  | [] => [x]
  | y :: sorted' =>
      if less x y then y :: sink x sorted' else x :: sorted
  end.

(** [for i := a + 1; i < b; i++ { ... }] *)
Definition insertionSort (s : list A) : list A :=
  rev (fold_left (fun sorted x => sink x sorted) s []).

Definition Slice (s : list A) : list A := insertionSort s.
End Slice.

End sort.

(** ** Package [model] *)

Module model.

(** Modelled from the spec: the declarations of the package [model] are
    not in the files of the renderer; [Config] has the fields the renderer
    reads (theme identifier, site title, owner, description, page size). *)
Record Config : Type := {
  Theme : string;
  Title : string;
  Owner : string;
  Description : string;
  Pagination : Go.int
}.

(** Modelled from the spec: a page has the path to its source body, a
    title, a short excerpt and a thumbnail reference. *)
Record Page : Type := {
  Page_Path : string;
  Page_Title : string;
  Page_Excerpt : string;
  Page_Thumbnail : string
}.

(** Modelled from the spec: a post has everything a page has, plus an
    author, one category name (possibly empty), its tag names in order
    and the creation and update timestamps. *)
Record Post : Type := {
  Post_Path : string;
  Post_Title : string;
  Post_Excerpt : string;
  Post_Thumbnail : string;
  Post_Author : string;
  Post_Category : string;
  Post_Tags : list string;
  Post_CreatedAt : string;
  Post_UpdatedAt : string
}.

(** Modelled from the spec: a group is a display-ready pair of a name and
    a URL path. *)
Record Group : Type := {
  Name : string;
  Path : string
}.

End model.

(** ** Package [renderer] *)

Module renderer.

(** *** The list types *)

Definition ListType := Go.int.
Definition DEFAULT : ListType := 0.
Definition CATEGORY : ListType := 1.
Definition TAG : ListType := 2.

(** *** The view models *)

Record Layout : Type := {
  WebsiteTitle : string;
  WebsiteOwner : string;
  ContentTitle : string;
  ContentDesc : string;
  ContentAuthor : string;
  Pages : list model.Page
}.

Record List : Type := {
  List_Layout : Layout;
  List_Type : ListType;
  List_Path : string;
  List_Posts : list model.Post;
  List_Tags : list model.Group;
  List_Categories : list model.Group;
  List_CurrentPage : Go.int;
  List_MaxPage : Go.int
}.

Record Page : Type := {
  Page_Layout : Layout;
  Page_Thumbnail : string;
  Page_HTML : string
}.

Record Post : Type := {
  Post_Layout : Layout;
  Post_CreatedAt : string;
  Post_UpdatedAt : string;
  Post_Category : model.Group;
  Post_Tags : list model.Group;
  Post_Thumbnail : string;
  Post_HTML : string;
  Post_Older : model.Post;
  Post_Newer : model.Post
}.

(** The [data interface{}] handed to a template: a pointer to one of the
    view models. *)
Inductive ViewData : Type :=
| ListData (l : List)
| PageData (p : Page)
| PostData (p : Post).

(** *** The renderer *)

Record Renderer : Type := {
  Config : model.Config;
  Renderer_Pages : list model.Page;
  Renderer_Posts : list model.Post;
  Renderer_Tags : list model.Group;
  Renderer_Categories : list model.Group;
  Minimize : bool;
  RootDir : string
}.

(** An entry of a directory listing. *)
Record FileInfo : Type := {
  FileInfo_Name : string;
  FileInfo_IsDir : bool
}.

(** *** The collaborators

    What the renderer calls and does not define: the file system, the
    template engine, the minifier (with the options the renderer gives
    it), the helpers of the package that read and transform a body, and
    the result of a [float64] to [int] conversion whose value does not
    fit.  Executing a template or minifying yields the bytes written to
    the writer and the error, if any. *)
Class Env : Type := {
  Template : Type;
  fileExists : string -> bool;
  ReadDir : string -> Go.result (list FileInfo);
  ParseFiles : list string -> Go.result Template;
  ExecuteTemplate : Template -> string -> ViewData -> string * option Go.error;
  Minify : string -> string * option Go.error;
  readIndexFile : string -> Go.result string;
  removeMetadata : string -> string;
  bf_Run : string -> string;
  highlightCode : string -> string;
  int_of_unrepresentable : float64.t -> Go.int
}.

Section Functions.
Context {env : Env}.

(** [validateConfig] verifies that the config file is valid. *)
Definition validateConfig (rd : Renderer) : option Go.error :=
  if String.eqb (model.Theme (Config rd)) ""
  then Some (Go.Errorf "No theme specified in configuration file")
  else None.

(** [fp.Join(rd.RootDir, "theme", rd.Config.Theme)] *)
Definition themeDir (rd : Renderer) : string :=
  fp.Join [RootDir rd; "theme"; model.Theme (Config rd)].

(** [getBaseTemplates] fetches the base templates of the theme: the
    HTML files whose name starts with an underscore. *)
Definition getBaseTemplates (rd : Renderer) : Go.result (list string) :=
  match ReadDir (themeDir rd) with
  | Go.Failed err => Go.Failed err
  | Go.Ok items =>
      Go.Ok
        (fold_left
           (fun templates item =>
              if FileInfo_IsDir item then templates
              else if strings.HasSuffix (FileInfo_Name item) ".html"
                      && strings.HasPrefix (FileInfo_Name item) "_"
              then templates ++ [fp.Join [themeDir rd; FileInfo_Name item]]
              else templates)
           items [])
  end.

(** [getMaxPagination] calculates the max page number following the
    configuration. *)
Definition getMaxPagination (rd : Renderer) (posts : list model.Post) : Go.int :=
  let nPosts := Go.len posts in
  let pageLength := model.Pagination (Config rd) in
  let fMaxPage :=
    float64.Ceil (float64.div (float64.of_int nPosts) (float64.of_int pageLength)) in
  float64.to_int int_of_unrepresentable fMaxPage.

(** [getListPosts] fetches the posts to display in the given page. *)
Definition getListPosts (rd : Renderer) (posts : list model.Post)
           (pageNumber : Go.int) : Go.run (list model.Post) :=
  let nPosts := Go.len posts in
  let pageLength := model.Pagination (Config rd) in
  let start := Go.mul (Go.sub pageNumber 1) pageLength in
  let end_ := Go.add start pageLength in
  let end_ := if end_ >? nPosts then nPosts else end_ in
  Go.slice posts start end_.

(** [executeTemplate] executes the template into HTML, and minimizes
    it if needed. *)
Definition executeTemplate (rd : Renderer) (tpl : Template) (w : Go.Writer)
           (name : string) (data : ViewData) : Go.Writer * option Go.error :=
  if negb (Minimize rd) then
    let '(out, err) := ExecuteTemplate tpl name data in
    ((w ++ out)%string, err)
  else
    let '(buff, err) := ExecuteTemplate tpl name data in
    match err with
    | Some e => (w, Some e)
    | None =>
        let '(out, err') := Minify buff in
        ((w ++ out)%string, err')
    end.

(** The view model [frontPage] of [RenderFrontPage], given its window
    of posts. *)
Definition frontPage (rd : Renderer) (window : list model.Post) : List :=
  let baseLayout :=
    {| WebsiteTitle := model.Title (Config rd);
       WebsiteOwner := model.Owner (Config rd);
       ContentTitle := model.Title (Config rd);
       ContentDesc := model.Description (Config rd);
       ContentAuthor := model.Owner (Config rd);
       Pages := Renderer_Pages rd |} in
  {| List_Layout := baseLayout;
     List_Type := DEFAULT;
     List_Path := "/posts";
     List_CurrentPage := 1;
     List_MaxPage := getMaxPagination rd (Renderer_Posts rd);
     List_Posts := window;
     List_Categories := Renderer_Categories rd;
     List_Tags := Renderer_Tags rd |}.

(** [RenderFrontPage] renders the front page of the site with the
    front page template if it exists and with the list template if
    not. *)
Definition RenderFrontPage (rd : Renderer) (dst : Go.Writer)
  : Go.run (Go.Writer * option Go.error) :=
  match validateConfig rd with
  | Some err => Go.Done (dst, Some err)
  | None =>
      let tplList := fp.Join [themeDir rd; "list.html"] in
      let tplFrontPage := fp.Join [themeDir rd; "frontpage.html"] in
      match getBaseTemplates rd with
      | Go.Failed err => Go.Done (dst, Some err)
      | Go.Ok templates =>
          let chosen :=
            if fileExists tplFrontPage
            then Some ("frontpage.html", templates ++ [tplFrontPage])
            else if fileExists tplList
            then Some ("list.html", templates ++ [tplList])
            else None in
          match chosen with
          | None =>
              Go.Done (dst, Some (Go.Errorf "Template for frontpage and list is not exist"))
          | Some (activeTemplate, templates) =>
              match getListPosts rd (Renderer_Posts rd) 1 with
              | Go.Panic msg => Go.Panic msg
              | Go.Done window =>
                  match ParseFiles templates with
                  | Go.Failed err => Go.Done (dst, Some err)
                  | Go.Ok tpl =>
                      Go.Done (executeTemplate rd tpl dst activeTemplate
                                               (ListData (frontPage rd window)))
                  end
              end
          end
      end
  end.

(** The two filters of [RenderList].  The closures of the source read
    the variable [groupName] when they are called, that is after the
    translation of the uncategorized group. *)
Definition filterCategory (groupName : string) (post : model.Post) : bool :=
  String.eqb (model.Post_Category post) groupName.

Definition filterTag (groupName : string) (post : model.Post) : bool :=
  existsb (fun tag => String.eqb tag groupName) (model.Post_Tags post).

(** The block "Filter posts by group" of [RenderList]: the posts of the
    list and the group name as it is after the block. *)
Definition filterPosts (rd : Renderer) (listType : ListType) (groupName : string)
  : list model.Post * string :=
  if listType =? DEFAULT then (Renderer_Posts rd, groupName)
  else
    let '(filter, groupName) :=
      if listType =? CATEGORY
      then (filterCategory,
            if String.eqb groupName "uncategorized" then "" else groupName)
      else (filterTag, groupName) in
    (List.filter (filter groupName) (Renderer_Posts rd), groupName).

(** The path [listPath] of [RenderList]. *)
Definition listPath (listType : ListType) (groupName : string) : string :=
  if listType =? CATEGORY then path.Join ["/category"; groupName]
  else if listType =? TAG then path.Join ["/tag"; groupName]
  else "/posts".

(** The view model [list] of [RenderList]; [groupName] is the group
    name as the filtering left it. *)
Definition list_ (rd : Renderer) (listType : ListType) (groupName : string)
           (pageNumber maxPagination : Go.int) (window : list model.Post) : List :=
  let baseLayout :=
    {| WebsiteTitle := model.Title (Config rd);
       WebsiteOwner := model.Owner (Config rd);
       ContentTitle := groupName;
       ContentDesc := model.Description (Config rd);
       ContentAuthor := "";
       Pages := Renderer_Pages rd |} in
  {| List_Layout := baseLayout;
     List_Type := listType;
     List_Path := listPath listType groupName;
     List_CurrentPage := pageNumber;
     List_MaxPage := maxPagination;
     List_Posts := window;
     List_Categories := [];
     List_Tags := [] |}.

(** [RenderList] renders the list template; the [int] it returns is -1
    or the number of posts of the list. *)
Definition RenderList (rd : Renderer) (listType : ListType) (groupName : string)
           (pageNumber : Go.int) (dst : Go.Writer)
  : Go.run (Go.Writer * (Go.int * option Go.error)) :=
  match validateConfig rd with
  | Some err => Go.Done (dst, (-1, Some err))
  | None =>
      let tplList := fp.Join [themeDir rd; "list.html"] in
      if negb (fileExists tplList)
      then Go.Done (dst, (-1, Some (Go.Errorf "Template for list is not exist")))
      else
        match getBaseTemplates rd with
        | Go.Failed err => Go.Done (dst, (-1, Some err))
        | Go.Ok templates =>
            let templates := templates ++ [tplList] in
            let '(posts, groupName) := filterPosts rd listType groupName in
            (* Set minimum page number *)
            let pageNumber := if pageNumber <? 1 then 1 else pageNumber in
            (* Make sure page number <= max page *)
            let maxPagination := getMaxPagination rd posts in
            if pageNumber >? maxPagination then Go.Done (dst, (-1, None))
            else
              match getListPosts rd posts pageNumber with
              | Go.Panic msg => Go.Panic msg
              | Go.Done window =>
                  let list :=
                    list_ rd listType groupName pageNumber maxPagination window in
                  match ParseFiles templates with
                  | Go.Failed err => Go.Done (dst, (-1, Some err))
                  | Go.Ok tpl =>
                      match executeTemplate rd tpl dst "list.html" (ListData list) with
                      | (dst', Some err) => Go.Done (dst', (-1, Some err))
                      | (dst', None) => Go.Done (dst', (Go.len posts, None))
                      end
                  end
              end
        end
  end.

(** The tag comparison [tags[i].Name < tags[j].Name]. *)
Definition lessName (a b : model.Group) : bool :=
  String.ltb (model.Name a) (model.Name b).

(** The group [category] of [RenderPost]. *)
Definition category (post : model.Post) : model.Group :=
  let category :=
    {| model.Name := model.Post_Category post;
       model.Path := fp.Join ["/"; "category"; model.Post_Category post] |} in
  if String.eqb (model.Name category) ""
  then {| model.Name := model.Name category;
          model.Path := fp.Join ["/"; "category"; "uncategorized"] |}
  else category.

(** The groups [tags] of [RenderPost], as they are after the sort. *)
Definition tags (post : model.Post) : list model.Group :=
  let tags :=
    fold_left
      (fun tags tag =>
         tags ++ [{| model.Name := tag;
                     model.Path := fp.Join ["/"; "tag"; tag] |}])
      (model.Post_Tags post) [] in
  sort.Slice lessName tags.

(** The view model [postLayout] of [RenderPost]; [html] is the body of
    the post once transformed. *)
Definition postLayout (rd : Renderer) (post olderPost newerPost : model.Post)
           (html : string) : Post :=
  (* Check author *)
  let author :=
    if String.eqb (model.Post_Author post) ""
    then model.Owner (Config rd) else model.Post_Author post in
  let baseLayout :=
    {| WebsiteTitle := model.Title (Config rd);
       WebsiteOwner := model.Owner (Config rd);
       ContentTitle := model.Post_Title post;
       ContentDesc := model.Post_Excerpt post;
       ContentAuthor := author;
       Pages := Renderer_Pages rd |} in
  {| Post_Layout := baseLayout;
     Post_CreatedAt := model.Post_CreatedAt post;
     Post_UpdatedAt := model.Post_UpdatedAt post;
     Post_Category := category post;
     Post_Tags := tags post;
     Post_Thumbnail := model.Post_Thumbnail post;
     Post_HTML := html;
     Post_Older := olderPost;
     Post_Newer := newerPost |}.

(** [RenderPost] renders the post template. *)
Definition RenderPost (rd : Renderer) (post olderPost newerPost : model.Post)
           (dst : Go.Writer) : Go.Writer * option Go.error :=
  match validateConfig rd with
  | Some err => (dst, Some err)
  | None =>
      let tplPost := fp.Join [themeDir rd; "post.html"] in
      if negb (fileExists tplPost)
      then (dst, Some (Go.Errorf "Template for post is not exist"))
      else
        match getBaseTemplates rd with
        | Go.Failed err => (dst, Some err)
        | Go.Ok templates =>
            let templates := templates ++ [tplPost] in
            (* Open index file *)
            match readIndexFile (model.Post_Path post) with
            | Go.Failed err => (dst, Some err)
            | Go.Ok content =>
                let content := removeMetadata content in
                let html := bf_Run content in
                let html := highlightCode html in
                match ParseFiles templates with
                | Go.Failed err => (dst, Some err)
                | Go.Ok tpl =>
                    executeTemplate rd tpl dst "post.html"
                                    (PostData (postLayout rd post olderPost newerPost html))
                end
            end
        end
  end.

(** [RenderPage] renders the page template. *)
Definition RenderPage (rd : Renderer) (page : model.Page) (dst : Go.Writer)
  : Go.Writer * option Go.error :=
  match validateConfig rd with
  | Some err => (dst, Some err)
  | None =>
      let tplPage := fp.Join [themeDir rd; "page.html"] in
      if negb (fileExists tplPage)
      then (dst, Some (Go.Errorf "Template for page is not exist"))
      else
        match getBaseTemplates rd with
        | Go.Failed err => (dst, Some err)
        | Go.Ok templates =>
            let templates := templates ++ [tplPage] in
            match readIndexFile (model.Page_Path page) with
            | Go.Failed err => (dst, Some err)
            | Go.Ok content =>
                let content := removeMetadata content in
                let html := bf_Run content in
                let html := highlightCode html in
                let baseLayout :=
                  {| WebsiteTitle := model.Title (Config rd);
                     WebsiteOwner := model.Owner (Config rd);
                     ContentTitle := model.Page_Title page;
                     ContentDesc := model.Page_Excerpt page;
                     ContentAuthor := "";
                     Pages := Renderer_Pages rd |} in
                let pageLayout :=
                  {| Page_Layout := baseLayout;
                     Page_Thumbnail := model.Page_Thumbnail page;
                     Page_HTML := html |} in
                match ParseFiles templates with
                | Go.Failed err => (dst, Some err)
                | Go.Ok tpl =>
                    executeTemplate rd tpl dst "page.html" (PageData pageLayout)
                end
            end
        end
  end.

End Functions.

End renderer.

(** ** Readings of the renderer used in the statements *)

Module spec.
Import renderer.

Section Readings.
Context {env : Env}.

(** The steps of [RenderList] that come before the filtering succeed:
    the configuration is valid, the list template exists and the theme
    directory can be listed. *)
Definition listReady (rd : Renderer) : bool :=
  match validateConfig rd with
  | Some _ => false
  | None =>
      fileExists (fp.Join [themeDir rd; "list.html"])
      && match getBaseTemplates rd with
         | Go.Ok _ => true
         | Go.Failed _ => false
         end
  end.

(** The group name a category list is filtered with. *)
Definition categoryOf (groupName : string) : string :=
  if String.eqb groupName "uncategorized" then "" else groupName.

(** A name that is one clean path element: not empty, not [.] or
    [..], and without a slash. *)
Definition plainName (name : string) : bool :=
  negb (String.eqb name "")
  && negb (String.eqb name ".")
  && negb (String.eqb name "..")
  && forallb (fun c => negb (path.is_slash c)) (list_ascii_of_string name).

(** What [RenderFrontPage] does once [activeTemplate] is chosen and
    [templates] are the files to parse. *)
Definition frontPageWith (rd : Renderer) (dst : Go.Writer)
           (activeTemplate : string) (templates : list string)
  : Go.run (Go.Writer * option Go.error) :=
  match getListPosts rd (Renderer_Posts rd) 1 with
  | Go.Panic msg => Go.Panic msg
  | Go.Done window =>
      match ParseFiles templates with
      | Go.Failed err => Go.Done (dst, Some err)
      | Go.Ok tpl =>
          Go.Done (executeTemplate rd tpl dst activeTemplate
                                   (ListData (frontPage rd window)))
      end
  end.
End Readings.

(** A byte sequence that is one clean path element. *)
Definition plain (l : list ascii) : Prop :=
  l <> [] /\ l <> [path.dot] /\ l <> [path.dot; path.dot]
  /\ forallb (fun c => negb (path.is_slash c)) l = true.

(** The order of a slice sorted with [less]: no element is less than the
    one before it ([up]); and the order of the part already sorted, read
    from its last element ([down]). *)
Definition up {A : Type} (less : A -> A -> bool) (a b : A) : Prop := less b a = false.
Definition down {A : Type} (less : A -> A -> bool) (a b : A) : Prop := less a b = false.

(** [num / den] lies in [[m, m + 1)], at the place the two bits say. *)
Definition located (num den : Z) (mrs : shr_record) : Prop :=
  0 <= shr_m mrs /\ 0 < den
  /\ match shr_r mrs, shr_s mrs with
     | false, false => num - shr_m mrs * den = 0
     | false, true => 0 < num - shr_m mrs * den /\ 2 * (num - shr_m mrs * den) < den
     | true, false => 2 * (num - shr_m mrs * den) = den
     | true, true => den < 2 * (num - shr_m mrs * den) /\ num - shr_m mrs * den < den
     end.
End spec.

(** ** A small site, to run the renderer on *)

Module Demo.
Import renderer.

Definition post (title category : string) (tags : list string) : model.Post :=
  {| model.Post_Path := title;
     model.Post_Title := title;
     model.Post_Excerpt := "";
     model.Post_Thumbnail := "";
     model.Post_Author := "";
     model.Post_Category := category;
     model.Post_Tags := tags;
     model.Post_CreatedAt := "";
     model.Post_UpdatedAt := "" |}.

Definition file (name : string) : FileInfo :=
  {| FileInfo_Name := name; FileInfo_IsDir := false |}.

(** A theme directory with the files [present]; the templates print the
    path and the post titles of a list, the category path and the tag
    paths of a post; executing the template [broken.html] fails after
    some output, and the minifier fails on the input [<bad>]. *)
Definition env (present : list string) : Env :=
  {| Template := list string;
     fileExists := fun p => existsb (fun n => String.eqb p ("theme/t/" ++ n)%string) present;
     ReadDir := fun d => Go.Ok (map file present);
     ParseFiles := fun files => Go.Ok files;
     ExecuteTemplate := fun tpl name data =>
       if String.eqb name "broken.html"
       then ("<html", Some (Go.Foreign "template" "execution failed"))
       else
         match data with
         | ListData l =>
             ((List_Path l ++ ":" ++
               strings.Join (map model.Post_Title (List_Posts l)) ",")%string, None)
         | PageData p => (Page_HTML p, None)
         | PostData p =>
             ((model.Path (Post_Category p) ++ ":" ++
               strings.Join (map model.Path (Post_Tags p)) ",")%string, None)
         end;
     Minify := fun s =>
       if String.eqb s "<bad>"
       then ("", Some (Go.Foreign "minify" "parse error"))
       else (s, None);
     readIndexFile := fun p => Go.Ok p;
     removeMetadata := fun s => s;
     bf_Run := fun s => s;
     highlightCode := fun s => s;
     int_of_unrepresentable := fun _ => Go.min_int |}.

Definition site (pagination : Go.int) (minimize : bool) (posts : list model.Post) : Renderer :=
  {| Config := {| model.Theme := "t";
                  model.Title := "Site";
                  model.Owner := "Owner";
                  model.Description := "About";
                  model.Pagination := pagination |};
     Renderer_Pages := [];
     Renderer_Posts := posts;
     Renderer_Tags := [];
     Renderer_Categories := [];
     Minimize := minimize;
     RootDir := "" |}.

Definition A := post "A" "" ["z"; "a"].
Definition B := post "B" "x" ["a"; "b"].
Definition C := post "C" "x" [].

Definition full := ["_header.html"; "frontpage.html"; "list.html"; "post.html"].

(** Three posts, two to a page. *)
Definition blog : Renderer := site 2 false [A; B; C].

(** The same site with minification on. *)
Definition minimized : Renderer := site 2 true [A; B; C].

Definition layout : Layout :=
  {| WebsiteTitle := "Site"; WebsiteOwner := "Owner"; ContentTitle := "";
     ContentDesc := ""; ContentAuthor := ""; Pages := [] |}.

(** A post filed under [..] and tagged [..], and one whose tags are not
    in order. *)
Definition dotdot : model.Post := post "P" ".." [".."].
Definition tagged : model.Post := post "T" "x" ["c"; "a"; "b"].

(** A page whose body the minifier of [env] rejects. *)
Definition badPage : ViewData :=
  PageData {| Page_Layout := layout; Page_Thumbnail := ""; Page_HTML := "<bad>" |}.
End Demo.

(** ** Sites whose collaborators fail *)

Module Broken.
Import renderer.

Definition denied : Go.error := Go.Foreign "os" "permission denied".
Definition missing : Go.error := Go.Foreign "os" "no such file".
Definition malformed : Go.error := Go.Foreign "template" "unexpected EOF".

(** The demo theme on a file system that refuses to list directories. *)
Definition unreadable (present : list string) : Env :=
  {| Template := list string;
     fileExists := fileExists (Env := Demo.env present);
     ReadDir := fun _ => Go.Failed denied;
     ParseFiles := ParseFiles (Env := Demo.env present);
     ExecuteTemplate := ExecuteTemplate (Env := Demo.env present);
     Minify := Minify (Env := Demo.env present);
     readIndexFile := readIndexFile (Env := Demo.env present);
     removeMetadata := removeMetadata (Env := Demo.env present);
     bf_Run := bf_Run (Env := Demo.env present);
     highlightCode := highlightCode (Env := Demo.env present);
     int_of_unrepresentable := int_of_unrepresentable (Env := Demo.env present) |}.

(** The demo theme when the body of no content can be read. *)
Definition bodyless (present : list string) : Env :=
  {| Template := list string;
     fileExists := fileExists (Env := Demo.env present);
     ReadDir := ReadDir (Env := Demo.env present);
     ParseFiles := ParseFiles (Env := Demo.env present);
     ExecuteTemplate := ExecuteTemplate (Env := Demo.env present);
     Minify := Minify (Env := Demo.env present);
     readIndexFile := fun _ => Go.Failed missing;
     removeMetadata := removeMetadata (Env := Demo.env present);
     bf_Run := bf_Run (Env := Demo.env present);
     highlightCode := highlightCode (Env := Demo.env present);
     int_of_unrepresentable := int_of_unrepresentable (Env := Demo.env present) |}.

(** The demo theme with templates that do not parse. *)
Definition unparsable (present : list string) : Env :=
  {| Template := list string;
     fileExists := fileExists (Env := Demo.env present);
     ReadDir := ReadDir (Env := Demo.env present);
     ParseFiles := fun _ => Go.Failed malformed;
     ExecuteTemplate := ExecuteTemplate (Env := Demo.env present);
     Minify := Minify (Env := Demo.env present);
     readIndexFile := readIndexFile (Env := Demo.env present);
     removeMetadata := removeMetadata (Env := Demo.env present);
     bf_Run := bf_Run (Env := Demo.env present);
     highlightCode := highlightCode (Env := Demo.env present);
     int_of_unrepresentable := int_of_unrepresentable (Env := Demo.env present) |}.

(** A site without theme. *)
Definition themeless : Renderer :=
  {| Config := {| model.Theme := "";
                  model.Title := "Site";
                  model.Owner := "Owner";
                  model.Description := "About";
                  model.Pagination := 2 |};
     Renderer_Pages := [];
     Renderer_Posts := [Demo.A];
     Renderer_Tags := [];
     Renderer_Categories := [];
     Minimize := false;
     RootDir := "" |}.

Definition about : model.Page :=
  {| model.Page_Path := "about/index.md";
     model.Page_Title := "About";
     model.Page_Excerpt := "Who we are";
     model.Page_Thumbnail := "about.png" |}.
End Broken.

(** ** The shape of the paths handed to the templates *)

Module urls.

(** The bytes of names separated by one slash each. *)
Fixpoint joined (names : list (list ascii)) : list ascii :=
  match names with
  | [] => []
  | [name] => name
  | name :: rest => name ++ path.slash :: joined rest
  end.

(** A clean absolute path: a slash, then names that are clean path
    elements, separated by one slash each. *)
Definition cleanAbsolute (p : string) : Prop :=
  exists names : list string,
    Forall (fun name => spec.plainName name = true) names
    /\ p = ("/" ++ strings.Join names "/")%string.

End urls.

(** * Facts *)

Import renderer.

(** ** Cleaning paths *)

Module path_facts.
Import path.

Lemma element_length (rest e rest' : list ascii) :
  element rest = (e, rest') -> (List.length rest' <= List.length rest)%nat.
Proof.
  revert e rest'. induction rest as [|c rest IH]; simpl; intros e rest' H.
  - inversion H. simpl. lia.
  - destruct (is_slash c).
    + inversion H. simpl. lia.
    + destruct (element rest) as [e1 tl1]. inversion H; subst.
      specialize (IH _ _ eq_refl). lia.
Qed.

(** The loop of [Clean] reads at least one byte per turn: the fuel it is
    given, the length of the path, is enough, and more fuel changes
    nothing. *)
Lemma clean_loop_fuel (f1 : nat) :
  forall (f2 : nat) (rooted : bool) (rest out : list ascii) (dotdot : nat),
    (List.length rest <= f1)%nat -> (List.length rest <= f2)%nat ->
    clean_loop f1 rooted rest out dotdot = clean_loop f2 rooted rest out dotdot.
Proof.
  induction f1 as [|f1 IH]; intros f2 rooted rest out dotdot H1 H2.
  - destruct rest; [|simpl in H1; lia]. destruct f2; reflexivity.
  - destruct f2 as [|f2].
    { destruct rest; [reflexivity | simpl in H2; lia]. }
    destruct rest as [|c rest1]; [reflexivity|].
    simpl in H1, H2. cbn [clean_loop].
    assert (Htl : (List.length (tl rest1) <= List.length rest1)%nat)
      by (destruct rest1; simpl; lia).
    destruct (is_slash c) eqn:Hc; [apply IH; lia|].
    destruct (is_dot c && at_end_or_slash rest1); [apply IH; lia|].
    destruct (is_dot c && at_dot rest1 && at_end_or_slash (tl rest1)).
    + destruct (dotdot <? List.length out)%nat; [apply IH; lia|].
      destruct (negb rooted); apply IH; lia.
    + cbn [element]. rewrite Hc.
      destruct (element rest1) as [e rest'] eqn:He.
      apply element_length in He. apply IH; lia.
Qed.

End path_facts.

Module path_plain.
Import path path_facts spec.

Lemma element_plain_app (l tl : list ascii) :
  forallb (fun c => negb (is_slash c)) l = true ->
  at_end_or_slash tl = true ->
  element (l ++ tl) = (l, tl).
Proof.
  intros Hl Htl. induction l as [|c l IH]; cbn [app element].
  - destruct tl as [|c tl]; [reflexivity|].
    cbn [at_end_or_slash] in Htl. cbn [element]. rewrite Htl. reflexivity.
  - cbn [forallb] in Hl. apply andb_prop in Hl. destruct Hl as [Hc Hl].
    apply negb_true_iff in Hc. rewrite Hc, (IH Hl). reflexivity.
Qed.

(** One turn of the loop on a clean element: the element is copied,
    after a slash if the buffer holds more than the root. *)
Lemma clean_loop_element (l rest : list ascii) (fuel : nat) (rooted : bool)
      (out : list ascii) (dotdot : nat) :
  plain l -> at_end_or_slash rest = true ->
  clean_loop (S fuel) rooted (l ++ rest) out dotdot
  = clean_loop fuel rooted rest
      ((if (rooted && negb (List.length out =? 1)%nat)
           || (negb rooted && negb (List.length out =? 0)%nat)
        then out ++ [slash] else out) ++ l) dotdot.
Proof.
  intros (Hnil & Hdot & Hdd & Hplain) Htl.
  pose proof (element_plain_app l rest Hplain Htl) as Hel.
  destruct l as [|c l1]; [congruence|].
  pose proof Hplain as Hall. cbn [forallb] in Hall. apply andb_prop in Hall.
  destruct Hall as [Hc Hl1]. apply negb_true_iff in Hc.
  assert (Hno : forall c1 l2, l1 = c1 :: l2 -> is_slash c1 = false).
  { intros c1 l2 ->. cbn [forallb] in Hl1. apply andb_prop in Hl1.
    destruct Hl1 as [Hc1 _]. apply negb_true_iff in Hc1. exact Hc1. }
  rewrite <- app_comm_cons in *. cbn [clean_loop]. rewrite Hc.
  assert (H1 : is_dot c && at_end_or_slash (l1 ++ rest) = false).
  { destruct (is_dot c) eqn:Hd; [|reflexivity]. cbn [andb].
    apply Ascii.eqb_eq in Hd. subst c.
    destruct l1 as [|c1 l2]; [congruence|].
    rewrite <- app_comm_cons. cbn [at_end_or_slash]. exact (Hno _ _ eq_refl). }
  rewrite H1.
  assert (H2 : is_dot c && at_dot (l1 ++ rest) && at_end_or_slash (List.tl (l1 ++ rest)) = false).
  { destruct (is_dot c) eqn:Hd; [|reflexivity]. cbn [andb].
    apply Ascii.eqb_eq in Hd. subst c.
    destruct l1 as [|c1 l2].
    - cbn [app]. destruct rest as [|t rest']; [reflexivity|].
      cbn [at_end_or_slash] in Htl. cbn [at_dot].
      unfold is_dot. unfold is_slash in Htl. apply Ascii.eqb_eq in Htl. subst t.
      reflexivity.
    - rewrite <- app_comm_cons. cbn [at_dot List.tl].
      destruct (is_dot c1) eqn:Hd1; [|reflexivity]. cbn [andb].
      apply Ascii.eqb_eq in Hd1. subst c1.
      destruct l2 as [|c2 l3]; [congruence|].
      rewrite <- app_comm_cons. cbn [at_end_or_slash].
      cbn [forallb] in Hl1. apply andb_prop in Hl1. destruct Hl1 as [_ Hl2].
      apply andb_prop in Hl2. destruct Hl2 as [Hc2 _].
      apply negb_true_iff in Hc2. exact Hc2. }
  rewrite H2, Hel. reflexivity.
Qed.

Lemma clean_loop_slash (l : list ascii) (fuel : nat) (rooted : bool)
      (out : list ascii) (dotdot : nat) :
  clean_loop (S fuel) rooted (slash :: l) out dotdot
  = clean_loop fuel rooted l out dotdot.
Proof. reflexivity. Qed.

Lemma clean_loop_end (fuel : nat) (rooted : bool) (out : list ascii) (dotdot : nat) :
  clean_loop fuel rooted [] out dotdot = out.
Proof. destruct fuel; reflexivity. Qed.

(** A rooted path of two clean elements is clean, also when the second
    element is written after two slashes or the first after two. *)
Lemma clean_bytes_two (a b : list ascii) :
  plain a -> plain b ->
  clean_bytes (slash :: a ++ slash :: b) = slash :: a ++ slash :: b
  /\ clean_bytes (slash :: slash :: a ++ slash :: b) = slash :: a ++ slash :: b.
Proof.
  intros Ha Hb.
  assert (Hloop : forall fuel,
             clean_loop (S (S (S fuel))) true (a ++ slash :: b) [slash] 1
             = slash :: a ++ slash :: b).
  { intros fuel.
    rewrite (clean_loop_element a (slash :: b) _ true [slash] 1 Ha eq_refl).
    rewrite clean_loop_slash.
    rewrite <- (app_nil_r b) at 1.
    rewrite (clean_loop_element b [] _ true _ 1 Hb eq_refl).
    rewrite clean_loop_end.
    destruct Ha as (Hnil & _). destruct a as [|c a']; [congruence|].
    cbn [List.length app Nat.eqb andb negb orb].
    rewrite <- !app_assoc. reflexivity. }
  assert (Hlen : exists n, List.length (a ++ slash :: b) = S (S n)).
  { destruct Ha as (Hnil & _). destruct a as [|c a']; [congruence|].
    rewrite length_app. cbn [List.length]. exists (List.length a' + List.length b)%nat. lia. }
  destruct Hlen as [n Hn].
  destruct Ha as (Hnil & _). destruct a as [|c a']; [congruence|].
  split.
  - unfold clean_bytes. change (is_slash slash) with true. cbv iota.
    cbn [List.length]. cbn [List.length] in Hn. rewrite Hn.
    rewrite Hloop. reflexivity.
  - unfold clean_bytes. change (is_slash slash) with true. cbv iota.
    cbn [List.length]. cbn [List.length] in Hn. rewrite Hn.
    rewrite clean_loop_slash, Hloop. reflexivity.
Qed.

Lemma list_ascii_of_string_app (a b : string) :
  list_ascii_of_string (a ++ b)%string
  = list_ascii_of_string a ++ list_ascii_of_string b.
Proof. induction a as [|c a IH]; simpl; [reflexivity | rewrite IH; reflexivity]. Qed.

Lemma string_of_list_ascii_app (a b : list ascii) :
  string_of_list_ascii (a ++ b)
  = (string_of_list_ascii a ++ string_of_list_ascii b)%string.
Proof. induction a as [|c a IH]; simpl; [reflexivity | rewrite IH; reflexivity]. Qed.

Lemma plainName_bytes (name : string) :
  spec.plainName name = true ->
  plain (list_ascii_of_string name).
Proof.
  unfold spec.plainName. intros H.
  repeat (apply andb_prop in H; destruct H as [H ?]).
  repeat match goal with
         | Hn : negb (String.eqb _ _) = true |- _ =>
             apply negb_true_iff, String.eqb_neq in Hn
         end.
  assert (Hinj : forall s, list_ascii_of_string name = list_ascii_of_string s -> name = s).
  { intros s Hs. rewrite <- (string_of_list_ascii_of_string name), Hs.
    apply string_of_list_ascii_of_string. }
  repeat split; try assumption; intros Hl.
  - apply (Hinj "") in Hl. congruence.
  - apply (Hinj ".") in Hl. congruence.
  - apply (Hinj "..") in Hl. congruence.
Qed.

End path_plain.

(** ** Joining a group name to its root *)

Module join_facts.
Import path path_facts path_plain.

Lemma Clean_bytes (p : string) :
  Clean p = string_of_list_ascii (clean_bytes (list_ascii_of_string p)).
Proof. reflexivity. Qed.

(** [filepath.Join("/", root, name)] is the cleaned [/root/name]. *)
Lemma fp_Join_root (root name : string) :
  fp.Join ["/"; root; name] = Clean ("/" ++ root ++ "/" ++ name).
Proof.
  unfold fp.Join. cbn [Join]. change (String.eqb "/" "") with false. cbv iota.
  change (strings.Join ["/"; root; name] "/")
    with (String slash (String slash (root ++ String slash name))).
  change ("/" ++ root ++ "/" ++ name)%string
    with (String slash (root ++ String slash name)).
  rewrite !Clean_bytes. f_equal.
Qed.

(** A rooted path of two plain names is clean. *)
Lemma Clean_two_plain (root name : string) :
  spec.plainName root = true -> spec.plainName name = true ->
  Clean ("/" ++ root ++ "/" ++ name) = ("/" ++ root ++ "/" ++ name)%string.
Proof.
  intros Hroot Hname. rewrite Clean_bytes.
  change ("/" ++ root ++ "/" ++ name)%string
    with (String slash (root ++ String slash name)).
  cbn [list_ascii_of_string]. rewrite list_ascii_of_string_app.
  cbn [list_ascii_of_string].
  destruct (clean_bytes_two _ _ (plainName_bytes _ Hroot) (plainName_bytes _ Hname))
    as [-> _].
  cbn [string_of_list_ascii]. rewrite string_of_list_ascii_app.
  cbn [string_of_list_ascii]. rewrite !string_of_list_ascii_of_string. reflexivity.
Qed.
End join_facts.

(** ** The order of strings *)

Module string_order.

Lemma ascii_compare_trans (a b c : ascii) :
  Ascii.compare a b = Lt -> Ascii.compare b c = Lt -> Ascii.compare a c = Lt.
Proof.
  unfold Ascii.compare. rewrite !N.compare_lt_iff. apply N.lt_trans.
Qed.

Lemma compare_trans (a : string) :
  forall b c, String.compare a b = Lt -> String.compare b c = Lt ->
              String.compare a c = Lt.
Proof.
  induction a as [|x a IH]; intros [|y b] [|z c]; simpl; try congruence.
  destruct (Ascii.compare x y) eqn:Hxy; try discriminate;
    destruct (Ascii.compare y z) eqn:Hyz; try discriminate; intros Hab Hbc.
  - apply Ascii.compare_eq_iff in Hxy, Hyz. subst.
    replace (Ascii.compare z z) with Eq
      by (symmetry; unfold Ascii.compare; apply N.compare_refl).
    eapply IH; eassumption.
  - apply Ascii.compare_eq_iff in Hxy. subst. rewrite Hyz. reflexivity.
  - apply Ascii.compare_eq_iff in Hyz. subst. rewrite Hxy. reflexivity.
  - rewrite (ascii_compare_trans _ _ _ Hxy Hyz). reflexivity.
Qed.

Lemma compare_refl (a : string) : String.compare a a = Eq.
Proof.
  induction a as [|x a IH]; simpl; [reflexivity|].
  replace (Ascii.compare x x) with Eq
    by (symmetry; unfold Ascii.compare; apply N.compare_refl).
  exact IH.
Qed.

Lemma leb_trans (a b c : string) :
  String.leb a b = true -> String.leb b c = true -> String.leb a c = true.
Proof.
  unfold String.leb.
  destruct (String.compare a b) eqn:Hab; try discriminate;
    destruct (String.compare b c) eqn:Hbc; try discriminate; intros _ _.
  - apply String.compare_eq_iff in Hab, Hbc. subst. rewrite compare_refl. reflexivity.
  - apply String.compare_eq_iff in Hab. subst. rewrite Hbc. reflexivity.
  - apply String.compare_eq_iff in Hbc. subst. rewrite Hab. reflexivity.
  - rewrite (compare_trans _ _ _ Hab Hbc). reflexivity.
Qed.

(** [b < a] is false exactly when [a <= b]. *)
Lemma ltb_false_leb (a b : string) :
  String.ltb b a = false <-> String.leb a b = true.
Proof.
  unfold String.ltb, String.leb. rewrite (String.compare_antisym a b).
  destruct (String.compare b a); simpl; split; congruence.
Qed.

Lemma ltb_asym (a b : string) : String.ltb a b = true -> String.ltb b a = false.
Proof.
  unfold String.ltb. rewrite (String.compare_antisym a b).
  destruct (String.compare b a); simpl; congruence.
Qed.
End string_order.

(** ** Sorting by insertion *)

Module sort_facts.
Import sort.

Section Sink.
Context {A : Type}.
Variable less : A -> A -> bool.
Hypothesis less_asym : forall a b, less a b = true -> less b a = false.

Local Abbreviation down := (spec.down less).
Local Abbreviation up := (spec.up less).

Lemma sink_perm (x : A) (sorted : list A) :
  Permutation (sink less x sorted) (x :: sorted).
Proof.
  induction sorted as [|y sorted IH]; simpl; [reflexivity|].
  destruct (less x y); [|reflexivity].
  rewrite IH. apply perm_swap.
Qed.

Lemma sink_hd (x y : A) (sorted : list A) :
  less x y = true -> HdRel down y sorted -> HdRel down y (sink less x sorted).
Proof.
  intros Hxy Hhd. destruct sorted as [|z sorted]; simpl.
  - constructor. apply less_asym. exact Hxy.
  - destruct (less x z).
    + constructor. inversion Hhd; assumption.
    + constructor. apply less_asym. exact Hxy.
Qed.

Lemma sink_sorted (x : A) (sorted : list A) :
  Sorted down sorted -> Sorted down (sink less x sorted).
Proof.
  induction 1 as [|y sorted Hs IH Hhd]; simpl.
  - repeat constructor.
  - destruct (less x y) eqn:Hxy.
    + constructor; [exact IH | apply sink_hd; assumption].
    + constructor; [constructor; assumption | constructor; exact Hxy].
Qed.

Lemma fold_sink (s : list A) :
  forall sorted,
    Sorted down sorted ->
    Sorted down (fold_left (fun sorted x => sink less x sorted) s sorted)
    /\ Permutation (fold_left (fun sorted x => sink less x sorted) s sorted)
                   (rev s ++ sorted).
Proof.
  induction s as [|x s IH]; simpl; intros sorted Hs.
  - split; [assumption | reflexivity].
  - destruct (IH (sink less x sorted) (sink_sorted x sorted Hs)) as [Hsorted Hperm].
    split; [exact Hsorted|].
    rewrite Hperm, sink_perm, <- app_assoc. simpl.
    apply Permutation_app_head. reflexivity.
Qed.

Lemma Sorted_snoc (R : A -> A -> Prop) (l : list A) (x : A) :
  Sorted R l -> (forall y, last l x = y -> l <> [] -> R y x) -> Sorted R (l ++ [x]).
Proof.
  induction 1 as [|y l Hs IH Hhd]; simpl; intros Hlast.
  - repeat constructor.
  - constructor.
    + apply IH. intros z Hz Hne. apply Hlast; [|discriminate].
      destruct l; [congruence | exact Hz].
    + destruct l as [|z l]; simpl.
      * constructor. apply Hlast; [reflexivity | discriminate].
      * constructor. inversion Hhd; assumption.
Qed.

Lemma Sorted_rev (l : list A) : Sorted down l -> Sorted up (rev l).
Proof.
  induction 1 as [|y l Hs IH Hhd]; simpl; [constructor|].
  apply Sorted_snoc; [exact IH|].
  intros z Hz Hne. destruct l as [|w l]; [simpl in Hne; congruence|].
  inversion Hhd as [|? ? Hyw]; subst. simpl.
  rewrite last_last. exact Hyw.
Qed.

(** [sort.Slice] returns the elements of the slice in an order in
    which no element is less than the one before it. *)
Lemma Slice_sorted (s : list A) :
  Sorted up (Slice less s) /\ Permutation (Slice less s) s.
Proof.
  unfold Slice, insertionSort.
  destruct (fold_sink s [] (Sorted_nil _)) as [Hsorted Hperm].
  split.
  - apply Sorted_rev. exact Hsorted.
  - rewrite <- Permutation_rev, Hperm, app_nil_r. symmetry. apply Permutation_rev.
Qed.
End Sink.

Section Unique.
Context {A K : Type}.
Variable key : A -> K.
Variable le : K -> K -> Prop.
Hypothesis le_antisym : forall a b, le a b -> le b a -> a = b.
Hypothesis le_refl : forall a, le a a.

(** Two sorted arrangements of the same elements are the same list, when
    the elements are told apart by their keys. *)
Lemma sorted_unique (l1 : list A) :
  forall l2,
    (forall a b, In a l1 -> In b l1 -> key a = key b -> a = b) ->
    StronglySorted (fun a b => le (key a) (key b)) l1 ->
    StronglySorted (fun a b => le (key a) (key b)) l2 ->
    Permutation l1 l2 -> l1 = l2.
Proof.
  induction l1 as [|x l1 IH]; intros l2 Hkey Hs1 Hs2 Hperm.
  - apply Permutation_nil in Hperm. symmetry. exact Hperm.
  - destruct l2 as [|y l2].
    { apply Permutation_sym, Permutation_nil in Hperm. discriminate. }
    inversion Hs1 as [|? ? Hs1' Hx]; subst. inversion Hs2 as [|? ? Hs2' Hy]; subst.
    assert (Hxy : x = y).
    { assert (Hyin : In y (x :: l1))
        by (apply (Permutation_in _ (Permutation_sym Hperm)); left; reflexivity).
      assert (Hxin : In x (y :: l2))
        by (apply (Permutation_in _ Hperm); left; reflexivity).
      apply Hkey; [left; reflexivity | exact Hyin |].
      apply le_antisym.
      - destruct Hyin as [->|Hyin]; [apply le_refl|].
        rewrite Forall_forall in Hx. apply Hx. exact Hyin.
      - destruct Hxin as [->|Hxin]; [apply le_refl|].
        rewrite Forall_forall in Hy. apply Hy. exact Hxin. }
    subst y. f_equal. apply IH.
    + intros a b Ha Hb. apply Hkey; right; assumption.
    + exact Hs1'.
    + exact Hs2'.
    + apply Permutation_cons_inv with x. exact Hperm.
Qed.
End Unique.
End sort_facts.

(** ** Binary64 arithmetic

    What the rounding of [SpecFloat] does, in terms of integers: a number
    [num / den] is located by a mantissa [m] and two bits that tell where
    it lies between [m] and [m + 1]. *)

Module float_facts.
Import float64 spec.

Lemma digits_bounds (p : positive) :
  2 ^ (Zpos (digits2_pos p) - 1) <= Zpos p < 2 ^ Zpos (digits2_pos p).
Proof.
  induction p as [p IH|p IH|]; cbn [digits2_pos].
  - rewrite Pos2Z.inj_succ. replace (Z.succ (Zpos (digits2_pos p)) - 1)
      with (Z.succ (Zpos (digits2_pos p) - 1)) by lia.
    rewrite !Z.pow_succ_r by lia. lia.
  - rewrite Pos2Z.inj_succ. replace (Z.succ (Zpos (digits2_pos p)) - 1)
      with (Z.succ (Zpos (digits2_pos p) - 1)) by lia.
    rewrite !Z.pow_succ_r by lia. lia.
  - simpl. lia.
Qed.

Lemma digits_unique (p : positive) (d : Z) :
  2 ^ (d - 1) <= Zpos p < 2 ^ d -> Zpos (digits2_pos p) = d.
Proof.
  intros [Hlo Hhi]. pose proof (digits_bounds p) as [Hlo' Hhi'].
  assert (0 < d).
  { destruct (Z.le_gt_cases d 0) as [Hd|Hd]; [|exact Hd].
    assert (2 ^ d <= 2 ^ 0) by (apply Z.pow_le_mono_r; lia).
    change (2 ^ 0) with 1 in *. lia. }
  assert (d - 1 < Zpos (digits2_pos p)).
  { apply (Z.pow_lt_mono_r_iff 2); lia. }
  assert (Zpos (digits2_pos p) - 1 < d).
  { apply (Z.pow_lt_mono_r_iff 2); lia. }
  lia.
Qed.

Lemma iter_pos_nat {A : Type} (f : A -> A) (p : positive) :
  forall x, iter_pos f p x = Nat.iter (Pos.to_nat p) f x.
Proof.
  induction p as [p IH|p IH|]; intros x; cbn [iter_pos].
  - rewrite !IH, Pos2Nat.inj_xI, <- Nat.iter_succ_r, <- Nat.iter_add.
    f_equal. lia.
  - rewrite !IH, Pos2Nat.inj_xO, <- Nat.iter_add. f_equal. lia.
  - reflexivity.
Qed.

Lemma located_floor (num den : Z) (mrs : shr_record) :
  located num den mrs -> shr_m mrs * den <= num < (shr_m mrs + 1) * den.
Proof.
  unfold located. destruct (shr_r mrs), (shr_s mrs); lia.
Qed.

Lemma shr_1_located (num den : Z) (mrs : shr_record) :
  located num den mrs -> located num (2 * den) (shr_1 mrs).
Proof.
  destruct mrs as [m r s]. unfold located. cbn [shr_m shr_r shr_s shr_1].
  intros (Hm & Hden & Hloc).
  destruct m as [|[p|p|]|p]; [| | | |lia];
    destruct r, s; cbn [shr_m shr_r shr_s orb]; lia.
Qed.

Lemma shr_iter_located (n : nat) (num den : Z) (mrs : shr_record) :
  located num den mrs -> located num (2 ^ Z.of_nat n * den) (Nat.iter n shr_1 mrs).
Proof.
  intros H. induction n as [|n IH].
  - change (2 ^ Z.of_nat 0) with 1. rewrite Z.mul_1_l. exact H.
  - rewrite Nat2Z.inj_succ, Z.pow_succ_r by lia. cbn [Nat.iter].
    replace (2 * 2 ^ Z.of_nat n * den) with (2 * (2 ^ Z.of_nat n * den)) by lia.
    apply shr_1_located. exact IH.
Qed.

Lemma record_of_loc_m (m : Z) (l : location) : shr_m (shr_record_of_loc m l) = m.
Proof. destruct l as [|[]]; reflexivity. Qed.

(** The remainder of a division tells where the quotient lies. *)
Lemma new_location_located (q r den : Z) :
  0 <= q -> 0 <= r < den ->
  located (q * den + r) den (shr_record_of_loc q (new_location den r)).
Proof.
  intros Hq Hr. unfold located. rewrite record_of_loc_m.
  split; [exact Hq|]. split; [lia|].
  replace (q * den + r - q * den) with r by lia.
  unfold new_location, new_location_even, new_location_odd.
  change (IntDef.Z.even den) with (Z.even den).
  destruct (Z.even den) eqn:Heven; cbv beta.
  - destruct (Z.eqb_spec r 0) as [Hr0|Hr0];
      [cbn [shr_r shr_s shr_record_of_loc]; lia|].
    destruct (Z.compare_spec (2 * r) den); cbn [shr_r shr_s shr_record_of_loc]; lia.
  - assert (Hodd : Z.odd den = true) by (rewrite <- Z.negb_even, Heven; reflexivity).
    apply Z.odd_spec in Hodd. destruct Hodd as [k Hk].
    destruct (Z.eqb_spec r 0) as [Hr0|Hr0];
      [cbn [shr_r shr_s shr_record_of_loc]; lia|].
    destruct (Z.compare_spec (2 * r + 1) den); cbn [shr_r shr_s shr_record_of_loc]; lia.
Qed.

(** Rounding to nearest, ties to even, takes [m] or [m + 1]: [m] when the
    number is [m], [m + 1] when it is above the middle. *)
Lemma round_located (num den : Z) (mrs : shr_record) :
  located num den mrs ->
  let m := shr_m mrs in
  let m1 := round_nearest_even m (loc_of_shr_record mrs) in
  m <= m1 <= m + 1
  /\ (num = m * den -> m1 = m)
  /\ (den < 2 * (num - m * den) -> m1 = m + 1).
Proof.
  destruct mrs as [m r s]. unfold located. cbn [shr_m shr_r shr_s].
  intros (Hm & Hden & Hloc).
  destruct r, s; cbn [loc_of_shr_record round_nearest_even];
    try destruct (Z.even m); lia.
Qed.
Lemma fexp_normal (e : Z) : -1021 <= e -> fexp prec emax e = e - 53.
Proof.
  intros He. unfold fexp, emin, prec, emax.
  change IntDef.Z.max with Z.max. lia.
Qed.

(** The first step of a rounding: a mantissa of at least 53 digits loses
    the digits it has above 53. *)
Lemma shr_fexp_spec (p : positive) (e : Z) (l : location) :
  53 <= Zpos (digits2_pos p) ->
  -1021 <= Zpos (digits2_pos p) + e ->
  shr_fexp prec emax (Zpos p) e l
  = (Nat.iter (Z.to_nat (Zpos (digits2_pos p) - 53)) shr_1 (shr_record_of_loc (Zpos p) l),
     e + (Zpos (digits2_pos p) - 53)).
Proof.
  intros Hd He. unfold shr_fexp. cbn [Zdigits2].
  rewrite (fexp_normal _ He).
  replace (Zpos (digits2_pos p) + e - 53 - e) with (Zpos (digits2_pos p) - 53) by lia.
  unfold shr.
  destruct (Zpos (digits2_pos p) - 53) as [|k|k] eqn:Hk; [| |lia].
  - cbn [Z.to_nat Nat.iter]. rewrite Z.add_0_r. reflexivity.
  - rewrite iter_pos_nat. reflexivity.
Qed.

(** What [binary_round_aux] returns on a mantissa [q] of [d >= 53] digits
    that locates [num / den]: with [D = 2 ^ (d - 53) * den], the 53 digit
    floor [m] of [num / D] or its successor [m1], chosen to the nearest;
    the exponent goes up by [d - 53], and by one more when [m1] is
    [2 ^ 53]. *)
Lemma binary_round_aux_spec (sx : bool) (p : positive) (e : Z) (l : location)
      (num den : Z) :
  let d := Zpos (digits2_pos p) in
  let D := 2 ^ (d - 53) * den in
  53 <= d -> -1021 <= d + e -> d + e <= 1023 ->
  located num den (shr_record_of_loc (Zpos p) l) ->
  exists (m m1 : Z) (m2 : positive) (e2 : Z),
    binary_round_aux prec emax sx (Zpos p) e l = S754_finite sx m2 e2
    /\ 2 ^ 52 <= m < 2 ^ 53
    /\ m * D <= num < (m + 1) * D
    /\ m <= m1 <= m + 1
    /\ (num = m * D -> m1 = m)
    /\ (D < 2 * (num - m * D) -> m1 = m + 1)
    /\ 2 ^ 52 <= Zpos m2 < 2 ^ 53
    /\ ((Zpos m2 = m1 /\ e2 = e + (d - 53))
        \/ (m1 = 2 ^ 53 /\ Zpos m2 = 2 ^ 52 /\ e2 = e + (d - 53) + 1)).
Proof.
  intros d D Hd Hlo Hhi Hloc.
  pose proof (digits_bounds p) as Hp. fold d in Hp.
  pose proof (located_floor _ _ _ Hloc) as Hq. rewrite record_of_loc_m in Hq.
  assert (Hden : 0 < den) by (destruct Hloc as (_ & H & _); exact H).
  pose proof (shr_iter_located (Z.to_nat (d - 53)) _ _ _ Hloc) as Hloc'.
  rewrite Z2Nat.id in Hloc' by lia. fold D in Hloc'.
  unfold binary_round_aux. rewrite (shr_fexp_spec p e l Hd Hlo). fold d.
  set (mrs := Nat.iter (Z.to_nat (d - 53)) shr_1 (shr_record_of_loc (Zpos p) l)) in *.
  pose proof (located_floor _ _ _ Hloc') as Hm.
  destruct (round_located _ _ _ Hloc') as (Hm1 & Hexact & Hup).
  set (m := shr_m mrs) in *.
  set (m1 := round_nearest_even m (loc_of_shr_record mrs)) in *.
  assert (HP : 0 < 2 ^ (d - 53)) by (apply Z.pow_pos_nonneg; lia).
  assert (H52 : 2 ^ 52 * 2 ^ (d - 53) = 2 ^ (d - 1)).
  { rewrite <- Z.pow_add_r by lia. f_equal. lia. }
  assert (H53 : 2 ^ 53 * 2 ^ (d - 53) = 2 ^ d).
  { rewrite <- Z.pow_add_r by lia. f_equal. lia. }
  assert (HD : 0 < D) by (unfold D; lia).
  assert (Hmr : 2 ^ 52 <= m < 2 ^ 53).
  { split.
    - assert (2 ^ 52 * D < (m + 1) * D); [|nia].
      apply Z.le_lt_trans with num; [|lia].
      unfold D. rewrite Z.mul_assoc, H52. nia.
    - assert (m * D < 2 ^ 53 * D); [|nia].
      apply Z.le_lt_trans with num; [lia|].
      unfold D. rewrite Z.mul_assoc, H53. nia. }
  assert (Hm1r : 2 ^ 52 <= m1 <= 2 ^ 53) by lia.
  destruct m1 as [|p1|p1] eqn:Hp1; [lia| |lia].
  destruct (Z.eq_dec (Zpos p1) (2 ^ 53)) as [Hov|Hno].
  - (* the mantissa has become 2^53 *)
    assert (Hd1 : Zpos (digits2_pos p1) = 54) by (apply digits_unique; simpl; lia).
    rewrite (shr_fexp_spec p1 _ loc_Exact) by lia.
    rewrite Hd1. change (54 - 53) with 1. change (Z.to_nat 1) with 1%nat.
    replace (e + (d - 53) + 1 <=? emax - prec) with true
      by (symmetry; apply Z.leb_le; unfold emax, prec; lia).
    exists m, (Zpos p1), (Pos.pow 2 52), (e + (d - 53) + 1).
    split; [rewrite Hov; reflexivity|].
    split; [lia|]. split; [lia|]. split; [lia|].
    split; [exact Hexact|]. split; [exact Hup|].
    split; [simpl; lia|].
    right. split; [exact Hov|]. split; reflexivity.
  - assert (Hd1 : Zpos (digits2_pos p1) = 53) by (apply digits_unique; simpl; lia).
    rewrite (shr_fexp_spec p1 _ loc_Exact) by lia.
    rewrite Hd1. change (53 - 53) with 0. change (Z.to_nat 0) with 0%nat.
    cbn [Nat.iter]. rewrite ?record_of_loc_m, Z.add_0_r.
    replace (e + (d - 53) <=? emax - prec) with true
      by (symmetry; apply Z.leb_le; unfold emax, prec; lia).
    exists m, (Zpos p1), p1, (e + (d - 53)).
    split; [reflexivity|].
    split; [lia|]. split; [lia|]. split; [lia|].
    split; [exact Hexact|]. split; [exact Hup|].
    split; [lia|].
    left. split; reflexivity.
Qed.
(** A mantissa of 53 digits that is the number itself is kept. *)
Lemma binary_round_aux_exact (sx : bool) (p : positive) (e : Z) :
  2 ^ 52 <= Zpos p < 2 ^ 53 -> -1074 <= e <= 970 ->
  binary_round_aux prec emax sx (Zpos p) e loc_Exact = S754_finite sx p e.
Proof.
  intros Hp He.
  assert (Hd : Zpos (digits2_pos p) = 53) by (apply digits_unique; simpl; lia).
  assert (Hloc : located (Zpos p) 1 (shr_record_of_loc (Zpos p) loc_Exact)).
  { unfold located. cbn [shr_record_of_loc shr_m shr_r shr_s]. lia. }
  pose proof (binary_round_aux_spec sx p e loc_Exact (Zpos p) 1) as Hspec.
  cbv zeta in Hspec. rewrite Hd in Hspec.
  change (2 ^ (53 - 53) * 1) with 1 in Hspec.
  destruct Hspec as
    (m & m1 & m2 & e2 & -> & Hm & Hfloor & Hm1 & Hexact & _ & Hm2 & Hcase);
    try lia; try exact Hloc.
  assert (m = Zpos p) by lia. subst m.
  rewrite Hexact in Hcase by lia.
  destruct Hcase as [[Hm2' ->]|[Hov _]]; [|lia].
  f_equal; [|lia]. injection Hm2' as ->. reflexivity.
Qed.

Lemma iter_xO (p k : positive) :
  Zpos (Pos.iter xO p k) = Zpos p * 2 ^ Zpos k.
Proof.
  induction k as [|k IH] using Pos.peano_ind.
  - cbn [Pos.iter]. rewrite Pos2Z.inj_xO. change (2 ^ 1) with 2. lia.
  - rewrite Pos.iter_succ, Pos2Z.inj_xO, IH, Pos2Z.inj_succ, Z.pow_succ_r by lia. lia.
Qed.

(** [float64(z)] is [z] itself for a positive [z] below [2 ^ 53]. *)
Lemma of_int_small (z : Z) :
  0 < z < 2 ^ 53 ->
  exists (m : positive) (e : Z),
    of_int z = S754_finite false m e
    /\ -52 <= e <= 0
    /\ Zpos m = z * 2 ^ (- e)
    /\ 2 ^ 52 <= Zpos m < 2 ^ 53.
Proof.
  intros Hz. destruct z as [|p|p]; [lia| |lia].
  unfold of_int. cbn [binary_normalize]. unfold binary_round.
  pose proof (digits_bounds p) as Hp.
  set (d := Zpos (digits2_pos p)) in *.
  assert (Hd : 1 <= d <= 53).
  { split; [unfold d; lia|].
    destruct (Z.le_gt_cases d 53) as [H|H]; [exact H|].
    assert (2 ^ 53 <= 2 ^ (d - 1)) by (apply Z.pow_le_mono_r; lia). lia. }
  rewrite fexp_normal by lia. unfold shl_align.
  replace (d + 0 - 53 - 0) with (d - 53) by lia.
  assert (Hpow : 2 ^ (d - 1) * 2 ^ (53 - d) = 2 ^ 52).
  { rewrite <- Z.pow_add_r by lia. f_equal. lia. }
  assert (Hpow' : 2 ^ d * 2 ^ (53 - d) = 2 ^ 53).
  { rewrite <- Z.pow_add_r by lia. f_equal. lia. }
  assert (Hk : 0 < 2 ^ (53 - d)) by (apply Z.pow_pos_nonneg; lia).
  destruct (d - 53) as [|k|k] eqn:Hdk; [|lia|].
  - assert (d = 53) by lia.
    replace (53 - d) with 0 in * by lia. change (2 ^ 0) with 1 in *.
    rewrite binary_round_aux_exact by lia.
    exists p, 0. change (2 ^ (- 0)) with 1. repeat split; lia.
  - assert (Hkd : Zpos k = 53 - d) by lia.
    assert (Hm : Zpos (Pos.iter xO p k) = Zpos p * 2 ^ (53 - d))
      by (rewrite iter_xO, Hkd; reflexivity).
    replace (d + 0 - 53) with (d - 53) by lia. rewrite Hdk.
    rewrite binary_round_aux_exact by nia.
    exists (Pos.iter xO p k), (Z.neg k).
    replace (- Z.neg k) with (53 - d) by lia.
    repeat split; try lia; nia.
Qed.

(** [float64(z)] is a number of exponent 1 to 11 for [z] from [2 ^ 53]
    to [2 ^ 63]. *)
Lemma of_int_large (z : Z) :
  2 ^ 53 <= z < 2 ^ 63 ->
  exists (m : positive) (e : Z),
    of_int z = S754_finite false m e
    /\ 1 <= e <= 11
    /\ 2 ^ 52 <= Zpos m < 2 ^ 53.
Proof.
  intros Hz. destruct z as [|p|p]; [lia| |lia].
  unfold of_int. cbn [binary_normalize]. unfold binary_round.
  pose proof (digits_bounds p) as Hp.
  set (d := Zpos (digits2_pos p)) in *.
  assert (Hd : 54 <= d <= 63).
  { split.
    - destruct (Z.le_gt_cases 54 d) as [H|H]; [exact H|].
      assert (2 ^ d <= 2 ^ 53) by (apply Z.pow_le_mono_r; lia). lia.
    - destruct (Z.le_gt_cases d 63) as [H|H]; [exact H|].
      assert (2 ^ 63 <= 2 ^ (d - 1)) by (apply Z.pow_le_mono_r; lia). lia. }
  rewrite fexp_normal by lia. unfold shl_align.
  destruct (d + 0 - 53 - 0) as [|k|k] eqn:Hdk; [lia| |lia].
  assert (Hloc : located (Zpos p) 1 (shr_record_of_loc (Zpos p) loc_Exact)).
  { unfold located. cbn [shr_record_of_loc shr_m shr_r shr_s]. lia. }
  pose proof (binary_round_aux_spec false p 0 loc_Exact (Zpos p) 1) as Hspec.
  cbv zeta in Hspec. fold d in Hspec.
  destruct Hspec as
    (m & m1 & m2 & e2 & -> & _ & _ & _ & _ & _ & Hm2 & Hcase);
    try lia; try exact Hloc.
  exists m2, e2. split; [reflexivity|].
  split; [|exact Hm2]. destruct Hcase as [[_ ->]|(_ & _ & ->)]; lia.
Qed.
End float_facts.

Module float_div.
Import float64 float_facts spec.

(** The quotient of two normal numbers: with [A = mx * 2 ^ 53] and
    [B = 2 ^ n * my], where [n] is 0 or 1, the mantissa comes from the 53
    digit floor [m] of [A / B] by rounding to the nearest. *)
Lemma div_spec (mx my : positive) (ex ey : Z) :
  2 ^ 52 <= Zpos mx < 2 ^ 53 -> 2 ^ 52 <= Zpos my < 2 ^ 53 ->
  -52 <= ex <= 0 -> -52 <= ey <= 11 ->
  exists (n m m1 : Z) (m2 : positive) (e2 : Z),
    div (S754_finite false mx ex) (S754_finite false my ey) = S754_finite false m2 e2
    /\ 0 <= n <= 1
    /\ 2 ^ 52 <= m < 2 ^ 53
    /\ m * (2 ^ n * Zpos my) <= Zpos mx * 2 ^ 53 < (m + 1) * (2 ^ n * Zpos my)
    /\ m <= m1 <= m + 1
    /\ (Zpos mx * 2 ^ 53 = m * (2 ^ n * Zpos my) -> m1 = m)
    /\ (2 ^ n * Zpos my < 2 * (Zpos mx * 2 ^ 53 - m * (2 ^ n * Zpos my)) -> m1 = m + 1)
    /\ 2 ^ 52 <= Zpos m2 < 2 ^ 53
    /\ ((Zpos m2 = m1 /\ e2 = ex - ey - 53 + n)
        \/ (m1 = 2 ^ 53 /\ Zpos m2 = 2 ^ 52 /\ e2 = ex - ey - 53 + n + 1)).
Proof.
  intros Hmx Hmy Hex Hey.
  assert (Hdx : Zpos (digits2_pos mx) = 53) by (apply digits_unique; simpl; lia).
  assert (Hdy : Zpos (digits2_pos my) = 53) by (apply digits_unique; simpl; lia).
  unfold div, SFdiv. cbn [xorb]. unfold SFdiv_core_binary. cbn [Zdigits2].
  rewrite Hdx, Hdy. rewrite fexp_normal by lia.
  change IntDef.Z.min with Z.min.
  replace (Z.min (53 + ex - (53 + ey) - 53) (ex - ey)) with (ex - ey - 53) by lia.
  replace (ex - ey - (ex - ey - 53)) with 53 by lia. cbv iota.
  change IntDef.Z.shiftl with Z.shiftl. change IntDef.Z.div_eucl with Z.div_eucl.
  rewrite Z.shiftl_mul_pow2 by lia.
  set (A := Zpos mx * 2 ^ 53).
  destruct (Z.div_eucl A (Zpos my)) as [q r] eqn:Hdiv.
  assert (Hq : q = A / Zpos my) by (unfold Z.div; rewrite Hdiv; reflexivity).
  assert (Hr : r = A mod Zpos my) by (unfold Z.modulo; rewrite Hdiv; reflexivity).
  pose proof (Z.div_mod A (Zpos my) ltac:(lia)) as HA.
  pose proof (Z.mod_pos_bound A (Zpos my) ltac:(lia)) as Hrb.
  rewrite <- Hq, <- Hr in HA. rewrite <- Hr in Hrb.
  assert (Hqr : 2 ^ 52 <= q < 2 ^ 54).
  { split.
    - rewrite Hq. apply Z.div_le_lower_bound; [lia|]. unfold A. nia.
    - rewrite Hq. apply Z.div_lt_upper_bound; [lia|]. unfold A. nia. }
  destruct q as [|pq|pq]; [lia| |lia].
  pose proof (digits_bounds pq) as Hpq.
  set (d := Zpos (digits2_pos pq)) in *.
  assert (Hd : 53 <= d <= 54).
  { split.
    - destruct (Z.le_gt_cases 53 d) as [H|H]; [exact H|].
      assert (2 ^ d <= 2 ^ 52) by (apply Z.pow_le_mono_r; lia). lia.
    - destruct (Z.le_gt_cases d 54) as [H|H]; [exact H|].
      assert (2 ^ 54 <= 2 ^ (d - 1)) by (apply Z.pow_le_mono_r; lia). lia. }
  assert (Hloc : located A (Zpos my)
                         (shr_record_of_loc (Zpos pq) (new_location (Zpos my) r))).
  { rewrite HA. replace (Zpos my * Zpos pq + r) with (Zpos pq * Zpos my + r) by lia.
    apply new_location_located; lia. }
  pose proof (binary_round_aux_spec false pq (ex - ey - 53)
                (new_location (Zpos my) r) A (Zpos my)) as Hspec.
  cbv zeta in Hspec. fold d in Hspec.
  destruct Hspec as
    (m & m1 & m2 & e2 & Hres & Hm & Hfloor & Hm1 & Hexact & Hup & Hm2 & Hcase);
    try lia; try exact Hloc.
  exists (d - 53), m, m1, m2, e2.
  split; [exact Hres|]. split; [lia|]. split; [exact Hm|]. split; [exact Hfloor|].
  split; [exact Hm1|]. split; [exact Hexact|]. split; [exact Hup|].
  split; [exact Hm2|]. exact Hcase.
Qed.
End float_div.

Module float_ceil.
Import float64 float_facts spec.

Lemma cdiv_bounds (a b : Z) :
  0 < b -> (cdiv a b - 1) * b < a <= cdiv a b * b.
Proof.
  intros Hb. unfold cdiv.
  pose proof (Z.div_mod (- a) b ltac:(lia)) as Hdm.
  pose proof (Z.mod_pos_bound (- a) b Hb) as Hmod.
  nia.
Qed.

Lemma cdiv_unique (a b c : Z) :
  0 < b -> (c - 1) * b < a <= c * b -> cdiv a b = c.
Proof.
  intros Hb Hc. pose proof (cdiv_bounds a b Hb) as Hd.
  assert (cdiv a b - 1 < c) by nia.
  assert (c - 1 < cdiv a b) by nia.
  lia.
Qed.

(** The least integer not below [a / b] is [(a + b - 1) / b]. *)
Lemma cdiv_eq (a b : Z) : 0 < b -> cdiv a b = (a + b - 1) / b.
Proof.
  intros Hb. apply cdiv_unique; [exact Hb|].
  pose proof (Z.div_mod (a + b - 1) b ltac:(lia)) as Hdm.
  pose proof (Z.mod_pos_bound (a + b - 1) b Hb) as Hmod.
  nia.
Qed.

(** [int(float64(z))] is [z] for a positive [z] below [2 ^ 53]. *)
Lemma to_int_of_int (unrepresentable : t -> Go.int) (z : Z) :
  0 < z < 2 ^ 53 -> to_int unrepresentable (of_int z) = z.
Proof.
  intros Hz. destruct (of_int_small z Hz) as (m & e & -> & He & Hm & Hmr).
  unfold to_int, signed, cond_Zopp.
  assert (Hval : (if 0 <=? e then Zpos m * 2 ^ e else Z.quot (Zpos m) (2 ^ (- e))) = z).
  { destruct (Z.leb_spec 0 e).
    - replace e with 0 in * by lia. change (2 ^ (- 0)) with 1 in Hm.
      change (2 ^ 0) with 1. lia.
    - rewrite Hm. apply Z.quot_mul.
      assert (0 < 2 ^ (- e)) by (apply Z.pow_pos_nonneg; lia). lia. }
  rewrite Hval.
  replace ((Go.min_int <=? z) && (z <=? Go.max_int)) with true; [reflexivity|].
  symmetry. apply andb_true_intro. unfold Go.min_int, Go.max_int.
  split; apply Z.leb_le; lia.
Qed.

(** [int(math.Ceil(x))] for the result [x] of a rounding whose mantissa
    [m1] and exponent [e1 <= 0] are as [binary_round_aux_spec] says. *)
Lemma to_int_Ceil (unrepresentable : t -> Go.int) (m1 : Z) (m2 : positive) (e1 e2 : Z) :
  2 ^ 52 <= Zpos m2 < 2 ^ 53 -> -200 <= e1 <= 0 ->
  (Zpos m2 = m1 /\ e2 = e1) \/ (m1 = 2 ^ 53 /\ Zpos m2 = 2 ^ 52 /\ e2 = e1 + 1) ->
  to_int unrepresentable (Ceil (S754_finite false m2 e2)) = cdiv m1 (2 ^ (- e1)).
Proof.
  intros Hm2 He1 Hcase.
  assert (Hint : forall e, 0 <= e <= 1 ->
             to_int unrepresentable (S754_finite false m2 e) = Zpos m2 * 2 ^ e).
  { intros e He. unfold to_int, signed, cond_Zopp.
    replace (0 <=? e) with true by (symmetry; apply Z.leb_le; lia).
    assert (Hr : Zpos m2 * 2 ^ e <= 2 ^ 54).
    { assert (e = 0 \/ e = 1) as [-> | ->] by lia; simpl (2 ^ _); lia. }
    replace ((Go.min_int <=? Zpos m2 * 2 ^ e) && (Zpos m2 * 2 ^ e <=? Go.max_int))
      with true; [reflexivity|].
    symmetry. apply andb_true_intro. unfold Go.min_int, Go.max_int.
    split; apply Z.leb_le; lia. }
  assert (Hneg : forall e, -200 <= e < 0 ->
             to_int unrepresentable (Ceil (S754_finite false m2 e))
             = cdiv (Zpos m2) (2 ^ (- e))).
  { intros e He. unfold Ceil.
    replace (0 <=? e) with false by (symmetry; apply Z.leb_gt; lia).
    change (binary_normalize prec emax (cdiv (signed false m2) (2 ^ (- e))) 0 false)
      with (of_int (cdiv (Zpos m2) (2 ^ (- e)))).
    apply to_int_of_int.
    assert (HE : 1 < 2 ^ (- e)) by (apply Z.pow_gt_1; lia).
    pose proof (cdiv_bounds (Zpos m2) (2 ^ (- e)) ltac:(lia)) as Hb.
    split; nia. }
  assert (Hpos : forall e, 0 <= e -> Ceil (S754_finite false m2 e) = S754_finite false m2 e).
  { intros e He. unfold Ceil.
    replace (0 <=? e) with true by (symmetry; apply Z.leb_le; lia). reflexivity. }
  destruct Hcase as [[<- ->]|(-> & Hm2' & ->)].
  - destruct (Z.eq_dec e1 0) as [->|Hne].
    + rewrite Hpos, Hint by lia. change (2 ^ (- 0)) with 1. change (2 ^ 0) with 1.
      symmetry. apply cdiv_unique; lia.
    + apply Hneg. lia.
  - destruct (Z_lt_le_dec (e1 + 1) 0) as [Hlt|Hge].
    + rewrite Hneg by lia. rewrite Hm2'.
      assert (HE : 0 < 2 ^ (- (e1 + 1))) by (apply Z.pow_pos_nonneg; lia).
      pose proof (cdiv_bounds (2 ^ 52) (2 ^ (- (e1 + 1))) HE) as Hb.
      replace (2 ^ (- e1)) with (2 * 2 ^ (- (e1 + 1))).
      * symmetry. apply cdiv_unique; [lia|].
        change (2 ^ 53) with (2 * 2 ^ 52). nia.
      * rewrite <- Z.pow_succ_r by lia. f_equal. lia.
    + rewrite Hpos, Hint by lia. rewrite Hm2'.
      assert (e1 = 0 \/ e1 = -1) as [-> | ->] by lia.
      * symmetry. apply cdiv_unique; simpl; lia.
      * symmetry. apply cdiv_unique; simpl; lia.
Qed.
End float_ceil.

Module float_pages.
Import float64 float_facts float_div float_ceil.

(** Rounding a quotient [N * K / (S * K)] to the nearest at a 53 digit
    mantissa does not move it across an integer, as long as [N] is below
    [2 ^ 53]: the nearest integers of the scale [E] of the mantissa stay
    on their side. *)
Lemma nearest_keeps_ceiling (N S K B E m m1 c : Z) :
  0 < N < 2 ^ 53 -> 0 < S -> 0 < K -> 0 < B -> 0 < E ->
  B * E = S * K ->
  2 ^ 52 <= m ->
  m * B <= N * K < (m + 1) * B ->
  m <= m1 <= m + 1 ->
  (N * K = m * B -> m1 = m) ->
  (B < 2 * (N * K - m * B) -> m1 = m + 1) ->
  (c - 1) * S < N <= c * S ->
  (c - 1) * E < m1 <= c * E.
Proof.
  intros HN HS HK HB HE HBE Hm Hfloor Hm1 Hexact Hup Hc.
  assert (Hlow : (c - 1) * (B * E) < N * K) by (rewrite HBE; nia).
  assert (Hhigh : N * K <= c * (B * E)) by (rewrite HBE; nia).
  assert (HB2 : B < 2 * K).
  { assert (2 ^ 52 * B < 2 ^ 53 * K) by nia. lia. }
  split.
  - (* above the integer below *)
    assert (Hle : (c - 1) * E <= m) by nia.
    destruct (Z.eq_dec ((c - 1) * E) m) as [Heq|Hne]; [|lia].
    rewrite Hup; [lia|].
    assert (Hgap : K <= N * K - m * B).
    { rewrite <- Heq.
      replace ((c - 1) * E * B) with ((c - 1) * (B * E)) by ring.
      rewrite HBE. nia. }
    lia.
  - (* not above the integer above *)
    destruct (Z.eq_dec (N * K) (m * B)) as [Heq|Hne].
    + rewrite (Hexact Heq). nia.
    + assert (m < c * E) by nia. lia.
Qed.

(** The page count as the renderer computes it, with [float64] numbers,
    is the integer quotient rounded up. *)
Lemma ceil_of_quotient (unrepresentable : t -> Go.int) (N S : Z) :
  0 <= N < 2 ^ 53 -> 0 < S < 2 ^ 63 ->
  to_int unrepresentable (Ceil (div (of_int N) (of_int S))) = (N + S - 1) / S.
Proof.
  intros HN HS.
  assert (Hy : exists (my : positive) (ey : Z),
             of_int S = S754_finite false my ey
             /\ 2 ^ 52 <= Zpos my < 2 ^ 53 /\ -52 <= ey <= 11
             /\ ((ey <= 0 /\ Zpos my = S * 2 ^ (- ey)) \/ (1 <= ey /\ 2 ^ 53 <= S))).
  { destruct (Z_lt_le_dec S (2 ^ 53)) as [Hs|Hs].
    - destruct (of_int_small S ltac:(lia)) as (my & ey & Hy & Hey & Hmy & Hmyr).
      exists my, ey. split; [exact Hy|]. split; [exact Hmyr|]. split; [lia|].
      left. split; [lia | exact Hmy].
    - destruct (of_int_large S ltac:(lia)) as (my & ey & Hy & Hey & Hmyr).
      exists my, ey. split; [exact Hy|]. split; [exact Hmyr|]. split; [lia|].
      right. lia. }
  destruct Hy as (my & ey & Hy & Hmy & Hey & HyS). rewrite Hy.
  destruct (Z.eq_dec N 0) as [->|HN0].
  - (* no post *)
    change (of_int 0) with (S754_zero false).
    cbn [div SFdiv xorb Ceil to_int]. symmetry. apply Z.div_small. lia.
  - destruct (of_int_small N ltac:(lia)) as (mx & ex & -> & Hex & Hmx & Hmxr).
    destruct (div_spec mx my ex ey Hmxr Hmy Hex Hey) as
      (n & m & m1 & m2 & e2 & -> & Hn & Hm & Hfloor & Hm1 & Hexact & Hup & Hm2 & Hcase).
    rewrite (to_int_Ceil unrepresentable m1 m2 (ex - ey - 53 + n) e2 Hm2 ltac:(lia) Hcase).
    rewrite <- (cdiv_eq N S) by lia.
    pose proof (cdiv_bounds N S ltac:(lia)) as Hc.
    set (c := cdiv N S) in *.
    set (E := 2 ^ (- (ex - ey - 53 + n))).
    assert (HE : 0 < E) by (apply Z.pow_pos_nonneg; lia).
    assert (Ha : 0 < 2 ^ (- ex)) by (apply Z.pow_pos_nonneg; lia).
    assert (HP : 0 < 2 ^ n) by (apply Z.pow_pos_nonneg; lia).
    apply cdiv_unique; [exact HE|].
    set (K := 2 ^ (- ex) * 2 ^ 53).
    assert (HA : Zpos mx * 2 ^ 53 = N * K) by (unfold K; rewrite Hmx; ring).
    rewrite HA in *.
    destruct HyS as [[Hey0 HmyS]|[Hey1 HSbig]].
    + (* the page size is a binary64 number *)
      apply (nearest_keeps_ceiling N S K (2 ^ n * Zpos my) E m m1 c);
        try assumption; try lia.
      rewrite HmyS. unfold E, K.
      replace (2 ^ n * (S * 2 ^ (- ey)) * 2 ^ (- (ex - ey - 53 + n)))
        with (S * (2 ^ n * 2 ^ (- ey) * 2 ^ (- (ex - ey - 53 + n)))) by ring.
      rewrite <- !Z.pow_add_r by lia. f_equal. f_equal. lia.
    + (* the page size is above every post count *)
      assert (Hc1 : c = 1) by nia. rewrite Hc1.
      assert (HPE : 2 ^ n * E = K * 2 ^ ey).
      { unfold E, K. rewrite <- !Z.pow_add_r by lia. f_equal. lia. }
      assert (Hey2 : 2 <= 2 ^ ey).
      { change 2 with (2 ^ 1) at 1. apply Z.pow_le_mono_r; lia. }
      assert (HK : 0 < K) by (unfold K; lia).
      assert (Hlt : m * (2 ^ n * Zpos my) < E * (2 ^ n * Zpos my)).
      { apply Z.le_lt_trans with (N * K); [lia|].
        replace (E * (2 ^ n * Zpos my)) with (2 ^ n * E * Zpos my) by ring.
        rewrite HPE. nia. }
      assert (m < E) by nia. lia.
Qed.
End float_pages.

(** ** The view models handed to the templates *)

Lemma clamp_max (p : Z) : (if p <? 1 then 1 else p) = Z.max 1 p.
Proof. destruct (Z.ltb_spec p 1); lia. Qed.

(** When nothing fails before the page range is checked and the page is in
    range, [RenderList] executes the list template on the view model
    [list_] of the filtered posts. *)
Lemma RenderList_view {env : Env} (rd : Renderer) (listType : ListType)
      (groupName : string) (pageNumber : Go.int) (dst : Go.Writer)
      (base : list string) (window : list model.Post) (tpl : Template) :
  validateConfig rd = None ->
  fileExists (fp.Join [themeDir rd; "list.html"]) = true ->
  getBaseTemplates rd = Go.Ok base ->
  let posts := fst (filterPosts rd listType groupName) in
  let group := snd (filterPosts rd listType groupName) in
  Z.max 1 pageNumber <= getMaxPagination rd posts ->
  getListPosts rd posts (Z.max 1 pageNumber) = Go.Done window ->
  ParseFiles (base ++ [fp.Join [themeDir rd; "list.html"]]) = Go.Ok tpl ->
  RenderList rd listType groupName pageNumber dst
  = match executeTemplate rd tpl dst "list.html"
            (ListData (list_ rd listType group (Z.max 1 pageNumber)
                             (getMaxPagination rd posts) window)) with
    | (dst', Some err) => Go.Done (dst', (-1, Some err))
    | (dst', None) => Go.Done (dst', (Go.len posts, None))
    end.
Proof.
  intros Hcfg Htpl Hbase posts group Hrange Hwin Hparse.
  unfold RenderList. rewrite Hcfg, Htpl, Hbase. cbn [negb].
  subst posts group. destruct (filterPosts rd listType groupName) as [posts group].
  cbn [fst snd] in *. rewrite clamp_max.
  destruct (Z.gtb_spec (Z.max 1 pageNumber) (getMaxPagination rd posts)); [lia|].
  rewrite Hwin, Hparse. reflexivity.
Qed.

(** When nothing fails before the template is executed, [RenderPost]
    executes the post template on the view model [postLayout]. *)
Lemma RenderPost_view {env : Env} (rd : Renderer) (post olderPost newerPost : model.Post)
      (dst : Go.Writer) (base : list string) (content : string) (tpl : Template) :
  validateConfig rd = None ->
  fileExists (fp.Join [themeDir rd; "post.html"]) = true ->
  getBaseTemplates rd = Go.Ok base ->
  readIndexFile (model.Post_Path post) = Go.Ok content ->
  ParseFiles (base ++ [fp.Join [themeDir rd; "post.html"]]) = Go.Ok tpl ->
  RenderPost rd post olderPost newerPost dst
  = executeTemplate rd tpl dst "post.html"
      (PostData (postLayout rd post olderPost newerPost
                            (highlightCode (bf_Run (removeMetadata content))))).
Proof.
  intros Hcfg Htpl Hbase Hread Hparse.
  unfold RenderPost. rewrite Hcfg, Htpl, Hbase, Hread, Hparse. reflexivity.
Qed.

(** ** Page numbers in [RenderList] *)

Lemma RenderList_clamp {env : Env} rd listType groupName pageNumber dst :
  RenderList rd listType groupName pageNumber dst
  = RenderList rd listType groupName (Z.max 1 pageNumber) dst.
Proof.
  unfold RenderList.
  rewrite !clamp_max, Z.max_assoc, Z.max_id. reflexivity.
Qed.

(** C1: in [RenderList] a page number below 1 is treated as page 1, and
    once the list can be rendered at all (valid configuration, list
    template present, theme directory listed) a page number that exceeds the
    max page count of the filtered posts gives the absence result: -1 with
    no error, and the destination is left as it was. *)
Theorem RenderList_page_range {env : Env} (rd : Renderer) (listType : ListType)
        (groupName : string) (pageNumber : Go.int) (dst : Go.Writer) :
  (pageNumber < 1 ->
   RenderList rd listType groupName pageNumber dst
   = RenderList rd listType groupName 1 dst)
  /\ (spec.listReady rd = true ->
      pageNumber > getMaxPagination rd (fst (filterPosts rd listType groupName)) ->
      RenderList rd listType groupName pageNumber dst = Go.Done (dst, (-1, None))).
Proof.
  split.
  - intros Hlow. rewrite RenderList_clamp.
    replace (Z.max 1 pageNumber) with 1 by lia. reflexivity.
  - unfold spec.listReady, RenderList. intros Hready Hbig.
    destruct (validateConfig rd); [discriminate|].
    destruct (fileExists _); [|discriminate]. simpl in Hready |- *.
    destruct (getBaseTemplates rd); [|discriminate].
    destruct (filterPosts rd listType groupName) as [posts g]. simpl in Hbig.
    rewrite clamp_max.
    destruct (Z.gtb_spec (Z.max 1 pageNumber) (getMaxPagination rd posts)) as [_|Hle];
      [reflexivity | lia].
Qed.

Lemma RenderList_page_range_witness :
  (0 < 1 /\
   RenderList (env := Demo.env Demo.full) Demo.blog DEFAULT "" 0 ""
   = RenderList (env := Demo.env Demo.full) Demo.blog DEFAULT "" 1 "")
  /\ (spec.listReady (env := Demo.env Demo.full) Demo.blog = true
      /\ 3 > getMaxPagination (env := Demo.env Demo.full) Demo.blog
               (fst (filterPosts Demo.blog DEFAULT ""))
      /\ RenderList (env := Demo.env Demo.full) Demo.blog DEFAULT "" 3 "out"
         = Go.Done ("out", (-1, None))).
Proof.
  destruct (RenderList_page_range (env := Demo.env Demo.full) Demo.blog DEFAULT "" 0 "") as [Hlow _].
  destruct (RenderList_page_range (env := Demo.env Demo.full) Demo.blog DEFAULT "" 3 "out") as [_ Hbig].
  split.
  - split; [lia | apply Hlow; lia].
  - split; [reflexivity|]. split; [vm_compute; reflexivity|].
    apply Hbig; [reflexivity | vm_compute; reflexivity].
Defined.

(** ** The paginator *)

Lemma wrap_id (z : Z) : Go.min_int <= z <= Go.max_int -> Go.wrap z = z.
Proof.
  unfold Go.min_int, Go.max_int, Go.wrap. intros Hz.
  rewrite Z.mod_small by lia. lia.
Qed.

(** The max page count in integers. *)
Lemma getMaxPagination_pages {env : Env} (rd : Renderer) (posts : list model.Post) :
  Go.len posts < 2 ^ 53 -> 0 < model.Pagination (Config rd) <= Go.max_int ->
  getMaxPagination rd posts
  = float64.cdiv (Go.len posts) (model.Pagination (Config rd)).
Proof.
  intros HN HS. unfold getMaxPagination.
  rewrite float_ceil.cdiv_eq by lia.
  apply float_pages.ceil_of_quotient; unfold Go.len, Go.max_int in *; lia.
Qed.

(** C2: for a list of [N] posts and a page size [S > 0], the max page
    count is the ceiling of [N / S]: the integer [(N + S - 1) / S], the one
    [c] with [(c - 1) * S < N <= c * S]; it is 0 when there is no post.
    [N] is below [2 ^ 53], as the length of every slice of posts is: the
    posts of a longer slice would not fit the address space. *)
Theorem getMaxPagination_ceiling {env : Env} (rd : Renderer) (posts : list model.Post) :
  let N := Go.len posts in
  let S := model.Pagination (Config rd) in
  N < 2 ^ 53 -> 0 < S <= Go.max_int ->
  getMaxPagination rd posts = (N + S - 1) / S
  /\ (getMaxPagination rd posts - 1) * S < N <= getMaxPagination rd posts * S
  /\ (N = 0 -> getMaxPagination rd posts = 0).
Proof.
  intros N S HN HS.
  rewrite (getMaxPagination_pages rd posts HN HS). fold N S.
  split; [apply float_ceil.cdiv_eq; lia|]. split.
  - apply float_ceil.cdiv_bounds. lia.
  - intros ->. apply float_ceil.cdiv_unique; lia.
Qed.

Lemma getMaxPagination_ceiling_witness :
  Go.len (Renderer_Posts Demo.blog) < 2 ^ 53
  /\ 0 < model.Pagination (Config Demo.blog) <= Go.max_int
  /\ getMaxPagination (env := Demo.env Demo.full) Demo.blog (Renderer_Posts Demo.blog) = 2
  /\ (2 - 1) * 2 < 3 <= 2 * 2.
Proof.
  assert (HN : Go.len (Renderer_Posts Demo.blog) < 2 ^ 53) by (vm_compute; reflexivity).
  assert (HS : 0 < model.Pagination (Config Demo.blog) <= Go.max_int)
    by (split; vm_compute; [reflexivity | discriminate]).
  destruct (getMaxPagination_ceiling (env := Demo.env Demo.full) Demo.blog
              (Renderer_Posts Demo.blog) HN HS) as (Heq & Hbounds & _).
  split; [exact HN|]. split; [exact HS|]. split; [exact Heq | lia].
Defined.

(** The window of a page in range: no bound overflows, no slice bound is
    out of range. *)
Lemma getListPosts_slice {env : Env} (rd : Renderer) (posts : list model.Post)
      (pageNumber : Go.int) :
  let N := Go.len posts in
  let S := model.Pagination (Config rd) in
  N < 2 ^ 53 -> 0 < S <= Go.max_int ->
  1 <= pageNumber <= getMaxPagination rd posts ->
  0 <= (pageNumber - 1) * S < N
  /\ getListPosts rd posts pageNumber
     = Go.Done (firstn (Z.to_nat S) (skipn (Z.to_nat ((pageNumber - 1) * S)) posts)).
Proof.
  intros N S HN HS Hp.
  pose proof (float_ceil.cdiv_bounds N S ltac:(lia)) as Hc.
  rewrite (getMaxPagination_pages rd posts HN HS) in Hp. fold N S in Hp.
  set (c := float64.cdiv N S) in *.
  assert (HN0 : 0 <= N) by (unfold N, Go.len; lia).
  assert (Hstart : 0 <= (pageNumber - 1) * S < N) by nia.
  assert (Hend : (pageNumber - 1) * S + S <= Go.max_int).
  { destruct (Z.eq_dec pageNumber 1) as [->|Hne]; [lia|].
    assert (S < N) by nia. unfold Go.max_int. lia. }
  set (start := Z.to_nat ((pageNumber - 1) * S)).
  assert (Hlen : List.length (skipn start posts) = Z.to_nat (N - (pageNumber - 1) * S)).
  { rewrite length_skipn. unfold start, N, Go.len in *. lia. }
  split; [exact Hstart|].
  unfold getListPosts. fold N S. unfold Go.mul, Go.sub, Go.add.
  unfold Go.max_int in *.
  rewrite (wrap_id (pageNumber - 1)) by (unfold Go.max_int, Go.min_int; lia).
  rewrite (wrap_id ((pageNumber - 1) * S)) by (unfold Go.max_int, Go.min_int; lia).
  rewrite (wrap_id ((pageNumber - 1) * S + S)) by (unfold Go.max_int, Go.min_int; lia).
  unfold Go.slice. fold N.
  destruct (Z.gtb_spec ((pageNumber - 1) * S + S) N) as [Hcut|Hfit].
  - replace ((0 <=? (pageNumber - 1) * S) && ((pageNumber - 1) * S <=? N) && (N <=? N))
      with true
      by (symmetry; rewrite !andb_true_iff, !Z.leb_le; lia).
    f_equal. fold start.
    rewrite !firstn_all2; [reflexivity| |]; rewrite Hlen; lia.
  - replace ((0 <=? (pageNumber - 1) * S)
             && ((pageNumber - 1) * S <=? (pageNumber - 1) * S + S)
             && ((pageNumber - 1) * S + S <=? N))
      with true
      by (symmetry; rewrite !andb_true_iff, !Z.leb_le; lia).
    f_equal. fold start. f_equal. lia.
Qed.

(** C3: for a list of [N] posts, a page size [S > 0] and a page number [p]
    from 1 to the max page count, the window is the slice of the posts
    from index [(p - 1) * S] up to [p * S], cut at the end of the list; it
    has [min S (N - (p - 1) * S)] posts; the posts before it are the
    [(p - 1) * S] first ones, the posts after it start at index [p * S],
    and there the window of page [p + 1] starts when [p + 1] is a page. *)
Theorem getListPosts_window {env : Env} (rd : Renderer) (posts : list model.Post)
        (pageNumber : Go.int) :
  let N := Go.len posts in
  let S := model.Pagination (Config rd) in
  let start := Z.to_nat ((pageNumber - 1) * S) in
  let next := Z.to_nat (pageNumber * S) in
  let window := firstn (Z.to_nat S) (skipn start posts) in
  N < 2 ^ 53 -> 0 < S <= Go.max_int ->
  1 <= pageNumber <= getMaxPagination rd posts ->
  getListPosts rd posts pageNumber = Go.Done window
  /\ Go.len window = Z.min S (N - (pageNumber - 1) * S)
  /\ 0 < Go.len window
  /\ posts = firstn start posts ++ window ++ skipn next posts
  /\ (pageNumber + 1 <= getMaxPagination rd posts ->
      getListPosts rd posts (pageNumber + 1)
      = Go.Done (firstn (Z.to_nat S) (skipn next posts))).
Proof.
  intros N S start next window HN HS Hp.
  destruct (getListPosts_slice rd posts pageNumber HN HS Hp) as [Hstart Hslice].
  fold N S in Hstart.
  assert (Hlen : List.length (skipn start posts) = Z.to_nat (N - (pageNumber - 1) * S)).
  { rewrite length_skipn. unfold start, N, Go.len in *. lia. }
  assert (Hwin : Go.len window = Z.min S (N - (pageNumber - 1) * S)).
  { unfold window, Go.len. rewrite length_firstn, Hlen. lia. }
  split; [exact Hslice|]. split; [exact Hwin|]. split; [lia|]. split.
  - rewrite <- (firstn_skipn start posts) at 1. f_equal.
    unfold window.
    rewrite <- (firstn_skipn (Z.to_nat S) (skipn start posts)) at 1. f_equal.
    rewrite skipn_skipn. f_equal. unfold start, next. lia.
  - intros Hnext.
    assert (Hp' : 1 <= pageNumber + 1 <= getMaxPagination rd posts) by lia.
    destruct (getListPosts_slice rd posts (pageNumber + 1) HN HS Hp') as [_ ->].
    unfold next. fold S. do 4 f_equal. lia.
Qed.

Lemma getListPosts_window_witness :
  Go.len (Renderer_Posts Demo.blog) < 2 ^ 53
  /\ 0 < model.Pagination (Config Demo.blog) <= Go.max_int
  /\ 1 <= 2 <= getMaxPagination (env := Demo.env Demo.full) Demo.blog (Renderer_Posts Demo.blog)
  /\ getListPosts Demo.blog (Renderer_Posts Demo.blog) 2 = Go.Done [Demo.C]
  /\ Go.len [Demo.C] = Z.min 2 (3 - (2 - 1) * 2).
Proof.
  assert (HN : Go.len (Renderer_Posts Demo.blog) < 2 ^ 53) by (vm_compute; reflexivity).
  assert (HS : 0 < model.Pagination (Config Demo.blog) <= Go.max_int)
    by (split; vm_compute; [reflexivity | discriminate]).
  assert (Hp : 1 <= 2 <= getMaxPagination (env := Demo.env Demo.full) Demo.blog
                           (Renderer_Posts Demo.blog))
    by (split; vm_compute; discriminate).
  destruct (getListPosts_window (env := Demo.env Demo.full) Demo.blog
              (Renderer_Posts Demo.blog) 2 HN HS Hp) as (Hwin & Hlen & _).
  split; [exact HN|]. split; [exact HS|]. split; [exact Hp|].
  split; [exact Hwin | exact Hlen].
Defined.

(** ** The category filter *)

Lemma filterPosts_category (rd : Renderer) (groupName : string) :
  filterPosts rd CATEGORY groupName
  = (filter (fun post => String.eqb (model.Post_Category post) (spec.categoryOf groupName))
            (Renderer_Posts rd),
     spec.categoryOf groupName).
Proof. reflexivity. Qed.

(** C4: the category filter of [RenderList] keeps, in their order, exactly
    the posts whose category is string-equal to the group name, where the
    group name "uncategorized" stands for the empty category.  So a post
    without category is in the list of "uncategorized", a post with a
    category [x] other than the empty one is in no list but that of [x],
    and the count [RenderList] returns is that of these posts. *)
Theorem category_filter {env : Env} (rd : Renderer) (groupName : string) :
  fst (filterPosts rd CATEGORY groupName)
  = filter (fun post => String.eqb (model.Post_Category post) (spec.categoryOf groupName))
           (Renderer_Posts rd)
  /\ (forall post,
        In post (fst (filterPosts rd CATEGORY groupName))
        <-> In post (Renderer_Posts rd)
            /\ model.Post_Category post
               = (if String.eqb groupName "uncategorized" then "" else groupName))
  /\ (forall post,
        In post (Renderer_Posts rd) -> model.Post_Category post = "" ->
        In post (fst (filterPosts rd CATEGORY "uncategorized")))
  /\ (forall post,
        model.Post_Category post <> "" ->
        In post (fst (filterPosts rd CATEGORY groupName)) ->
        groupName = model.Post_Category post)
  /\ (forall pageNumber dst dst' n,
        RenderList rd CATEGORY groupName pageNumber dst = Go.Done (dst', (n, None)) ->
        n <> -1 ->
        n = Go.len (filter (fun post => String.eqb (model.Post_Category post)
                                                   (spec.categoryOf groupName))
                           (Renderer_Posts rd))).
Proof.
  assert (Hin : forall g post,
             In post (fst (filterPosts rd CATEGORY g))
             <-> In post (Renderer_Posts rd)
                 /\ model.Post_Category post = spec.categoryOf g).
  { intros g post. rewrite filterPosts_category. simpl.
    rewrite filter_In, String.eqb_eq. reflexivity. }
  split; [rewrite filterPosts_category; reflexivity|].
  split; [exact (Hin groupName)|].
  split; [|split].
  - intros post Hpost Hcat. apply Hin. split; [assumption|]. rewrite Hcat. reflexivity.
  - intros post Hne Hpost. apply Hin in Hpost. destruct Hpost as [_ Hcat].
    unfold spec.categoryOf in Hcat.
    destruct (String.eqb groupName "uncategorized"); congruence.
  - intros pageNumber dst dst' n Hrun Hn.
    unfold RenderList in Hrun. rewrite filterPosts_category in Hrun.
    repeat match type of Hrun with
           | context [match ?x with _ => _ end] => destruct x; try congruence
           | context [if ?x then _ else _] => destruct x; try congruence
           end.
Qed.

Lemma category_filter_witness :
  In Demo.A (Renderer_Posts Demo.blog)
  /\ model.Post_Category Demo.A = ""
  /\ In Demo.A (fst (filterPosts Demo.blog CATEGORY "uncategorized"))
  /\ model.Post_Category Demo.B <> ""
  /\ In Demo.B (fst (filterPosts Demo.blog CATEGORY "x"))
  /\ "x" = model.Post_Category Demo.B
  /\ RenderList (env := Demo.env Demo.full) Demo.blog CATEGORY "x" 1 ""
     = Go.Done ("/category/x:B,C", (2, None))
  /\ 2 <> -1
  /\ 2 = Go.len (filter (fun post => String.eqb (model.Post_Category post) (spec.categoryOf "x"))
                        (Renderer_Posts Demo.blog)).
Proof.
  destruct (category_filter (env := Demo.env Demo.full) Demo.blog "x")
    as (_ & _ & Hun & Honly & Hcount).
  assert (HA : In Demo.A (Renderer_Posts Demo.blog)) by (simpl; auto).
  assert (HB : In Demo.B (fst (filterPosts Demo.blog CATEGORY "x")))
    by (simpl; auto).
  assert (Hne : model.Post_Category Demo.B <> "") by discriminate.
  assert (Hrun : RenderList (env := Demo.env Demo.full) Demo.blog CATEGORY "x" 1 ""
                 = Go.Done ("/category/x:B,C", (2, None))) by (vm_compute; reflexivity).
  assert (Hn : 2 <> -1) by lia.
  split; [exact HA|]. split; [reflexivity|].
  split; [exact (Hun Demo.A HA eq_refl)|].
  split; [exact Hne|]. split; [exact HB|].
  split; [exact (Honly Demo.B Hne HB)|].
  split; [exact Hrun|]. split; [exact Hn|].
  exact (Hcount 1 "" _ 2 Hrun Hn).
Defined.

(** ** The path of a list *)

Lemma listPath_conventions (groupName : string) :
  listPath DEFAULT groupName = "/posts"
  /\ listPath CATEGORY groupName = path.Clean ("/category/" ++ groupName)
  /\ listPath TAG groupName = path.Clean ("/tag/" ++ groupName)
  /\ (spec.plainName groupName = true ->
      listPath CATEGORY groupName = ("/category/" ++ groupName)%string
      /\ listPath TAG groupName = ("/tag/" ++ groupName)%string).
Proof.
  split; [reflexivity|]. split; [reflexivity|]. split; [reflexivity|].
  intros Hplain. split.
  - exact (join_facts.Clean_two_plain "category" groupName eq_refl Hplain).
  - exact (join_facts.Clean_two_plain "tag" groupName eq_refl Hplain).
Qed.

(** What [RenderList] has done when it returns a count: it has executed
    the list template on the view model [list_] of the filtered posts. *)
Lemma RenderList_output {env : Env} (rd : Renderer) (listType : ListType)
      (groupName : string) (pageNumber : Go.int) (dst dst' : Go.Writer) (n : Go.int) :
  RenderList rd listType groupName pageNumber dst = Go.Done (dst', (n, None)) ->
  n <> -1 ->
  let posts := fst (filterPosts rd listType groupName) in
  let group := snd (filterPosts rd listType groupName) in
  exists (tpl : Template) (window : list model.Post),
    getListPosts rd posts (Z.max 1 pageNumber) = Go.Done window
    /\ executeTemplate rd tpl dst "list.html"
         (ListData (list_ rd listType group (Z.max 1 pageNumber)
                          (getMaxPagination rd posts) window))
       = (dst', None)
    /\ n = Go.len posts.
Proof.
  unfold RenderList. intros Hrun Hn. cbv zeta.
  destruct (validateConfig rd); [congruence|].
  destruct (negb (fileExists _)); [congruence|].
  destruct (getBaseTemplates rd) as [base|]; [|congruence].
  destruct (filterPosts rd listType groupName) as [posts group]. cbn [fst snd].
  rewrite clamp_max in Hrun.
  destruct (Z.max 1 pageNumber >? getMaxPagination rd posts); [congruence|].
  destruct (getListPosts rd posts (Z.max 1 pageNumber)) as [window|]; [|congruence].
  destruct (ParseFiles _) as [tpl|]; [|congruence].
  destruct (executeTemplate rd tpl dst "list.html" _) as [out [err|]] eqn:Hexec;
    [congruence|].
  exists tpl, window. injection Hrun as <- <-.
  split; [reflexivity|]. split; [exact Hexec | reflexivity].
Qed.

(** C5 (amended): when [RenderList] produces output, the path of the list
    view model it executes the template on is [/posts] for the default
    list; for a category list of a group other than "uncategorized" it is
    the cleaned join of [/category] and the group name, which is
    [/category/<name>] for every plain name; for a tag list it is the
    cleaned join of [/tag] and the group name, which is [/tag/<name>] for
    every plain name.  (A plain name has no slash and is not empty, [.] or
    [..].) *)
Theorem list_path {env : Env} (rd : Renderer) (listType : ListType)
        (groupName : string) (pageNumber : Go.int) (dst dst' : Go.Writer) (n : Go.int) :
  RenderList rd listType groupName pageNumber dst = Go.Done (dst', (n, None)) ->
  n <> -1 ->
  exists (tpl : Template) (l : List),
    executeTemplate rd tpl dst "list.html" (ListData l) = (dst', None)
    /\ (listType = DEFAULT -> List_Path l = "/posts")
    /\ (listType = CATEGORY -> groupName <> "uncategorized" ->
        List_Path l = path.Clean ("/category/" ++ groupName)
        /\ (spec.plainName groupName = true ->
            List_Path l = ("/category/" ++ groupName)%string))
    /\ (listType = TAG ->
        List_Path l = path.Clean ("/tag/" ++ groupName)
        /\ (spec.plainName groupName = true ->
            List_Path l = ("/tag/" ++ groupName)%string)).
Proof.
  intros Hrun Hn.
  destruct (RenderList_output rd listType groupName pageNumber dst dst' n Hrun Hn)
    as (tpl & window & _ & Hexec & _).
  exists tpl. eexists. split; [exact Hexec|].
  cbn [list_ List_Path].
  destruct (listPath_conventions groupName) as (_ & Hcat & Htag & Hplain).
  split; [|split].
  - intros ->. reflexivity.
  - intros -> Hne.
    assert (Hgroup : snd (filterPosts rd CATEGORY groupName) = groupName).
    { rewrite filterPosts_category. cbn [snd]. unfold spec.categoryOf.
      apply String.eqb_neq in Hne. rewrite Hne. reflexivity. }
    rewrite Hgroup. split; [exact Hcat|]. intros Hp. apply (Hplain Hp).
  - intros ->. change (snd (filterPosts rd TAG groupName)) with groupName.
    split; [exact Htag|]. intros Hp. apply (Hplain Hp).
Qed.

Lemma list_path_witness :
  RenderList (env := Demo.env Demo.full) Demo.blog CATEGORY "x" 1 ""
  = Go.Done ("/category/x:B,C", (2, None))
  /\ 2 <> -1
  /\ CATEGORY = CATEGORY
  /\ "x" <> "uncategorized"
  /\ spec.plainName "x" = true
  /\ exists (tpl : Template (Env := Demo.env Demo.full)) (l : List),
      executeTemplate (env := Demo.env Demo.full) Demo.blog tpl "" "list.html" (ListData l)
      = ("/category/x:B,C", None)
      /\ List_Path l = "/category/x".
Proof.
  assert (Hrun : RenderList (env := Demo.env Demo.full) Demo.blog CATEGORY "x" 1 ""
                 = Go.Done ("/category/x:B,C", (2, None))) by (vm_compute; reflexivity).
  assert (Hn : 2 <> -1) by lia.
  assert (Hne : "x" <> "uncategorized") by discriminate.
  destruct (list_path (env := Demo.env Demo.full) Demo.blog CATEGORY "x" 1 "" _ 2 Hrun Hn)
    as (tpl & l & Hexec & _ & Hcat & _).
  split; [exact Hrun|]. split; [exact Hn|]. split; [reflexivity|].
  split; [exact Hne|]. split; [reflexivity|].
  exists tpl, l. split; [exact Hexec|].
  exact (proj2 (Hcat eq_refl Hne) eq_refl).
Defined.

(** The list of the group "uncategorized" is rendered with the path
    [/category], not [/category/uncategorized]: the empty name that
    replaces the group name for the filter is also the name joined to
    [/category].  The list of the tag [..] is rendered with the path [/],
    not [/tag/..]. *)
Lemma list_path_counterexample :
  RenderList (env := Demo.env Demo.full) Demo.blog CATEGORY "uncategorized" 1 ""
  = Go.Done ("/category:A", (1, None))
  /\ List_Path (list_ Demo.blog CATEGORY
                      (snd (filterPosts Demo.blog CATEGORY "uncategorized")) 1 1 [Demo.A])
     = "/category"
  /\ "/category" <> "/category/uncategorized"
  /\ RenderList (env := Demo.env Demo.full) (Demo.site 2 false [Demo.dotdot]) TAG ".." 1 ""
     = Go.Done ("/:P", (1, None))
  /\ List_Path (list_ (Demo.site 2 false [Demo.dotdot]) TAG
                      (snd (filterPosts (Demo.site 2 false [Demo.dotdot]) TAG "..")) 1 1
                      [Demo.dotdot])
     = "/"
  /\ "/" <> ("/tag/" ++ "..")%string.
Proof.
  split; [vm_compute; reflexivity|]. split; [reflexivity|]. split; [discriminate|].
  split; [vm_compute; reflexivity|]. split; [reflexivity | discriminate].
Qed.

(** ** The template of the front page *)

(** C6: once the configuration is valid and the theme directory is listed,
    [RenderFrontPage] renders with the template [frontpage.html] when the
    theme has one, with [list.html] when it has no front page template
    but a list template, and fails with the error of the missing template,
    writing nothing, when it has neither. *)
Theorem RenderFrontPage_template {env : Env} (rd : Renderer) (dst : Go.Writer)
        (base : list string) :
  validateConfig rd = None ->
  getBaseTemplates rd = Go.Ok base ->
  let tplFrontPage := fp.Join [themeDir rd; "frontpage.html"] in
  let tplList := fp.Join [themeDir rd; "list.html"] in
  (fileExists tplFrontPage = true ->
   RenderFrontPage rd dst
   = spec.frontPageWith rd dst "frontpage.html" (base ++ [tplFrontPage]))
  /\ (fileExists tplFrontPage = false -> fileExists tplList = true ->
      RenderFrontPage rd dst
      = spec.frontPageWith rd dst "list.html" (base ++ [tplList]))
  /\ (fileExists tplFrontPage = false -> fileExists tplList = false ->
      RenderFrontPage rd dst
      = Go.Done (dst, Some (Go.Errorf "Template for frontpage and list is not exist"))).
Proof.
  intros Hcfg Hbase tplFrontPage tplList.
  unfold RenderFrontPage, spec.frontPageWith. rewrite Hcfg, Hbase.
  fold tplFrontPage tplList.
  repeat split.
  - intros ->. reflexivity.
  - intros -> ->. reflexivity.
  - intros -> ->. reflexivity.
Qed.

Lemma RenderFrontPage_template_witness :
  (validateConfig Demo.blog = None
   /\ getBaseTemplates (env := Demo.env Demo.full) Demo.blog = Go.Ok ["theme/t/_header.html"]
   /\ fileExists (Env := Demo.env Demo.full) "theme/t/frontpage.html" = true
   /\ RenderFrontPage (env := Demo.env Demo.full) Demo.blog ""
      = spec.frontPageWith (env := Demo.env Demo.full) Demo.blog "" "frontpage.html"
          ["theme/t/_header.html"; "theme/t/frontpage.html"])
  /\ (fileExists (Env := Demo.env ["list.html"]) "theme/t/frontpage.html" = false
      /\ fileExists (Env := Demo.env ["list.html"]) "theme/t/list.html" = true
      /\ RenderFrontPage (env := Demo.env ["list.html"]) Demo.blog ""
         = spec.frontPageWith (env := Demo.env ["list.html"]) Demo.blog "" "list.html"
             ["theme/t/list.html"])
  /\ (fileExists (Env := Demo.env ["post.html"]) "theme/t/frontpage.html" = false
      /\ fileExists (Env := Demo.env ["post.html"]) "theme/t/list.html" = false
      /\ RenderFrontPage (env := Demo.env ["post.html"]) Demo.blog "kept"
         = Go.Done ("kept", Some (Go.Errorf "Template for frontpage and list is not exist"))).
Proof.
  destruct (RenderFrontPage_template (env := Demo.env Demo.full) Demo.blog ""
              ["theme/t/_header.html"] eq_refl eq_refl) as (Hfront & _ & _).
  destruct (RenderFrontPage_template (env := Demo.env ["list.html"]) Demo.blog ""
              [] eq_refl eq_refl) as (_ & Hlist & _).
  destruct (RenderFrontPage_template (env := Demo.env ["post.html"]) Demo.blog "kept"
              [] eq_refl eq_refl) as (_ & _ & Hnone).
  split; [|split].
  - split; [reflexivity|]. split; [reflexivity|]. split; [reflexivity|].
    exact (Hfront eq_refl).
  - split; [reflexivity|]. split; [reflexivity|]. exact (Hlist eq_refl eq_refl).
  - split; [reflexivity|]. split; [reflexivity|]. exact (Hnone eq_refl eq_refl).
Defined.

(** ** The groups of a post *)

(** C7 (amended): in the view model of a post the category group has the
    category of the post as its name; its path is [/category/uncategorized]
    when the category is empty and else the cleaned join of [/category]
    and the category, which is [/category/<c>] for every category [c] that
    is a plain name (no slash, not [.] or [..]). *)
Theorem category_group {env : Env} (rd : Renderer) (post olderPost newerPost : model.Post)
        (html : string) :
  let group := Post_Category (postLayout rd post olderPost newerPost html) in
  let c := model.Post_Category post in
  model.Name group = c
  /\ (c = "" -> model.Path group = "/category/uncategorized")
  /\ (c <> "" -> model.Path group = path.Clean ("/category/" ++ c))
  /\ (spec.plainName c = true -> model.Path group = ("/category/" ++ c)%string).
Proof.
  intros group c. subst group. cbn [postLayout Post_Category]. unfold category.
  cbn [model.Name model.Path]. fold c.
  assert (Hclean : c <> "" ->
                   model.Path (if String.eqb c ""
                               then {| model.Name := c;
                                       model.Path := fp.Join ["/"; "category"; "uncategorized"] |}
                               else {| model.Name := c;
                                       model.Path := fp.Join ["/"; "category"; c] |})
                   = path.Clean ("/category/" ++ c)).
  { intros Hne. apply String.eqb_neq in Hne. rewrite Hne. cbn [model.Path].
    apply (join_facts.fp_Join_root "category" c). }
  split; [destruct (String.eqb c ""); reflexivity|].
  split; [intros ->; reflexivity|].
  split; [exact Hclean|].
  intros Hplain. rewrite Hclean.
  - exact (join_facts.Clean_two_plain "category" c eq_refl Hplain).
  - intros ->. discriminate Hplain.
Qed.

Lemma category_group_witness :
  (model.Post_Category Demo.A = ""
   /\ model.Path (Post_Category (postLayout Demo.blog Demo.A Demo.B Demo.C "")) = "/category/uncategorized")
  /\ (model.Post_Category Demo.dotdot <> ""
      /\ model.Path (Post_Category (postLayout Demo.blog Demo.dotdot Demo.B Demo.C ""))
         = path.Clean ("/category/" ++ model.Post_Category Demo.dotdot))
  /\ (spec.plainName (model.Post_Category Demo.B) = true
      /\ model.Path (Post_Category (postLayout Demo.blog Demo.B Demo.A Demo.C ""))
         = ("/category/" ++ model.Post_Category Demo.B)%string).
Proof.
  destruct (category_group (env := Demo.env Demo.full) Demo.blog Demo.A Demo.B Demo.C "")
    as (_ & Hempty & _ & _).
  destruct (category_group (env := Demo.env Demo.full) Demo.blog Demo.dotdot Demo.B Demo.C "")
    as (_ & _ & Hclean & _).
  destruct (category_group (env := Demo.env Demo.full) Demo.blog Demo.B Demo.A Demo.C "")
    as (_ & _ & _ & Hplain).
  assert (Hne : model.Post_Category Demo.dotdot <> "") by discriminate.
  split; [|split].
  - split; [reflexivity | exact (Hempty eq_refl)].
  - split; [exact Hne | exact (Hclean Hne)].
  - split; [reflexivity | exact (Hplain eq_refl)].
Defined.

(** The post filed under [..] has a category that is not empty, and the
    path of its category group is the root, not [/category/..]; the demo
    template prints that path before the colon. *)
Lemma category_group_counterexample :
  model.Post_Category Demo.dotdot <> ""
  /\ model.Name (Post_Category (postLayout Demo.blog Demo.dotdot Demo.A Demo.A "")) = ".."
  /\ model.Path (Post_Category (postLayout Demo.blog Demo.dotdot Demo.A Demo.A "")) = "/"
  /\ model.Path (Post_Category (postLayout Demo.blog Demo.dotdot Demo.A Demo.A ""))
     <> ("/category/" ++ model.Post_Category Demo.dotdot)%string
  /\ RenderPost (env := Demo.env Demo.full) Demo.blog Demo.dotdot Demo.A Demo.A ""
     = ("/:/", None).
Proof.
  split; [discriminate|]. split; [reflexivity|]. split; [reflexivity|].
  split; [discriminate | reflexivity].
Qed.

Lemma Sorted_impl {A : Type} (R S : A -> A -> Prop) (l : list A) :
  (forall a b, R a b -> S a b) -> Sorted R l -> Sorted S l.
Proof.
  intros HRS. induction 1 as [|a l Hs IH Hhd]; constructor; [exact IH|].
  destruct Hhd; constructor. apply HRS. assumption.
Qed.

(** The group of a tag, before the sort. *)
Lemma tags_unsorted (names : list string) :
  forall groups,
    fold_left (fun tags tag =>
                 tags ++ [{| model.Name := tag; model.Path := fp.Join ["/"; "tag"; tag] |}])
              names groups
    = groups ++ map (fun tag => {| model.Name := tag;
                                   model.Path := path.Clean ("/tag/" ++ tag) |}) names.
Proof.
  induction names as [|tag names IH]; intros groups; cbn [fold_left map].
  - rewrite app_nil_r. reflexivity.
  - rewrite IH, <- app_assoc. cbn [app].
    rewrite (join_facts.fp_Join_root "tag" tag). reflexivity.
Qed.

(** The tag groups of a post are sorted by name and are the groups of its
    tags. *)
Lemma tags_sorted (post : model.Post) :
  StronglySorted (fun a b => String.leb (model.Name a) (model.Name b) = true) (tags post)
  /\ Permutation (tags post)
       (map (fun t => {| model.Name := t; model.Path := path.Clean ("/tag/" ++ t) |})
            (model.Post_Tags post)).
Proof.
  unfold tags. rewrite tags_unsorted. cbn [app].
  set (unsorted := map _ (model.Post_Tags post)).
  destruct (sort_facts.Slice_sorted lessName
              (fun a b => string_order.ltb_asym (model.Name a) (model.Name b)) unsorted)
    as [Hsorted Hperm].
  split; [|exact Hperm].
  apply Sorted_StronglySorted.
  - intros a b c Hab Hbc. exact (string_order.leb_trans _ _ _ Hab Hbc).
  - apply (Sorted_impl (spec.up lessName)); [|exact Hsorted].
    intros a b Hup. apply string_order.ltb_false_leb. exact Hup.
Qed.

(** The groups of the tags have one arrangement that is sorted by name:
    whatever way [sort.Slice] sorts, stable or not, it returns [tags]. *)
Lemma tags_any_sort (post : model.Post) (sorted : list model.Group) :
  Permutation sorted
    (map (fun t => {| model.Name := t; model.Path := path.Clean ("/tag/" ++ t) |})
         (model.Post_Tags post)) ->
  StronglySorted (fun a b => String.leb (model.Name a) (model.Name b) = true) sorted ->
  sorted = tags post.
Proof.
  intros Hperm Hsorted. destruct (tags_sorted post) as [Hs Hp].
  apply (sort_facts.sorted_unique model.Name (fun a b => String.leb a b = true)).
  - intros a b. apply String.leb_antisym.
  - intros a. unfold String.leb. rewrite string_order.compare_refl. reflexivity.
  - intros a b Ha Hb Hname.
    apply (Permutation_in _ Hperm), in_map_iff in Ha.
    apply (Permutation_in _ Hperm), in_map_iff in Hb.
    destruct Ha as (ta & <- & _). destruct Hb as (tb & <- & _).
    cbn [model.Name] in Hname. subst tb. reflexivity.
  - exact Hsorted.
  - exact Hs.
  - rewrite Hperm. symmetry. exact Hp.
Qed.

(** C8 (amended): the tag groups of the view model of a post are sorted by
    name in the order of strings (every group is at most each group after
    it); they are the groups of the tags of the post, one for each tag [t],
    with name [t] and with the cleaned join of [/tag] and [t] as path, which
    is [/tag/<t>] for every tag that is a plain name (no slash, not empty,
    not [.] or [..]). *)
Theorem tag_groups {env : Env} (rd : Renderer) (post olderPost newerPost : model.Post)
        (html : string) :
  let groups := Post_Tags (postLayout rd post olderPost newerPost html) in
  StronglySorted (fun a b => String.leb (model.Name a) (model.Name b) = true) groups
  /\ Permutation groups
       (map (fun t => {| model.Name := t; model.Path := path.Clean ("/tag/" ++ t) |})
            (model.Post_Tags post))
  /\ (forall group,
        In group groups ->
        In (model.Name group) (model.Post_Tags post)
        /\ model.Path group = path.Clean ("/tag/" ++ model.Name group)
        /\ (spec.plainName (model.Name group) = true ->
            model.Path group = ("/tag/" ++ model.Name group)%string)).
Proof.
  intros groups. subst groups. cbn [postLayout Post_Tags].
  destruct (tags_sorted post) as [Hsorted Hperm].
  split; [exact Hsorted|]. split; [exact Hperm|].
  intros group Hin.
  apply (Permutation_in _ Hperm) in Hin.
  apply in_map_iff in Hin. destruct Hin as (t & <- & Ht). cbn [model.Name model.Path].
  split; [exact Ht|]. split; [reflexivity|].
  intros Hplain. exact (join_facts.Clean_two_plain "tag" t eq_refl Hplain).
Qed.

Lemma tag_groups_witness :
  Post_Tags (postLayout Demo.blog Demo.tagged Demo.A Demo.B "")
  = [ {| model.Name := "a"; model.Path := "/tag/a" |};
      {| model.Name := "b"; model.Path := "/tag/b" |};
      {| model.Name := "c"; model.Path := "/tag/c" |} ]
  /\ In {| model.Name := "b"; model.Path := "/tag/b" |}
        (Post_Tags (postLayout Demo.blog Demo.tagged Demo.A Demo.B ""))
  /\ spec.plainName "b" = true
  /\ model.Path {| model.Name := "b"; model.Path := "/tag/b" |} = "/tag/b".
Proof.
  destruct (tag_groups (env := Demo.env Demo.full) Demo.blog Demo.tagged Demo.A Demo.B "")
    as (_ & _ & Hgroup).
  assert (Hin : In {| model.Name := "b"; model.Path := "/tag/b" |}
                   (Post_Tags (postLayout Demo.blog Demo.tagged Demo.A Demo.B "")))
    by (vm_compute; auto).
  split; [reflexivity|]. split; [exact Hin|]. split; [reflexivity|].
  exact (proj2 (proj2 (Hgroup _ Hin)) eq_refl).
Defined.

(** The post tagged [..] has one tag group; its name is [..] and its path
    is the root, not [/tag/..]. *)
Lemma tag_groups_counterexample :
  model.Post_Tags Demo.dotdot = [".."]
  /\ Post_Tags (postLayout Demo.blog Demo.dotdot Demo.A Demo.A "")
     = [ {| model.Name := ".."; model.Path := "/" |} ]
  /\ "/" <> ("/tag/" ++ "..")%string
  /\ RenderPost (env := Demo.env Demo.full) Demo.blog Demo.dotdot Demo.A Demo.A ""
     = ("/:/", None).
Proof.
  split; [reflexivity|]. split; [reflexivity|]. split; [discriminate | reflexivity].
Qed.

(** ** The output pipeline *)

(** C9: with minification on, the template is executed into a buffer of
    its own: when the execution fails, the destination is left as it was
    and the error of the execution is returned as it is; when the
    execution succeeds, the minifier writes to the destination and its
    error, if any, is returned as it is. *)
Theorem executeTemplate_minimize {env : Env} (rd : Renderer) (tpl : Template)
        (w : Go.Writer) (name : string) (data : ViewData) :
  Minimize rd = true ->
  (forall buff e,
      ExecuteTemplate tpl name data = (buff, Some e) ->
      executeTemplate rd tpl w name data = (w, Some e))
  /\ (forall buff out err,
        ExecuteTemplate tpl name data = (buff, None) ->
        Minify buff = (out, err) ->
        executeTemplate rd tpl w name data = ((w ++ out)%string, err)).
Proof.
  intros Hmin. unfold executeTemplate. rewrite Hmin. simpl.
  split.
  - intros buff e ->. reflexivity.
  - intros buff out err -> ->. reflexivity.
Qed.

Lemma executeTemplate_minimize_witness :
  Minimize Demo.minimized = true
  /\ (ExecuteTemplate (Env := Demo.env Demo.full) [] "broken.html" Demo.badPage
      = ("<html", Some (Go.Foreign "template" "execution failed"))
      /\ executeTemplate (env := Demo.env Demo.full) Demo.minimized [] "kept" "broken.html"
           Demo.badPage
         = ("kept", Some (Go.Foreign "template" "execution failed")))
  /\ (ExecuteTemplate (Env := Demo.env Demo.full) [] "page.html" Demo.badPage = ("<bad>", None)
      /\ Minify (Env := Demo.env Demo.full) "<bad>"
         = ("", Some (Go.Foreign "minify" "parse error"))
      /\ executeTemplate (env := Demo.env Demo.full) Demo.minimized [] "kept" "page.html"
           Demo.badPage
         = ("kept", Some (Go.Foreign "minify" "parse error"))).
Proof.
  split; [reflexivity|]. split.
  - split; [reflexivity|].
    exact (proj1 (executeTemplate_minimize (env := Demo.env Demo.full) Demo.minimized []
                    "kept" "broken.html" Demo.badPage eq_refl)
                 "<html" (Go.Foreign "template" "execution failed") eq_refl).
  - split; [reflexivity|]. split; [reflexivity|].
    exact (proj2 (executeTemplate_minimize (env := Demo.env Demo.full) Demo.minimized []
                    "kept" "page.html" Demo.badPage eq_refl)
                 "<bad>" "" (Some (Go.Foreign "minify" "parse error")) eq_refl eq_refl).
Defined.

(** ** The front page of a site without posts *)

(** C10 (amended): [RenderFrontPage] checks no page range.  On a renderer
    without posts, with a valid configuration, a positive page size, a theme
    directory that can be listed and a front page or list template that
    parses, it executes the template on a list view model whose current
    page is 1, whose max page is 0 and whose window of posts is empty; its
    result is that of the output pipeline. *)
Theorem RenderFrontPage_no_posts {env : Env} (rd : Renderer) (dst : Go.Writer)
        (base : list string) (tpl : Template) :
  let tplFrontPage := fp.Join [themeDir rd; "frontpage.html"] in
  let tplList := fp.Join [themeDir rd; "list.html"] in
  let active := if fileExists tplFrontPage then "frontpage.html" else "list.html" in
  let file := if fileExists tplFrontPage then tplFrontPage else tplList in
  validateConfig rd = None ->
  getBaseTemplates rd = Go.Ok base ->
  fileExists tplFrontPage || fileExists tplList = true ->
  ParseFiles (base ++ [file]) = Go.Ok tpl ->
  Renderer_Posts rd = [] ->
  0 < model.Pagination (Config rd) <= Go.max_int ->
  RenderFrontPage rd dst
  = Go.Done (executeTemplate rd tpl dst active (ListData (frontPage rd [])))
  /\ List_CurrentPage (frontPage rd []) = 1
  /\ List_MaxPage (frontPage rd []) = 0
  /\ List_Posts (frontPage rd []) = []
  /\ List_CurrentPage (frontPage rd []) > List_MaxPage (frontPage rd []).
Proof.
  intros tplFrontPage tplList active file Hcfg Hbase Hexists Hparse Hposts HS.
  assert (Hmax : getMaxPagination rd (Renderer_Posts rd) = 0).
  { rewrite getMaxPagination_pages, Hposts; [|rewrite Hposts; reflexivity | exact HS].
    apply float_ceil.cdiv_unique; cbn [Go.len List.length Z.of_nat]; lia. }
  assert (Hwin : getListPosts rd (Renderer_Posts rd) 1 = Go.Done []).
  { rewrite Hposts. unfold getListPosts, Go.mul, Go.sub, Go.add.
    change (Go.wrap (1 - 1)) with 0. rewrite Z.mul_0_l. change (Go.wrap 0) with 0.
    rewrite Z.add_0_l, wrap_id by (unfold Go.min_int; lia).
    change (Go.len (@nil model.Post)) with 0.
    replace (model.Pagination (Config rd) >? 0) with true
      by (symmetry; apply Z.gtb_lt; lia).
    reflexivity. }
  split.
  - unfold RenderFrontPage. rewrite Hcfg, Hbase.
    fold tplFrontPage tplList. rewrite Hwin.
    subst active file. destruct (fileExists tplFrontPage).
    + rewrite Hparse. reflexivity.
    + cbn [orb] in Hexists. rewrite Hexists, Hparse. reflexivity.
  - cbn [frontPage List_CurrentPage List_MaxPage List_Posts]. rewrite Hmax.
    repeat split; reflexivity.
Qed.

Lemma RenderFrontPage_no_posts_witness :
  validateConfig (Demo.site 2 false []) = None
  /\ getBaseTemplates (env := Demo.env Demo.full) (Demo.site 2 false [])
     = Go.Ok ["theme/t/_header.html"]
  /\ fileExists (Env := Demo.env Demo.full) "theme/t/frontpage.html"
     || fileExists (Env := Demo.env Demo.full) "theme/t/list.html" = true
  /\ ParseFiles (Env := Demo.env Demo.full) ["theme/t/_header.html"; "theme/t/frontpage.html"]
     = Go.Ok ["theme/t/_header.html"; "theme/t/frontpage.html"]
  /\ Renderer_Posts (Demo.site 2 false []) = []
  /\ 0 < model.Pagination (Config (Demo.site 2 false [])) <= Go.max_int
  /\ RenderFrontPage (env := Demo.env Demo.full) (Demo.site 2 false []) ""
     = Go.Done ("/posts:", None)
  /\ List_MaxPage (frontPage (env := Demo.env Demo.full) (Demo.site 2 false []) []) = 0.
Proof.
  assert (HS : 0 < model.Pagination (Config (Demo.site 2 false [])) <= Go.max_int)
    by (split; vm_compute; [reflexivity | discriminate]).
  destruct (RenderFrontPage_no_posts (env := Demo.env Demo.full) (Demo.site 2 false []) ""
              ["theme/t/_header.html"] ["theme/t/_header.html"; "theme/t/frontpage.html"]
              eq_refl eq_refl eq_refl eq_refl eq_refl HS) as (Hrun & _ & Hmax & _).
  split; [reflexivity|]. split; [reflexivity|]. split; [reflexivity|].
  split; [reflexivity|]. split; [reflexivity|]. split; [exact HS|].
  split; [exact Hrun | exact Hmax].
Defined.

(** Without posts, with a valid configuration, a theme directory that is
    listed and a front page template that parses, the page size decides.
    With the page size -1 [RenderFrontPage] panics: it slices the empty
    list of posts up to the index -1, and renders nothing.  With the page
    size 0 it renders, but the max page of its view model is what the
    conversion of a NaN to [int] gives, here the least [int], not 0. *)
Lemma RenderFrontPage_no_posts_counterexample :
  Renderer_Posts (Demo.site (-1) false []) = []
  /\ validateConfig (Demo.site (-1) false []) = None
  /\ getBaseTemplates (env := Demo.env Demo.full) (Demo.site (-1) false [])
     = Go.Ok ["theme/t/_header.html"]
  /\ fileExists (Env := Demo.env Demo.full) "theme/t/frontpage.html" = true
  /\ ParseFiles (Env := Demo.env Demo.full) ["theme/t/_header.html"; "theme/t/frontpage.html"]
     = Go.Ok ["theme/t/_header.html"; "theme/t/frontpage.html"]
  /\ getListPosts (Demo.site (-1) false []) [] 1 = Go.Panic "slice bounds out of range"
  /\ RenderFrontPage (env := Demo.env Demo.full) (Demo.site (-1) false []) ""
     = Go.Panic "slice bounds out of range"
  /\ Renderer_Posts (Demo.site 0 false []) = []
  /\ RenderFrontPage (env := Demo.env Demo.full) (Demo.site 0 false []) ""
     = Go.Done ("/posts:", None)
  /\ List_MaxPage (frontPage (env := Demo.env Demo.full) (Demo.site 0 false []) [])
     = Go.min_int
  /\ Go.min_int <> 0.
Proof.
  split; [reflexivity|]. split; [reflexivity|]. split; [reflexivity|].
  split; [reflexivity|]. split; [reflexivity|].
  split; [vm_compute; reflexivity|]. split; [vm_compute; reflexivity|].
  split; [reflexivity|]. split; [vm_compute; reflexivity|].
  split; [vm_compute; reflexivity | discriminate].
Qed.

(** ** The spec's example, and some paths *)

(** Page size 2 and the posts A, B, C: page 1 is A, B; page 2 is C; page 3
    is absent and nothing is written. *)
Example three_posts_two_a_page :
  RenderList (env := Demo.env Demo.full) Demo.blog DEFAULT "" 1 ""
  = Go.Done ("/posts:A,B", (3, None))
  /\ RenderList (env := Demo.env Demo.full) Demo.blog DEFAULT "" 2 ""
     = Go.Done ("/posts:C", (3, None))
  /\ RenderList (env := Demo.env Demo.full) Demo.blog DEFAULT "" 3 ""
     = Go.Done ("", (-1, None))
  /\ getMaxPagination (env := Demo.env Demo.full) Demo.blog (Renderer_Posts Demo.blog) = 2.
Proof. repeat split; vm_compute; reflexivity. Qed.

Example Clean_examples :
  path.Clean "abc//./../def" = "def"
  /\ path.Clean "abc/def/../../.." = ".."
  /\ path.Clean "/abc/def/../../.." = "/"
  /\ path.Clean "../../abc/.." = "../.."
  /\ path.Clean "" = "."
  /\ path.Clean "a/../../b/./c//d/" = "../b/c/d"
  /\ path.Join ["/category"; ""] = "/category"
  /\ fp.Join ["/"; "category"; "uncategorized"] = "/category/uncategorized"
  /\ fp.Join [""; "theme"; "t"] = "theme/t".
Proof. repeat split; vm_compute; reflexivity. Qed.

(** * More facts *)

(** ** Errors before the template is executed *)

(** X1: without a theme in the configuration, the four entry points
    return the error of [validateConfig] and write nothing; [RenderList]
    returns -1 with it. *)
Theorem empty_theme_fails {env : Env} (rd : Renderer) :
  model.Theme (Config rd) = "" ->
  let err := Go.Errorf "No theme specified in configuration file" in
  (forall dst, RenderFrontPage rd dst = Go.Done (dst, Some err))
  /\ (forall listType groupName pageNumber dst,
        RenderList rd listType groupName pageNumber dst = Go.Done (dst, (-1, Some err)))
  /\ (forall page dst, RenderPage rd page dst = (dst, Some err))
  /\ (forall post olderPost newerPost dst,
        RenderPost rd post olderPost newerPost dst = (dst, Some err)).
Proof.
  intros Htheme err.
  assert (Hcfg : validateConfig rd = Some err)
    by (unfold validateConfig; rewrite Htheme; reflexivity).
  unfold RenderFrontPage, RenderList, RenderPage, RenderPost. rewrite Hcfg.
  repeat split.
Qed.

Lemma empty_theme_fails_witness :
  model.Theme (Config Broken.themeless) = ""
  /\ RenderFrontPage (env := Demo.env Demo.full) Broken.themeless "kept"
     = Go.Done ("kept", Some (Go.Errorf "No theme specified in configuration file"))
  /\ RenderList (env := Demo.env Demo.full) Broken.themeless TAG "a" 1 "kept"
     = Go.Done ("kept", (-1, Some (Go.Errorf "No theme specified in configuration file"))).
Proof.
  destruct (empty_theme_fails (env := Demo.env Demo.full) Broken.themeless eq_refl)
    as (Hfront & Hlist & _).
  split; [reflexivity|]. split; [apply Hfront | apply Hlist].
Defined.

(** X2: with a valid configuration, [RenderList], [RenderPage] and
    [RenderPost] need the template of their kind: when the file does not
    exist they return the error that names the kind and write nothing,
    whatever else the theme directory holds and even when it cannot be
    listed; there is no fallback as for the front page. *)
Theorem kind_template_is_mandatory {env : Env} (rd : Renderer) :
  validateConfig rd = None ->
  (fileExists (fp.Join [themeDir rd; "list.html"]) = false ->
   forall listType groupName pageNumber dst,
     RenderList rd listType groupName pageNumber dst
     = Go.Done (dst, (-1, Some (Go.Errorf "Template for list is not exist"))))
  /\ (fileExists (fp.Join [themeDir rd; "page.html"]) = false ->
      forall page dst,
        RenderPage rd page dst = (dst, Some (Go.Errorf "Template for page is not exist")))
  /\ (fileExists (fp.Join [themeDir rd; "post.html"]) = false ->
      forall post olderPost newerPost dst,
        RenderPost rd post olderPost newerPost dst
        = (dst, Some (Go.Errorf "Template for post is not exist"))).
Proof.
  intros Hcfg. unfold RenderList, RenderPage, RenderPost. rewrite Hcfg.
  repeat split; intros Hmissing; intros; rewrite Hmissing; reflexivity.
Qed.

Lemma kind_template_is_mandatory_witness :
  validateConfig Demo.blog = None
  /\ fileExists (Env := Broken.unreadable ["frontpage.html"]) "theme/t/list.html" = false
  /\ RenderList (env := Broken.unreadable ["frontpage.html"]) Demo.blog DEFAULT "" 1 "kept"
     = Go.Done ("kept", (-1, Some (Go.Errorf "Template for list is not exist")))
  /\ fileExists (Env := Demo.env ["frontpage.html"]) "theme/t/page.html" = false
  /\ RenderPage (env := Demo.env ["frontpage.html"]) Demo.blog Broken.about "kept"
     = ("kept", Some (Go.Errorf "Template for page is not exist"))
  /\ fileExists (Env := Demo.env ["frontpage.html"]) "theme/t/post.html" = false
  /\ RenderPost (env := Demo.env ["frontpage.html"]) Demo.blog Demo.A Demo.B Demo.C "kept"
     = ("kept", Some (Go.Errorf "Template for post is not exist")).
Proof.
  destruct (kind_template_is_mandatory (env := Broken.unreadable ["frontpage.html"])
              Demo.blog eq_refl) as (Hlist & _ & _).
  destruct (kind_template_is_mandatory (env := Demo.env ["frontpage.html"])
              Demo.blog eq_refl) as (_ & Hpage & Hpost).
  split; [reflexivity|]. split; [reflexivity|].
  split; [exact (Hlist eq_refl DEFAULT "" 1 "kept")|]. split; [reflexivity|].
  split; [exact (Hpage eq_refl Broken.about "kept")|]. split; [reflexivity|].
  exact (Hpost eq_refl Demo.A Demo.B Demo.C "kept").
Defined.

(** X3: an error of the file system comes back as it is, and nothing is
    written: when the theme directory cannot be listed, the front page
    fails with the error of the listing, and so do a list, a page and a
    post whose template exists; when the body of a page or of a post
    cannot be read, [RenderPage] and [RenderPost] fail with the error of
    the reading. *)
Theorem file_system_errors {env : Env} (rd : Renderer) (err : Go.error) :
  validateConfig rd = None ->
  (ReadDir (themeDir rd) = Go.Failed err ->
   (forall dst, RenderFrontPage rd dst = Go.Done (dst, Some err))
   /\ (fileExists (fp.Join [themeDir rd; "list.html"]) = true ->
       forall listType groupName pageNumber dst,
         RenderList rd listType groupName pageNumber dst = Go.Done (dst, (-1, Some err)))
   /\ (fileExists (fp.Join [themeDir rd; "page.html"]) = true ->
       forall page dst, RenderPage rd page dst = (dst, Some err))
   /\ (fileExists (fp.Join [themeDir rd; "post.html"]) = true ->
       forall post olderPost newerPost dst,
         RenderPost rd post olderPost newerPost dst = (dst, Some err)))
  /\ (forall base, getBaseTemplates rd = Go.Ok base ->
      (fileExists (fp.Join [themeDir rd; "page.html"]) = true ->
       forall page dst,
         readIndexFile (model.Page_Path page) = Go.Failed err ->
         RenderPage rd page dst = (dst, Some err))
      /\ (fileExists (fp.Join [themeDir rd; "post.html"]) = true ->
          forall post olderPost newerPost dst,
            readIndexFile (model.Post_Path post) = Go.Failed err ->
            RenderPost rd post olderPost newerPost dst = (dst, Some err))).
Proof.
  intros Hcfg. split.
  - intros Hdir.
    assert (Hbase : getBaseTemplates rd = Go.Failed err)
      by (unfold getBaseTemplates; rewrite Hdir; reflexivity).
    unfold RenderFrontPage, RenderList, RenderPage, RenderPost.
    rewrite Hcfg, Hbase.
    repeat split; intros Htpl; intros; rewrite Htpl; reflexivity.
  - intros base Hbase. unfold RenderPage, RenderPost. rewrite Hcfg, Hbase.
    split; intros Htpl; intros; rewrite Htpl; cbn [negb];
      match goal with H : readIndexFile _ = _ |- _ => rewrite H end; reflexivity.
Qed.

Lemma file_system_errors_witness :
  validateConfig Demo.blog = None
  /\ ReadDir (Env := Broken.unreadable Demo.full) (themeDir Demo.blog)
     = Go.Failed Broken.denied
  /\ RenderFrontPage (env := Broken.unreadable Demo.full) Demo.blog "kept"
     = Go.Done ("kept", Some Broken.denied)
  /\ fileExists (Env := Broken.unreadable Demo.full) "theme/t/list.html" = true
  /\ RenderList (env := Broken.unreadable Demo.full) Demo.blog DEFAULT "" 1 "kept"
     = Go.Done ("kept", (-1, Some Broken.denied))
  /\ getBaseTemplates (env := Broken.bodyless Demo.full) Demo.blog
     = Go.Ok ["theme/t/_header.html"]
  /\ fileExists (Env := Broken.bodyless Demo.full) "theme/t/post.html" = true
  /\ readIndexFile (Env := Broken.bodyless Demo.full) (model.Post_Path Demo.A)
     = Go.Failed Broken.missing
  /\ RenderPost (env := Broken.bodyless Demo.full) Demo.blog Demo.A Demo.B Demo.C "kept"
     = ("kept", Some Broken.missing).
Proof.
  destruct (file_system_errors (env := Broken.unreadable Demo.full) Demo.blog
              Broken.denied eq_refl) as [Hdir _].
  destruct (Hdir eq_refl) as (Hfront & Hlist & _).
  destruct (file_system_errors (env := Broken.bodyless Demo.full) Demo.blog
              Broken.missing eq_refl) as [_ Hbody].
  destruct (Hbody ["theme/t/_header.html"] eq_refl) as (_ & Hpost).
  split; [reflexivity|]. split; [reflexivity|]. split; [apply Hfront|].
  split; [reflexivity|]. split; [exact (Hlist eq_refl DEFAULT "" 1 "kept")|].
  split; [reflexivity|]. split; [reflexivity|]. split; [reflexivity|].
  exact (Hpost eq_refl Demo.A Demo.B Demo.C "kept" eq_refl).
Defined.

(** ** What the entry points return *)

Lemma len_nonneg {A : Type} (s : list A) : 0 <= Go.len s.
Proof. unfold Go.len. lia. Qed.

(** X4: the [int] that [RenderList] returns tells the three outcomes
    apart.  With an error it is -1.  Without error it is -1 exactly when
    the page is absent, and then nothing has been written.  Otherwise it is
    the number of posts of the whole filtered list, which is not negative,
    whatever the page. *)
Theorem RenderList_result {env : Env} (rd : Renderer) (listType : ListType)
        (groupName : string) (pageNumber : Go.int) (dst dst' : Go.Writer)
        (n : Go.int) (err : option Go.error) :
  RenderList rd listType groupName pageNumber dst = Go.Done (dst', (n, err)) ->
  (err <> None -> n = -1)
  /\ (err = None -> n = -1 -> dst' = dst)
  /\ (n <> -1 ->
      err = None /\ n = Go.len (fst (filterPosts rd listType groupName)) /\ 0 <= n).
Proof.
  unfold RenderList. intros Hrun.
  destruct (validateConfig rd);
    [injection Hrun as <- <- <-; repeat split; congruence|].
  destruct (negb (fileExists _));
    [injection Hrun as <- <- <-; repeat split; congruence|].
  destruct (getBaseTemplates rd) as [base|];
    [|injection Hrun as <- <- <-; repeat split; congruence].
  destruct (filterPosts rd listType groupName) as [posts group]. cbn [fst].
  destruct (_ >? _);
    [injection Hrun as <- <- <-; repeat split; congruence|].
  destruct (getListPosts rd posts _) as [window|]; [|discriminate].
  destruct (ParseFiles _) as [tpl|];
    [|injection Hrun as <- <- <-; repeat split; congruence].
  destruct (executeTemplate rd tpl dst "list.html" _) as [out [e|]];
    injection Hrun as <- <- <-.
  - repeat split; congruence.
  - pose proof (len_nonneg posts). repeat split; try congruence; lia.
Qed.

Lemma RenderList_result_witness :
  RenderList (env := Demo.env Demo.full) Demo.blog TAG "a" 1 ""
  = Go.Done ("/tag/a:A,B", (2, None))
  /\ 2 <> -1
  /\ 2 = Go.len (fst (filterPosts Demo.blog TAG "a"))
  /\ RenderList (env := Demo.env Demo.full) Demo.blog TAG "a" 2 "kept"
     = Go.Done ("kept", (-1, None)).
Proof.
  assert (Hrun : RenderList (env := Demo.env Demo.full) Demo.blog TAG "a" 1 ""
                 = Go.Done ("/tag/a:A,B", (2, None))) by (vm_compute; reflexivity).
  assert (Hn : 2 <> -1) by lia.
  destruct (RenderList_result (env := Demo.env Demo.full) Demo.blog TAG "a" 1 "" _ 2 None Hrun)
    as (_ & _ & Hcount).
  split; [exact Hrun|]. split; [exact Hn|].
  split; [exact (proj1 (proj2 (Hcount Hn)))|]. vm_compute. reflexivity.
Defined.

(** X5: the destination is written through the output pipeline only.
    Whatever an entry point returns, either the destination is as it was
    and the call has failed (for [RenderList]: has returned -1), or the
    destination and the error are those that [executeTemplate] returned
    for the template of the kind (for the front page, [frontpage.html] or
    [list.html]). *)
Theorem writes_only_through_the_pipeline {env : Env} (rd : Renderer) (dst dst' : Go.Writer)
        (err : option Go.error) :
  (RenderFrontPage rd dst = Go.Done (dst', err) ->
   (dst' = dst /\ err <> None)
   \/ exists tpl name l,
       (name = "frontpage.html" \/ name = "list.html")
       /\ executeTemplate rd tpl dst name (ListData l) = (dst', err))
  /\ (forall listType groupName pageNumber n,
        RenderList rd listType groupName pageNumber dst = Go.Done (dst', (n, err)) ->
        (dst' = dst /\ n = -1)
        \/ exists tpl l, executeTemplate rd tpl dst "list.html" (ListData l) = (dst', err))
  /\ (forall page,
        RenderPage rd page dst = (dst', err) ->
        (dst' = dst /\ err <> None)
        \/ exists tpl p, executeTemplate rd tpl dst "page.html" (PageData p) = (dst', err))
  /\ (forall post olderPost newerPost,
        RenderPost rd post olderPost newerPost dst = (dst', err) ->
        (dst' = dst /\ err <> None)
        \/ exists tpl p, executeTemplate rd tpl dst "post.html" (PostData p) = (dst', err)).
Proof.
  split; [|split; [|split]].
  - unfold RenderFrontPage. intros Hrun.
    destruct (validateConfig rd); [inversion Hrun; subst; left; split; congruence|].
    destruct (getBaseTemplates rd) as [base|];
      [|inversion Hrun; subst; left; split; congruence].
    destruct (fileExists (fp.Join [themeDir rd; "frontpage.html"])).
    + destruct (getListPosts rd _ 1) as [window|]; [|discriminate].
      destruct (ParseFiles _) as [tpl|];
        [|inversion Hrun; subst; left; split; congruence].
      right. exists tpl, "frontpage.html", (frontPage rd window).
      split; [left; reflexivity | congruence].
    + destruct (fileExists (fp.Join [themeDir rd; "list.html"]));
        [|inversion Hrun; subst; left; split; congruence].
      destruct (getListPosts rd _ 1) as [window|]; [|discriminate].
      destruct (ParseFiles _) as [tpl|];
        [|inversion Hrun; subst; left; split; congruence].
      right. exists tpl, "list.html", (frontPage rd window).
      split; [right; reflexivity | congruence].
  - unfold RenderList. intros listType groupName pageNumber n Hrun.
    destruct (validateConfig rd); [inversion Hrun; subst; left; auto|].
    destruct (negb (fileExists _)); [inversion Hrun; subst; left; auto|].
    destruct (getBaseTemplates rd) as [base|]; [|inversion Hrun; subst; left; auto].
    destruct (filterPosts rd listType groupName) as [posts group].
    destruct (_ >? _); [inversion Hrun; subst; left; auto|].
    destruct (getListPosts rd posts _) as [window|]; [|discriminate].
    destruct (ParseFiles _) as [tpl|]; [|inversion Hrun; subst; left; auto].
    right. exists tpl. eexists.
    destruct (executeTemplate rd tpl dst "list.html" _) as [out [e|]] eqn:Hexec;
      inversion Hrun; subst; exact Hexec.
  - unfold RenderPage. intros page Hrun.
    destruct (validateConfig rd); [inversion Hrun; subst; left; split; congruence|].
    destruct (negb (fileExists _)); [inversion Hrun; subst; left; split; congruence|].
    destruct (getBaseTemplates rd) as [base|];
      [|inversion Hrun; subst; left; split; congruence].
    destruct (readIndexFile _) as [content|];
      [|inversion Hrun; subst; left; split; congruence].
    destruct (ParseFiles _) as [tpl|];
      [|inversion Hrun; subst; left; split; congruence].
    right. exists tpl. eexists. exact Hrun.
  - unfold RenderPost. intros post olderPost newerPost Hrun.
    destruct (validateConfig rd); [inversion Hrun; subst; left; split; congruence|].
    destruct (negb (fileExists _)); [inversion Hrun; subst; left; split; congruence|].
    destruct (getBaseTemplates rd) as [base|];
      [|inversion Hrun; subst; left; split; congruence].
    destruct (readIndexFile _) as [content|];
      [|inversion Hrun; subst; left; split; congruence].
    destruct (ParseFiles _) as [tpl|];
      [|inversion Hrun; subst; left; split; congruence].
    right. exists tpl. eexists. exact Hrun.
Qed.

Lemma writes_only_through_the_pipeline_witness :
  RenderPost (env := Demo.env Demo.full) Demo.blog Demo.tagged Demo.A Demo.B "<!-- -->"
  = ("<!-- -->/category/x:/tag/a,/tag/b,/tag/c", None)
  /\ ~ ("<!-- -->/category/x:/tag/a,/tag/b,/tag/c" = "<!-- -->" /\ @None Go.error <> None)
  /\ exists (tpl : Template (Env := Demo.env Demo.full)) (p : Post),
      executeTemplate (env := Demo.env Demo.full) Demo.blog tpl "<!-- -->" "post.html" (PostData p)
      = ("<!-- -->/category/x:/tag/a,/tag/b,/tag/c", None).
Proof.
  assert (Hrun : RenderPost (env := Demo.env Demo.full) Demo.blog Demo.tagged Demo.A Demo.B
                   "<!-- -->"
                 = ("<!-- -->/category/x:/tag/a,/tag/b,/tag/c", None))
    by (vm_compute; reflexivity).
  destruct (writes_only_through_the_pipeline (env := Demo.env Demo.full) Demo.blog
              "<!-- -->" "<!-- -->/category/x:/tag/a,/tag/b,/tag/c" None)
    as (_ & _ & _ & Hpost).
  split; [exact Hrun|]. split; [intros [_ Hne]; apply Hne; reflexivity|].
  destruct (Hpost Demo.tagged Demo.A Demo.B Hrun) as [[_ Hne]|Hpipe].
  - exfalso. apply Hne. reflexivity.
  - exact Hpipe.
Defined.

(** ** The filters *)

Lemma filterTag_iff (groupName : string) (post : model.Post) :
  filterTag groupName post = true <-> In groupName (model.Post_Tags post).
Proof.
  unfold filterTag. rewrite existsb_exists. split.
  - intros (tag & Hin & Heq). apply String.eqb_eq in Heq. subst. exact Hin.
  - intros Hin. exists groupName. split; [exact Hin | apply String.eqb_refl].
Qed.

(** X6: the filter of a tag list keeps, in their order, exactly the posts
    that have the group name among their tags, and leaves the group name
    as it is; so does the filter of every list type that is neither the
    default nor the category one.  The default list keeps all the posts. *)
Theorem tag_filter (rd : Renderer) (listType : ListType) (groupName : string) :
  (listType = DEFAULT -> filterPosts rd listType groupName = (Renderer_Posts rd, groupName))
  /\ (listType <> DEFAULT -> listType <> CATEGORY ->
      filterPosts rd listType groupName
      = (filter (filterTag groupName) (Renderer_Posts rd), groupName)
      /\ forall post,
          In post (fst (filterPosts rd listType groupName))
          <-> In post (Renderer_Posts rd) /\ In groupName (model.Post_Tags post)).
Proof.
  split.
  - intros ->. reflexivity.
  - intros Hdef Hcat.
    assert (Heq : filterPosts rd listType groupName
                  = (filter (filterTag groupName) (Renderer_Posts rd), groupName)).
    { unfold filterPosts.
      apply Z.eqb_neq in Hdef. apply Z.eqb_neq in Hcat. rewrite Hdef, Hcat. reflexivity. }
    split; [exact Heq|]. intros post. rewrite Heq. cbn [fst].
    rewrite filter_In, filterTag_iff. reflexivity.
Qed.

Lemma tag_filter_witness :
  TAG <> DEFAULT /\ TAG <> CATEGORY
  /\ fst (filterPosts Demo.blog TAG "a") = [Demo.A; Demo.B]
  /\ (In Demo.C (fst (filterPosts Demo.blog TAG "a"))
      <-> In Demo.C (Renderer_Posts Demo.blog) /\ In "a" (model.Post_Tags Demo.C)).
Proof.
  assert (Hdef : TAG <> DEFAULT) by discriminate.
  assert (Hcat : TAG <> CATEGORY) by discriminate.
  destruct (tag_filter Demo.blog TAG "a") as [_ Htag].
  destruct (Htag Hdef Hcat) as [Heq Hin].
  split; [exact Hdef|]. split; [exact Hcat|].
  split; [rewrite Heq; reflexivity | apply Hin].
Defined.

(** ** Pages *)

Lemma filterPosts_len (rd : Renderer) (listType : ListType) (groupName : string) :
  Go.len (fst (filterPosts rd listType groupName)) <= Go.len (Renderer_Posts rd).
Proof.
  unfold filterPosts, Go.len.
  destruct (listType =? DEFAULT); [cbn [fst]; lia|].
  destruct (listType =? CATEGORY); cbn [fst];
    apply Nat2Z.inj_le, filter_length_le.
Qed.

(** X7: with a positive page size, [RenderList] never panics, whatever
    the list type, the group name and the page number: the range check
    keeps every slice expression within the list.  (The posts are fewer
    than [2 ^ 53], as the posts of every slice in memory are.) *)
Theorem RenderList_never_panics {env : Env} (rd : Renderer) (listType : ListType)
        (groupName : string) (pageNumber : Go.int) (dst : Go.Writer) :
  Go.len (Renderer_Posts rd) < 2 ^ 53 ->
  0 < model.Pagination (Config rd) <= Go.max_int ->
  exists result, RenderList rd listType groupName pageNumber dst = Go.Done result.
Proof.
  intros HN HS. unfold RenderList.
  destruct (validateConfig rd); [eexists; reflexivity|].
  destruct (negb (fileExists _)); [eexists; reflexivity|].
  destruct (getBaseTemplates rd) as [base|]; [|eexists; reflexivity].
  pose proof (filterPosts_len rd listType groupName) as Hlen.
  destruct (filterPosts rd listType groupName) as [posts group]. cbn [fst] in Hlen.
  rewrite clamp_max.
  destruct (Z.gtb_spec (Z.max 1 pageNumber) (getMaxPagination rd posts)) as [Hout|Hin];
    [eexists; reflexivity|].
  destruct (getListPosts_slice rd posts (Z.max 1 pageNumber)) as [_ ->]; [lia|exact HS|lia|].
  destruct (ParseFiles _) as [tpl|]; [|eexists; reflexivity].
  destruct (executeTemplate rd tpl dst "list.html" _) as [out [e|]]; eexists; reflexivity.
Qed.

Lemma RenderList_never_panics_witness :
  Go.len (Renderer_Posts Demo.blog) < 2 ^ 53
  /\ 0 < model.Pagination (Config Demo.blog) <= Go.max_int
  /\ exists result,
      RenderList (env := Demo.env Demo.full) Demo.blog CATEGORY "x"
                 (- 9223372036854775808) "" = Go.Done result.
Proof.
  assert (HN : Go.len (Renderer_Posts Demo.blog) < 2 ^ 53) by (vm_compute; reflexivity).
  assert (HS : 0 < model.Pagination (Config Demo.blog) <= Go.max_int)
    by (split; vm_compute; [reflexivity | discriminate]).
  split; [exact HN|]. split; [exact HS|].
  exact (RenderList_never_panics (env := Demo.env Demo.full) Demo.blog CATEGORY "x"
           (- 9223372036854775808) "" HN HS).
Defined.

Lemma firstn_chunk {A : Type} (a b : nat) (l : list A) :
  firstn (a + b) l = firstn a l ++ firstn b (skipn a l).
Proof.
  revert l. induction a as [|a IH]; intros l; [reflexivity|].
  destruct l as [|x l]; cbn [Nat.add firstn skipn app].
  - rewrite firstn_nil. reflexivity.
  - rewrite IH. reflexivity.
Qed.

(** The windows of the [k] first pages make up the [k * s] first posts. *)
Lemma windows_concat {A : Type} (s : nat) (l : list A) (k : nat) :
  List.concat (map (fun i => firstn s (skipn (i * s) l)) (seq 0 k)) = firstn (k * s) l.
Proof.
  induction k as [|k IH]; [reflexivity|].
  rewrite seq_S, map_app, concat_app, IH. cbn [map List.concat Nat.add].
  rewrite app_nil_r, <- firstn_chunk. f_equal. lia.
Qed.

Lemma Forall2_maps {A B C : Type} (R : B -> C -> Prop) (f : A -> B) (g : A -> C)
      (l : list A) :
  (forall a, In a l -> R (f a) (g a)) -> Forall2 R (map f l) (map g l).
Proof.
  induction l as [|a l IH]; intros H; cbn [map]; constructor.
  - apply H. left. reflexivity.
  - apply IH. intros b Hb. apply H. right. exact Hb.
Qed.

(** X8: pagination loses no post and shows none twice.  For [N] posts and
    a page size [S > 0], the windows of the pages 1, 2, ... up to the max
    page count exist, none is empty, and one after the other they are the
    list of the posts. *)
Theorem pages_partition {env : Env} (rd : Renderer) (posts : list model.Post) :
  Go.len posts < 2 ^ 53 ->
  0 < model.Pagination (Config rd) <= Go.max_int ->
  exists windows : list (list model.Post),
    Forall2 (fun p window => getListPosts rd posts (Z.of_nat p) = Go.Done window)
            (seq 1 (Z.to_nat (getMaxPagination rd posts))) windows
    /\ Forall (fun window => window <> []) windows
    /\ List.concat windows = posts.
Proof.
  intros HN HS.
  set (size := model.Pagination (Config rd)) in *.
  set (c := getMaxPagination rd posts).
  assert (Hc : (c - 1) * size < Go.len posts <= c * size).
  { unfold c. rewrite (getMaxPagination_pages rd posts HN HS).
    apply float_ceil.cdiv_bounds. lia. }
  pose proof (len_nonneg posts) as HN0.
  assert (Hc0 : 0 <= c) by nia.
  set (window := fun i : nat => firstn (Z.to_nat size) (skipn (i * Z.to_nat size) posts)).
  exists (map window (seq 0 (Z.to_nat c))).
  assert (Hpage : forall i, (i < Z.to_nat c)%nat ->
             getListPosts rd posts (Z.of_nat (1 + i)) = Go.Done (window i)
             /\ window i <> []).
  { intros i Hi.
    assert (Hp : 1 <= Z.of_nat (1 + i) <= getMaxPagination rd posts) by (fold c; lia).
    destruct (getListPosts_slice rd posts (Z.of_nat (1 + i)) HN HS Hp) as [Hstart Hslice].
    fold size in Hstart, Hslice.
    replace (Z.to_nat ((Z.of_nat (1 + i) - 1) * size)) with (i * Z.to_nat size)%nat
      in Hslice by nia.
    split; [exact Hslice|].
    intros Hnil. apply (f_equal (@List.length _)) in Hnil. unfold window in Hnil.
    rewrite length_firstn, length_skipn in Hnil. cbn [List.length] in Hnil.
    unfold Go.len in *. nia. }
  split; [|split].
  - rewrite <- seq_shift. apply Forall2_maps.
    intros i Hi. apply in_seq in Hi. apply Hpage. lia.
  - apply Forall_forall. intros w Hw. apply in_map_iff in Hw.
    destruct Hw as (i & <- & Hi). apply in_seq in Hi. apply Hpage. lia.
  - unfold window. rewrite windows_concat. apply firstn_all2.
    unfold Go.len in *. nia.
Qed.

Lemma pages_partition_witness :
  Go.len (Renderer_Posts Demo.blog) < 2 ^ 53
  /\ 0 < model.Pagination (Config Demo.blog) <= Go.max_int
  /\ exists windows : list (list model.Post),
      Forall2 (fun p window =>
                 getListPosts Demo.blog (Renderer_Posts Demo.blog) (Z.of_nat p)
                 = Go.Done window)
              (seq 1 (Z.to_nat (getMaxPagination (env := Demo.env Demo.full) Demo.blog
                                  (Renderer_Posts Demo.blog))))
              windows
      /\ Forall (fun window => window <> []) windows
      /\ List.concat windows = Renderer_Posts Demo.blog.
Proof.
  assert (HN : Go.len (Renderer_Posts Demo.blog) < 2 ^ 53) by (vm_compute; reflexivity).
  assert (HS : 0 < model.Pagination (Config Demo.blog) <= Go.max_int)
    by (split; vm_compute; [reflexivity | discriminate]).
  split; [exact HN|]. split; [exact HS|].
  exact (pages_partition (env := Demo.env Demo.full) Demo.blog (Renderer_Posts Demo.blog)
           HN HS).
Defined.

(** ** The front page and the page size *)

(** The window of page 1: the slice [posts[0:end]]. *)
Lemma getListPosts_first (rd : Renderer) (posts : list model.Post) :
  Go.min_int <= model.Pagination (Config rd) <= Go.max_int ->
  getListPosts rd posts 1
  = Go.slice posts 0 (if model.Pagination (Config rd) >? Go.len posts
                      then Go.len posts else model.Pagination (Config rd)).
Proof.
  intros HS. unfold getListPosts, Go.mul, Go.sub, Go.add.
  change (Go.wrap (1 - 1)) with 0. rewrite Z.mul_0_l. change (Go.wrap 0) with 0.
  rewrite Z.add_0_l, wrap_id by exact HS. reflexivity.
Qed.

(** X9: the front page shows the first posts.  With a page size [S] that
    is not negative, the window of [RenderFrontPage] is made of the [S]
    first posts, of all of them when they are fewer, and
    [RenderFrontPage] does not panic, however many posts there are. *)
Theorem front_page_window {env : Env} (rd : Renderer) (dst : Go.Writer) :
  0 <= model.Pagination (Config rd) <= Go.max_int ->
  getListPosts rd (Renderer_Posts rd) 1
  = Go.Done (firstn (Z.to_nat (model.Pagination (Config rd))) (Renderer_Posts rd))
  /\ exists result, RenderFrontPage rd dst = Go.Done result.
Proof.
  intros HS.
  assert (Hwin : getListPosts rd (Renderer_Posts rd) 1
                 = Go.Done (firstn (Z.to_nat (model.Pagination (Config rd)))
                                   (Renderer_Posts rd))).
  { rewrite getListPosts_first by (unfold Go.min_int; lia).
    set (size := model.Pagination (Config rd)) in *.
    set (posts := Renderer_Posts rd).
    pose proof (len_nonneg posts) as HN.
    unfold Go.slice. cbn [skipn Z.to_nat].
    destruct (Z.gtb_spec size (Go.len posts)) as [Hmore|Hless].
    - replace ((0 <=? 0) && (0 <=? Go.len posts) && (Go.len posts <=? Go.len posts))
        with true by (symmetry; rewrite !andb_true_iff, !Z.leb_le; lia).
      rewrite Z.sub_0_r. unfold Go.len in *.
      rewrite !firstn_all2 by lia. reflexivity.
    - replace ((0 <=? 0) && (0 <=? size) && (size <=? Go.len posts))
        with true by (symmetry; rewrite !andb_true_iff, !Z.leb_le; lia).
      rewrite Z.sub_0_r. reflexivity. }
  split; [exact Hwin|].
  unfold RenderFrontPage.
  destruct (validateConfig rd); [eexists; reflexivity|].
  destruct (getBaseTemplates rd) as [base|]; [|eexists; reflexivity].
  destruct (fileExists (fp.Join [themeDir rd; "frontpage.html"])).
  - rewrite Hwin. destruct (ParseFiles _); eexists; reflexivity.
  - destruct (fileExists (fp.Join [themeDir rd; "list.html"])); [|eexists; reflexivity].
    rewrite Hwin. destruct (ParseFiles _); eexists; reflexivity.
Qed.

Lemma front_page_window_witness :
  0 <= model.Pagination (Config Demo.blog) <= Go.max_int
  /\ getListPosts Demo.blog (Renderer_Posts Demo.blog) 1 = Go.Done [Demo.A; Demo.B]
  /\ exists result,
      RenderFrontPage (env := Demo.env Demo.full) Demo.blog "" = Go.Done result.
Proof.
  assert (HS : 0 <= model.Pagination (Config Demo.blog) <= Go.max_int)
    by (split; vm_compute; discriminate).
  split; [exact HS|].
  exact (front_page_window (env := Demo.env Demo.full) Demo.blog "" HS).
Defined.

(** X10: a negative page size makes the front page panic.  Once the
    configuration is valid, the theme directory is listed and the theme
    has a front page or a list template, [RenderFrontPage] slices the
    posts up to a negative index, whatever the posts are, and the
    program panics before any template is parsed. *)
Theorem front_page_negative_page_size {env : Env} (rd : Renderer) (dst : Go.Writer)
        (base : list string) :
  validateConfig rd = None ->
  getBaseTemplates rd = Go.Ok base ->
  fileExists (fp.Join [themeDir rd; "frontpage.html"])
  || fileExists (fp.Join [themeDir rd; "list.html"]) = true ->
  Go.min_int <= model.Pagination (Config rd) < 0 ->
  RenderFrontPage rd dst = Go.Panic "slice bounds out of range".
Proof.
  intros Hcfg Hbase Hexists HS.
  assert (Hwin : getListPosts rd (Renderer_Posts rd) 1
                 = Go.Panic "slice bounds out of range").
  { rewrite getListPosts_first by (unfold Go.max_int; lia).
    pose proof (len_nonneg (Renderer_Posts rd)) as HN.
    replace (model.Pagination (Config rd) >? Go.len (Renderer_Posts rd)) with false
      by (symmetry; rewrite Z.gtb_ltb; apply Z.ltb_ge; lia).
    unfold Go.slice.
    replace (0 <=? model.Pagination (Config rd)) with false
      by (symmetry; apply Z.leb_gt; lia).
    reflexivity. }
  unfold RenderFrontPage. rewrite Hcfg, Hbase.
  destruct (fileExists (fp.Join [themeDir rd; "frontpage.html"])).
  - rewrite Hwin. reflexivity.
  - cbn [orb] in Hexists. rewrite Hexists, Hwin. reflexivity.
Qed.

Lemma front_page_negative_page_size_witness :
  Go.min_int <= model.Pagination (Config (Demo.site (-2) false [Demo.A; Demo.B; Demo.C])) < 0
  /\ RenderFrontPage (env := Demo.env Demo.full) (Demo.site (-2) false [Demo.A; Demo.B; Demo.C])
       "kept"
     = Go.Panic "slice bounds out of range".
Proof.
  assert (HS : Go.min_int
               <= model.Pagination (Config (Demo.site (-2) false [Demo.A; Demo.B; Demo.C])) < 0)
    by (split; vm_compute; [discriminate | reflexivity]).
  split; [exact HS|].
  exact (front_page_negative_page_size (env := Demo.env Demo.full)
           (Demo.site (-2) false [Demo.A; Demo.B; Demo.C]) "kept"
           ["theme/t/_header.html"] eq_refl eq_refl eq_refl HS).
Defined.

(** ** A page size that is not positive *)

Module float_sign.
Import float64 float_facts float_div float_ceil.

(** Rounding does not look at the sign. *)
Lemma binary_round_aux_opp (m e : Z) (l : location) :
  binary_round_aux prec emax true m e l = SFopp (binary_round_aux prec emax false m e l).
Proof.
  unfold binary_round_aux.
  destruct (shr_fexp prec emax m e l) as [mrs' e'].
  destruct (shr_fexp prec emax _ e' loc_Exact) as [mrs'' e''].
  destruct (shr_m mrs''); [reflexivity| |reflexivity].
  destruct (e'' <=? emax - prec); reflexivity.
Qed.

Lemma of_int_opp (p : positive) : of_int (Zneg p) = SFopp (of_int (Zpos p)).
Proof.
  unfold of_int, binary_normalize, binary_round.
  destruct (shl_align p 0 _) as [mz ez]. apply binary_round_aux_opp.
Qed.

Lemma div_opp (mx my : positive) (ex ey : Z) :
  div (S754_finite false mx ex) (S754_finite true my ey)
  = SFopp (div (S754_finite false mx ex) (S754_finite false my ey)).
Proof.
  unfold div, SFdiv. cbn [xorb].
  destruct (SFdiv_core_binary prec emax (Zpos mx) ex (Zpos my) ey) as [[mz ez] lz].
  apply binary_round_aux_opp.
Qed.

(** [float64(z)] is a normal number for every positive [z] up to
    [2 ^ 63]. *)
Lemma of_int_normal (z : Z) :
  0 < z <= 2 ^ 63 ->
  exists (m : positive) (e : Z),
    of_int z = S754_finite false m e /\ 2 ^ 52 <= Zpos m < 2 ^ 53 /\ -52 <= e <= 11.
Proof.
  intros Hz.
  destruct (Z_lt_le_dec z (2 ^ 53)) as [Hs|Hs];
    [|destruct (Z_lt_le_dec z (2 ^ 63)) as [Hl|Hl]].
  - destruct (of_int_small z ltac:(lia)) as (m & e & H & He & _ & Hm).
    exists m, e. split; [exact H|]. split; [exact Hm | lia].
  - destruct (of_int_large z ltac:(lia)) as (m & e & H & He & Hm).
    exists m, e. split; [exact H|]. split; [exact Hm | lia].
  - replace z with (2 ^ 63) by lia.
    exists (4503599627370496)%positive, 11. split; [vm_compute; reflexivity|].
    split; [split; vm_compute; congruence | lia].
Qed.

(** [int(float64(- z))] is [- z] for a positive [z] below [2 ^ 53]. *)
Lemma to_int_of_int_neg (unrepresentable : t -> Go.int) (p : positive) :
  Zpos p < 2 ^ 53 -> to_int unrepresentable (of_int (Zneg p)) = Zneg p.
Proof.
  intros Hp. rewrite of_int_opp.
  destruct (of_int_small (Zpos p) ltac:(lia)) as (m & e & -> & He & Hm & Hmr).
  cbn [SFopp negb]. unfold to_int, signed, cond_Zopp.
  assert (HE : 0 < 2 ^ (- e)) by (apply Z.pow_pos_nonneg; lia).
  assert (Hval : (if 0 <=? e then - Zpos m * 2 ^ e else Z.quot (- Zpos m) (2 ^ (- e)))
                 = Zneg p).
  { destruct (Z.leb_spec 0 e).
    - replace e with 0 in * by lia. change (2 ^ (- 0)) with 1 in Hm.
      change (2 ^ 0) with 1. lia.
    - rewrite Z.quot_opp_l, Hm, Z.quot_mul by lia. lia. }
  rewrite Hval.
  replace ((Go.min_int <=? Zneg p) && (Zneg p <=? Go.max_int)) with true; [reflexivity|].
  symmetry. apply andb_true_intro. unfold Go.min_int, Go.max_int.
  split; apply Z.leb_le; lia.
Qed.

(** The page count of a negative page size is not positive. *)
Lemma ceil_of_negative_quotient (unrepresentable : t -> Go.int) (N S : Z) :
  0 <= N < 2 ^ 53 -> - 2 ^ 63 <= S < 0 ->
  to_int unrepresentable (Ceil (div (of_int N) (of_int S))) <= 0.
Proof.
  intros HN HS. destruct S as [|q|q]; [lia|lia|].
  destruct (of_int_normal (Zpos q) ltac:(lia)) as (my & ey & Hy & Hmy & Hey).
  rewrite of_int_opp, Hy. cbn [SFopp negb].
  destruct (Z.eq_dec N 0) as [->|HN0].
  { change (of_int 0) with (S754_zero false). cbn [div SFdiv xorb Ceil to_int]. lia. }
  destruct (of_int_small N ltac:(lia)) as (mx & ex & -> & Hex & Hmx & Hmxr).
  rewrite div_opp.
  destruct (div_spec mx my ex ey Hmxr Hmy Hex Hey) as
    (n & m & m1 & m2 & e2 & -> & Hn & Hm & _ & _ & _ & _ & Hm2 & Hcase).
  cbn [SFopp negb].
  assert (He2 : e2 <= 1) by (destruct Hcase as [[_ ->]|(_ & _ & ->)]; lia).
  unfold Ceil. destruct (Z.leb_spec 0 e2) as [Hpos|Hneg].
  - unfold to_int, signed, cond_Zopp.
    replace (0 <=? e2) with true by (symmetry; apply Z.leb_le; lia).
    assert (Hpow : 1 <= 2 ^ e2 <= 2).
    { assert (e2 = 0 \/ e2 = 1) as [-> | ->] by lia; simpl (2 ^ _); lia. }
    replace ((Go.min_int <=? - Zpos m2 * 2 ^ e2) && (- Zpos m2 * 2 ^ e2 <=? Go.max_int))
      with true; [nia|].
    symmetry. apply andb_true_intro. unfold Go.min_int, Go.max_int.
    split; apply Z.leb_le; nia.
  - assert (HE : 1 < 2 ^ (- e2)) by (apply Z.pow_gt_1; lia).
    unfold signed, cond_Zopp, cdiv. rewrite Z.opp_involutive.
    assert (Hq : 0 <= Zpos m2 / 2 ^ (- e2) < 2 ^ 53).
    { split; [apply Z.div_pos; lia|].
      apply Z.div_lt_upper_bound; nia. }
    destruct (Zpos m2 / 2 ^ (- e2)) as [|c|c]; [|  |lia].
    + cbn [Z.opp binary_normalize to_int]. lia.
    + change (binary_normalize prec emax (- Zpos c) 0 true) with (of_int (Zneg c)).
      rewrite to_int_of_int_neg by lia. lia.
Qed.

End float_sign.

Lemma listReady_steps {env : Env} (rd : Renderer) :
  spec.listReady rd = true ->
  validateConfig rd = None
  /\ fileExists (fp.Join [themeDir rd; "list.html"]) = true
  /\ exists base, getBaseTemplates rd = Go.Ok base.
Proof.
  unfold spec.listReady. intros Hready.
  destruct (validateConfig rd); [discriminate|].
  destruct (fileExists _); [|discriminate].
  destruct (getBaseTemplates rd) as [base|]; [|discriminate].
  split; [reflexivity|]. split; [reflexivity|]. exists base. reflexivity.
Qed.

(** The page is absent when the page count is not positive. *)
Lemma RenderList_no_page {env : Env} (rd : Renderer) (listType : ListType)
      (groupName : string) (pageNumber : Go.int) (dst : Go.Writer) :
  spec.listReady rd = true ->
  getMaxPagination rd (fst (filterPosts rd listType groupName)) <= 0 ->
  RenderList rd listType groupName pageNumber dst = Go.Done (dst, (-1, None)).
Proof.
  intros Hready Hmax.
  destruct (listReady_steps rd Hready) as (Hcfg & Htpl & base & Hbase).
  unfold RenderList. rewrite Hcfg, Htpl, Hbase. cbn [negb].
  destruct (filterPosts rd listType groupName) as [posts g]. cbn [fst] in Hmax.
  rewrite clamp_max.
  destruct (Z.gtb_spec (Z.max 1 pageNumber) (getMaxPagination rd posts)) as [_|Hle];
    [reflexivity | lia].
Qed.

(** X11: with a negative page size no list is ever rendered.  Once the
    configuration is valid, the list template exists and the theme
    directory is listed, [RenderList] reports the page as absent and
    writes nothing, for every list type, group name and page number; it
    does not panic, as the front page does. *)
Theorem negative_page_size_no_list {env : Env} (rd : Renderer) (listType : ListType)
        (groupName : string) (pageNumber : Go.int) (dst : Go.Writer) :
  spec.listReady rd = true ->
  Go.len (Renderer_Posts rd) < 2 ^ 53 ->
  Go.min_int <= model.Pagination (Config rd) < 0 ->
  RenderList rd listType groupName pageNumber dst = Go.Done (dst, (-1, None)).
Proof.
  intros Hready HN HS. apply RenderList_no_page; [exact Hready|].
  pose proof (filterPosts_len rd listType groupName) as Hlen.
  pose proof (len_nonneg (fst (filterPosts rd listType groupName))) as Hpos.
  unfold getMaxPagination.
  apply float_sign.ceil_of_negative_quotient; unfold Go.min_int in HS; lia.
Qed.

Lemma negative_page_size_no_list_witness :
  spec.listReady (env := Demo.env Demo.full) (Demo.site (-2) false [Demo.A; Demo.B; Demo.C])
  = true
  /\ Go.len (Renderer_Posts (Demo.site (-2) false [Demo.A; Demo.B; Demo.C])) < 2 ^ 53
  /\ Go.min_int <= model.Pagination (Config (Demo.site (-2) false [Demo.A; Demo.B; Demo.C])) < 0
  /\ RenderList (env := Demo.env Demo.full) (Demo.site (-2) false [Demo.A; Demo.B; Demo.C])
       DEFAULT "" 1 "kept"
     = Go.Done ("kept", (-1, None)).
Proof.
  assert (Hready : spec.listReady (env := Demo.env Demo.full)
                     (Demo.site (-2) false [Demo.A; Demo.B; Demo.C]) = true)
    by (vm_compute; reflexivity).
  assert (HN : Go.len (Renderer_Posts (Demo.site (-2) false [Demo.A; Demo.B; Demo.C])) < 2 ^ 53)
    by (vm_compute; reflexivity).
  assert (HS : Go.min_int
               <= model.Pagination (Config (Demo.site (-2) false [Demo.A; Demo.B; Demo.C])) < 0)
    by (split; vm_compute; [discriminate | reflexivity]).
  split; [exact Hready|]. split; [exact HN|]. split; [exact HS|].
  exact (negative_page_size_no_list (env := Demo.env Demo.full)
           (Demo.site (-2) false [Demo.A; Demo.B; Demo.C]) DEFAULT "" 1 "kept" Hready HN HS).
Defined.

(** X12: a list without posts has no page.  With a positive page size,
    when no post is in the list (no post of the category, none with the
    tag, or no post at all), [RenderList] reports every page as absent,
    the first one too, and writes nothing: an empty list is never
    rendered. *)
Theorem empty_list_is_absent {env : Env} (rd : Renderer) (listType : ListType)
        (groupName : string) (pageNumber : Go.int) (dst : Go.Writer) :
  spec.listReady rd = true ->
  0 < model.Pagination (Config rd) <= Go.max_int ->
  fst (filterPosts rd listType groupName) = [] ->
  RenderList rd listType groupName pageNumber dst = Go.Done (dst, (-1, None)).
Proof.
  intros Hready HS Hempty. apply RenderList_no_page; [exact Hready|].
  rewrite Hempty, getMaxPagination_pages; [|reflexivity | exact HS].
  pose proof (float_ceil.cdiv_bounds (Go.len (@nil model.Post))
                (model.Pagination (Config rd)) ltac:(lia)) as Hc.
  change (Go.len (@nil model.Post)) with 0 in *. nia.
Qed.

Lemma empty_list_is_absent_witness :
  spec.listReady (env := Demo.env Demo.full) Demo.blog = true
  /\ 0 < model.Pagination (Config Demo.blog) <= Go.max_int
  /\ fst (filterPosts Demo.blog TAG "nobody") = []
  /\ RenderList (env := Demo.env Demo.full) Demo.blog TAG "nobody" 1 "kept"
     = Go.Done ("kept", (-1, None)).
Proof.
  assert (Hready : spec.listReady (env := Demo.env Demo.full) Demo.blog = true)
    by (vm_compute; reflexivity).
  assert (HS : 0 < model.Pagination (Config Demo.blog) <= Go.max_int)
    by (split; vm_compute; [reflexivity | discriminate]).
  assert (Hempty : fst (filterPosts Demo.blog TAG "nobody") = []) by (vm_compute; reflexivity).
  split; [exact Hready|]. split; [exact HS|]. split; [exact Hempty|].
  exact (empty_list_is_absent (env := Demo.env Demo.full) Demo.blog TAG "nobody" 1 "kept"
           Hready HS Hempty).
Defined.

(** X13: the page size 0.  The division is by zero: the page count is
    what the conversion to [int] makes of a NaN when there is no post, of
    the positive infinity when there are posts, a value that Go leaves to
    the implementation.  Whatever it is, the window of every page is
    empty and slicing does not panic. *)
Theorem page_size_zero {env : Env} (rd : Renderer) (posts : list model.Post) :
  model.Pagination (Config rd) = 0 ->
  Go.len posts <= Go.max_int ->
  getMaxPagination rd posts
  = int_of_unrepresentable (if Go.len posts =? 0 then S754_nan else S754_infinity false)
  /\ forall pageNumber, getListPosts rd posts pageNumber = Go.Done [].
Proof.
  intros HS HN. pose proof (len_nonneg posts) as HN0. split.
  - unfold getMaxPagination. rewrite HS.
    change (float64.of_int 0) with (S754_zero false).
    destruct (Z.eqb_spec (Go.len posts) 0) as [->|Hne].
    + reflexivity.
    + destruct (float_sign.of_int_normal (Go.len posts)) as (m & e & -> & _);
        [unfold Go.max_int in HN; lia | reflexivity].
  - intros pageNumber. unfold getListPosts, Go.mul, Go.add. rewrite HS.
    rewrite Z.mul_0_r. change (Go.wrap 0) with 0. cbn [Z.add].
    change (Go.wrap 0) with 0.
    replace (0 >? Go.len posts) with false
      by (symmetry; rewrite Z.gtb_ltb; apply Z.ltb_ge; lia).
    unfold Go.slice.
    replace ((0 <=? 0) && (0 <=? 0) && (0 <=? Go.len posts)) with true
      by (symmetry; rewrite !andb_true_iff, !Z.leb_le; lia).
    reflexivity.
Qed.

Lemma page_size_zero_witness :
  model.Pagination (Config (Demo.site 0 false [Demo.A; Demo.B; Demo.C])) = 0
  /\ Go.len [Demo.A; Demo.B; Demo.C] <= Go.max_int
  /\ getMaxPagination (env := Demo.env Demo.full) (Demo.site 0 false [Demo.A; Demo.B; Demo.C])
       [Demo.A; Demo.B; Demo.C]
     = Go.min_int
  /\ getListPosts (Demo.site 0 false [Demo.A; Demo.B; Demo.C]) [Demo.A; Demo.B; Demo.C] 2
     = Go.Done [].
Proof.
  assert (HN : Go.len [Demo.A; Demo.B; Demo.C] <= Go.max_int) by (vm_compute; discriminate).
  destruct (page_size_zero (env := Demo.env Demo.full)
              (Demo.site 0 false [Demo.A; Demo.B; Demo.C]) [Demo.A; Demo.B; Demo.C]
              eq_refl HN) as [Hmax Hwin].
  split; [reflexivity|]. split; [exact HN|]. split; [exact Hmax | apply Hwin].
Defined.

(** ** The base templates *)

Module string_facts.

Lemma substring_split (s : string) :
  forall k m : nat,
    (k + m = String.length s)%nat ->
    s = (substring 0 k s ++ substring k m s)%string.
Proof.
  induction s as [|c s IH]; intros k m Hlen; cbn [String.length] in Hlen.
  - assert (k = 0%nat) by lia. assert (m = 0%nat) by lia. subst. reflexivity.
  - destruct k as [|k].
    + cbn [substring String.append]. destruct m as [|m]; [lia|].
      cbn [substring]. f_equal. rewrite (IH 0%nat m) at 1 by lia.
      destruct s; reflexivity.
    + cbn [substring String.append]. f_equal. apply IH. lia.
Qed.

Lemma substring_all (s : string) : substring 0 (String.length s) s = s.
Proof. induction s as [|c s IH]; cbn [String.length substring]; [|rewrite IH]; reflexivity. Qed.

Lemma substring_left (a b : string) :
  substring 0 (String.length a) (a ++ b) = a.
Proof.
  induction a as [|c a IH]; cbn [String.length String.append substring].
  - destruct b; reflexivity.
  - rewrite IH. reflexivity.
Qed.

Lemma substring_right (a b : string) :
  substring (String.length a) (String.length b) (a ++ b) = b.
Proof.
  induction a as [|c a IH]; cbn [String.length String.append substring].
  - apply substring_all.
  - exact IH.
Qed.

Lemma length_app (a b : string) :
  String.length (a ++ b) = (String.length a + String.length b)%nat.
Proof. induction a as [|c a IH]; cbn [String.length String.append]; [|rewrite IH]; reflexivity. Qed.

Lemma HasPrefix_iff (s prefix : string) :
  strings.HasPrefix s prefix = true <-> exists rest, s = (prefix ++ rest)%string.
Proof.
  unfold strings.HasPrefix. rewrite andb_true_iff, Nat.leb_le, String.eqb_eq. split.
  - intros [Hlen Hsub].
    exists (substring (String.length prefix) (String.length s - String.length prefix) s).
    rewrite <- Hsub at 1. apply substring_split. lia.
  - intros [rest ->]. rewrite length_app. split; [lia | apply substring_left].
Qed.

Lemma HasSuffix_iff (s suffix : string) :
  strings.HasSuffix s suffix = true <-> exists stem, s = (stem ++ suffix)%string.
Proof.
  unfold strings.HasSuffix. rewrite andb_true_iff, Nat.leb_le, String.eqb_eq. split.
  - intros [Hlen Hsub].
    exists (substring 0 (String.length s - String.length suffix) s).
    rewrite <- Hsub at 2. apply substring_split. lia.
  - intros [stem ->]. rewrite length_app. split; [lia|].
    replace (String.length stem + String.length suffix - String.length suffix)%nat
      with (String.length stem) by lia.
    apply substring_right.
Qed.

End string_facts.

Lemma getBaseTemplates_fold (dir : string) (items : list FileInfo) :
  forall templates,
    fold_left
      (fun templates item =>
         if FileInfo_IsDir item then templates
         else if strings.HasSuffix (FileInfo_Name item) ".html"
                 && strings.HasPrefix (FileInfo_Name item) "_"
         then templates ++ [fp.Join [dir; FileInfo_Name item]]
         else templates)
      items templates
    = templates
      ++ map (fun item => fp.Join [dir; FileInfo_Name item])
             (filter (fun item =>
                        negb (FileInfo_IsDir item)
                        && (strings.HasSuffix (FileInfo_Name item) ".html"
                            && strings.HasPrefix (FileInfo_Name item) "_"))
                     items).
Proof.
  induction items as [|item items IH]; intros templates; cbn [fold_left filter map].
  - rewrite app_nil_r. reflexivity.
  - rewrite IH. destruct (FileInfo_IsDir item); cbn [negb andb]; [reflexivity|].
    destruct (strings.HasSuffix _ _ && strings.HasPrefix _ _); [|reflexivity].
    cbn [map]. rewrite <- app_assoc. reflexivity.
Qed.

(** X14: the base templates of a theme are the files of the theme
    directory named [_<stem>.html], directories left out: when the
    directory is listed, [getBaseTemplates] returns, in the order of the
    listing, the path in the theme directory of each entry that is not a
    directory and whose name starts with an underscore and ends with
    [.html], and of no other. *)
Theorem base_templates {env : Env} (rd : Renderer) (items : list FileInfo) :
  ReadDir (themeDir rd) = Go.Ok items ->
  exists kept : list FileInfo,
    getBaseTemplates rd
    = Go.Ok (map (fun item => fp.Join [themeDir rd; FileInfo_Name item]) kept)
    /\ (exists keep, kept = filter keep items)
    /\ forall item,
        In item kept
        <-> In item items
            /\ FileInfo_IsDir item = false
            /\ exists stem, FileInfo_Name item = ("_" ++ stem ++ ".html")%string.
Proof.
  intros Hdir.
  set (keep := fun item =>
                 negb (FileInfo_IsDir item)
                 && (strings.HasSuffix (FileInfo_Name item) ".html"
                     && strings.HasPrefix (FileInfo_Name item) "_")).
  exists (filter keep items). split; [|split].
  - unfold getBaseTemplates. rewrite Hdir, getBaseTemplates_fold. reflexivity.
  - exists keep. reflexivity.
  - intros item. rewrite filter_In. unfold keep.
    rewrite !andb_true_iff, negb_true_iff,
      string_facts.HasSuffix_iff, string_facts.HasPrefix_iff.
    split.
    + intros (Hin & Hfile & [stem Hstem] & [rest Hrest]).
      split; [exact Hin|]. split; [exact Hfile|].
      rewrite Hstem in Hrest. destruct stem as [|c stem].
      * discriminate Hrest.
      * cbn [String.append] in Hrest. injection Hrest as -> _.
        exists stem. rewrite Hstem. reflexivity.
    + intros (Hin & Hfile & [stem Hstem]).
      split; [exact Hin|]. split; [exact Hfile|]. split.
      * exists ("_" ++ stem)%string. rewrite Hstem. reflexivity.
      * exists (stem ++ ".html")%string. exact Hstem.
Qed.

Lemma base_templates_witness :
  ReadDir (Env := Demo.env ["post.html"; "_a.html"; "_b.htm"; "_c.html"]) (themeDir Demo.blog)
  = Go.Ok (map Demo.file ["post.html"; "_a.html"; "_b.htm"; "_c.html"])
  /\ getBaseTemplates (env := Demo.env ["post.html"; "_a.html"; "_b.htm"; "_c.html"]) Demo.blog
     = Go.Ok ["theme/t/_a.html"; "theme/t/_c.html"]
  /\ exists kept : list FileInfo,
      getBaseTemplates (env := Demo.env ["post.html"; "_a.html"; "_b.htm"; "_c.html"]) Demo.blog
      = Go.Ok (map (fun item => fp.Join [themeDir Demo.blog; FileInfo_Name item]) kept)
      /\ (exists keep,
            kept = filter keep (map Demo.file ["post.html"; "_a.html"; "_b.htm"; "_c.html"]))
      /\ forall item,
          In item kept
          <-> In item (map Demo.file ["post.html"; "_a.html"; "_b.htm"; "_c.html"])
              /\ FileInfo_IsDir item = false
              /\ exists stem, FileInfo_Name item = ("_" ++ stem ++ ".html")%string.
Proof.
  split; [reflexivity|]. split; [vm_compute; reflexivity|].
  exact (base_templates (env := Demo.env ["post.html"; "_a.html"; "_b.htm"; "_c.html"])
           Demo.blog (map Demo.file ["post.html"; "_a.html"; "_b.htm"; "_c.html"]) eq_refl).
Defined.

(** ** The paths handed to the templates *)

Module clean_rooted.
Import path path_facts path_plain spec urls.

Local Abbreviation noslash := (forallb (fun c => negb (is_slash c))).

Lemma rev_case {A : Type} (l : list A) : l = [] \/ exists l' a, l = l' ++ [a].
Proof.
  induction l as [|a l' _] using rev_ind; [left; reflexivity|].
  right. exists l', a. reflexivity.
Qed.

Lemma joined_snoc (names : list (list ascii)) (e : list ascii) :
  joined (names ++ [e])
  = match names with
    | [] => e
    | _ => joined names ++ slash :: e
    end.
Proof.
  induction names as [|a names IH]; [reflexivity|].
  destruct names as [|b names]; [reflexivity|].
  change (joined ((a :: b :: names) ++ [e]))
    with (a ++ slash :: joined ((b :: names) ++ [e])).
  rewrite IH.
  change (joined (a :: b :: names)) with (a ++ slash :: joined (b :: names)).
  rewrite <- app_assoc. reflexivity.
Qed.

Lemma joined_length (names : list (list ascii)) :
  Forall plain names -> names <> [] -> (1 <= List.length (joined names))%nat.
Proof.
  intros Hall Hne. destruct names as [|a names]; [congruence|].
  apply Forall_inv in Hall. destruct Hall as (Ha & _).
  destruct a as [|c a]; [congruence|].
  destruct names; cbn [joined app List.length]; lia.
Qed.

Lemma nth_noslash (e : list ascii) :
  forall k, noslash e = true -> (k < List.length e)%nat ->
            is_slash (nth k e slash) = false.
Proof.
  induction e as [|c e IH]; intros k He Hk; cbn [List.length] in Hk; [lia|].
  cbn [forallb] in He. apply andb_prop in He. destruct He as [Hc He].
  destruct k as [|k]; cbn [nth].
  - apply negb_true_iff. exact Hc.
  - apply IH; [exact He | lia].
Qed.

(** Going back over the bytes of an element: the scan stops at the slash
    before the element, or at [dotdot]. *)
Lemma backtrack_element (base e : list ascii) (dotdot : nat) :
  noslash e = true -> (dotdot <= List.length base)%nat ->
  forall k, (k < List.length e)%nat ->
    backtrack (base ++ e) dotdot (List.length base + k)
    = if (dotdot <? List.length base)%nat
      then backtrack (base ++ e) dotdot (List.length base - 1)
      else List.length base.
Proof.
  intros He Hd. induction k as [|k IH]; intros Hk.
  - rewrite Nat.add_0_r. destruct (List.length base) as [|L] eqn:HL.
    + replace (dotdot <? 0)%nat with false by (symmetry; apply Nat.ltb_ge; lia).
      reflexivity.
    + cbn [backtrack]. rewrite app_nth2 by lia.
      replace (S L - List.length base)%nat with 0%nat by lia.
      rewrite (nth_noslash e 0 He Hk). cbn [negb]. rewrite andb_true_r.
      replace (S L - 1)%nat with L by lia. reflexivity.
  - replace (List.length base + S k)%nat with (S (List.length base + k)) by lia.
    cbn [backtrack]. rewrite app_nth2 by lia.
    replace (S (List.length base + k) - List.length base)%nat with (S k) by lia.
    rewrite (nth_noslash e (S k) He Hk). cbn [negb]. rewrite andb_true_r.
    replace (dotdot <? S (List.length base + k))%nat with true
      by (symmetry; apply Nat.ltb_lt; lia).
    apply IH. lia.
Qed.

(** A [..] element takes the last name away. *)
Lemma backtrack_last (names : list (list ascii)) (e : list ascii) :
  Forall plain names -> plain e ->
  let out := slash :: joined (names ++ [e]) in
  firstn (backtrack out 1 (List.length out - 1)) out = slash :: joined names.
Proof.
  intros Hall (He0 & _ & _ & He). cbv zeta. rewrite joined_snoc.
  assert (Hlen : (1 <= List.length e)%nat) by (destruct e; [congruence | cbn; lia]).
  destruct names as [|a names].
  - change (slash :: e) with ([slash] ++ e).
    replace (List.length ([slash] ++ e) - 1)%nat
      with (List.length [slash] + (List.length e - 1))%nat
      by (rewrite length_app; cbn [List.length]; lia).
    rewrite (backtrack_element [slash] e 1 He) by (cbn [List.length]; lia).
    reflexivity.
  - set (ns := a :: names) in *.
    pose proof (joined_length ns Hall ltac:(discriminate)) as Hns.
    set (base := slash :: joined ns ++ [slash]).
    assert (Hbase : List.length base = S (S (List.length (joined ns))))
      by (unfold base; cbn [List.length]; rewrite length_app; cbn [List.length]; lia).
    replace (slash :: joined ns ++ slash :: e) with (base ++ e)
      by (unfold base; cbn [app]; rewrite <- app_assoc; reflexivity).
    replace (List.length (base ++ e) - 1)%nat
      with (List.length base + (List.length e - 1))%nat by (rewrite length_app; lia).
    rewrite (backtrack_element base e 1 He) by lia.
    replace (1 <? List.length base)%nat with true by (symmetry; apply Nat.ltb_lt; lia).
    rewrite Hbase. replace (S (S (List.length (joined ns))) - 1)%nat
      with (S (List.length (joined ns))) by lia.
    cbn [backtrack].
    replace (1 <? S (List.length (joined ns)))%nat with true
      by (symmetry; apply Nat.ltb_lt; lia).
    assert (Hnth : nth (S (List.length (joined ns))) (base ++ e) slash = slash).
    { unfold base. cbn [app nth]. rewrite <- app_assoc.
      rewrite app_nth2 by lia. rewrite Nat.sub_diag. reflexivity. }
    rewrite Hnth. change (is_slash slash) with true. cbn [negb andb].
    unfold base. cbn [app firstn]. f_equal. rewrite <- app_assoc.
    rewrite firstn_app, Nat.sub_diag, firstn_all. cbn [firstn]. apply app_nil_r.
Qed.

Lemma element_noslash (rest : list ascii) :
  forall e rest', element rest = (e, rest') -> noslash e = true.
Proof.
  induction rest as [|c rest IH]; intros e rest' H; cbn [element] in H.
  - injection H as <- _. reflexivity.
  - destruct (is_slash c) eqn:Hc; [injection H as <- _; reflexivity|].
    destruct (element rest) as [e1 r1]. injection H as <- _.
    cbn [forallb]. rewrite Hc, (IH e1 r1 eq_refl). reflexivity.
Qed.

Lemma element_nil (rest rest' : list ascii) :
  element rest = ([], rest') -> at_end_or_slash rest = true.
Proof.
  destruct rest as [|c rest]; [reflexivity|]. cbn [element at_end_or_slash].
  destruct (is_slash c); [reflexivity|].
  destruct (element rest). discriminate.
Qed.

(** What the loop copies is a clean element. *)
Lemma element_real (c : ascii) (rest1 e rest' : list ascii) :
  is_slash c = false ->
  is_dot c && at_end_or_slash rest1 = false ->
  is_dot c && at_dot rest1 && at_end_or_slash (List.tl rest1) = false ->
  element (c :: rest1) = (e, rest') ->
  plain e.
Proof.
  intros Hc Hdot Hdd Hel.
  pose proof (element_noslash _ _ _ Hel) as Hno.
  cbn [element] in Hel. rewrite Hc in Hel.
  destruct (element rest1) as [e1 r1] eqn:He1. injection Hel as <- <-.
  split; [discriminate|]. split; [|split; [|exact Hno]].
  - intros Heq. injection Heq as -> ->.
    apply element_nil in He1. rewrite He1 in Hdot. discriminate.
  - intros Heq. injection Heq as -> ->.
    destruct rest1 as [|c1 r2]; [discriminate|].
    cbn [element] in He1. destruct (is_slash c1); [discriminate|].
    destruct (element r2) as [e2 r3] eqn:He2. injection He1 as -> -> <-.
    apply element_nil in He2. cbn [at_dot List.tl] in Hdd.
    rewrite He2 in Hdd. discriminate.
Qed.

(** The loop of [Clean] on a rooted path keeps the buffer a clean
    absolute path. *)
Lemma clean_loop_rooted (fuel : nat) :
  forall (rest : list ascii) (names : list (list ascii)),
    Forall plain names ->
    exists names',
      Forall plain names'
      /\ clean_loop fuel true rest (slash :: joined names) 1 = slash :: joined names'.
Proof.
  induction fuel as [|fuel IH]; intros rest names Hall.
  { exists names. split; [exact Hall | reflexivity]. }
  destruct rest as [|c rest1].
  { exists names. split; [exact Hall | reflexivity]. }
  cbn [clean_loop].
  destruct (is_slash c) eqn:Hc; [apply IH; exact Hall|].
  destruct (is_dot c && at_end_or_slash rest1) eqn:Hdot; [apply IH; exact Hall|].
  destruct (is_dot c && at_dot rest1 && at_end_or_slash (List.tl rest1)) eqn:Hdd.
  - destruct (rev_case names) as [->|(ns & e & ->)].
    + cbn [joined List.length Nat.ltb Nat.leb negb].
      exact (IH (List.tl rest1) [] Hall).
    + apply Forall_app in Hall. destruct Hall as [Hns He].
      apply Forall_inv in He.
      assert (Hlong : (1 <? List.length (slash :: joined (ns ++ [e])))%nat = true).
      { apply Nat.ltb_lt. cbn [List.length].
        pose proof (joined_length (ns ++ [e])
                      ltac:(apply Forall_app; split; [exact Hns | constructor; [exact He | constructor]])
                      ltac:(destruct ns; discriminate)).
        lia. }
      rewrite Hlong, (backtrack_last ns e Hns He). apply IH. exact Hns.
  - destruct (element (c :: rest1)) as [e rest'] eqn:Hel.
    pose proof (element_real c rest1 e rest' Hc Hdot Hdd Hel) as He.
    cbn [andb negb orb]. rewrite orb_false_r.
    assert (Hout : (if negb (List.length (slash :: joined names) =? 1)%nat
                    then (slash :: joined names) ++ [slash]
                    else slash :: joined names) ++ e
                   = slash :: joined (names ++ [e])).
    { rewrite joined_snoc. destruct names as [|a names]; [reflexivity|].
      pose proof (joined_length (a :: names) Hall ltac:(discriminate)) as Hlen.
      replace (List.length (slash :: joined (a :: names)) =? 1)%nat with false
        by (symmetry; apply Nat.eqb_neq; cbn [List.length]; lia).
      cbn [negb app]. rewrite <- app_assoc. reflexivity. }
    rewrite Hout. apply IH.
    apply Forall_app. split; [exact Hall | constructor; [exact He | constructor]].
Qed.

Lemma clean_bytes_rooted (p : list ascii) :
  exists names, Forall plain names /\ clean_bytes (slash :: p) = slash :: joined names.
Proof.
  unfold clean_bytes. change (is_slash slash) with true. cbv iota.
  destruct (clean_loop_rooted (List.length (slash :: p)) p [] (Forall_nil _))
    as (names & Hall & Hloop).
  change (slash :: joined []) with [slash] in Hloop. rewrite Hloop.
  exists names. split; [exact Hall | reflexivity].
Qed.

Lemma joined_string (names : list (list ascii)) :
  string_of_list_ascii (joined names)
  = strings.Join (map string_of_list_ascii names) "/".
Proof.
  induction names as [|a names IH]; [reflexivity|].
  destruct names as [|b names]; [reflexivity|].
  change (joined (a :: b :: names)) with (a ++ slash :: joined (b :: names)).
  rewrite string_of_list_ascii_app. cbn [string_of_list_ascii]. rewrite IH.
  reflexivity.
Qed.

Lemma plain_plainName (l : list ascii) :
  plain l -> plainName (string_of_list_ascii l) = true.
Proof.
  intros (Hnil & Hdot & Hdd & Hno). unfold plainName.
  rewrite list_ascii_of_string_of_list_ascii, Hno, andb_true_r.
  assert (Hne : forall s, l <> list_ascii_of_string s ->
                          negb (String.eqb (string_of_list_ascii l) s) = true).
  { intros s Hs. apply negb_true_iff, String.eqb_neq. intros Heq. apply Hs.
    rewrite <- Heq. symmetry. apply list_ascii_of_string_of_list_ascii. }
  rewrite (Hne "" Hnil), (Hne "." Hdot), (Hne ".." Hdd). reflexivity.
Qed.

(** [Clean] makes a clean absolute path of every path that starts with
    a slash. *)
Lemma Clean_rooted (p : string) : cleanAbsolute (Clean (String slash p)).
Proof.
  unfold Clean. cbn [list_ascii_of_string].
  destruct (clean_bytes_rooted (list_ascii_of_string p)) as (names & Hall & ->).
  exists (map string_of_list_ascii names). split.
  - apply Forall_map. apply (Forall_impl _ plain_plainName). exact Hall.
  - cbn [string_of_list_ascii]. rewrite joined_string. reflexivity.
Qed.

End clean_rooted.

(** X15: every path handed to a template is a clean absolute path: a
    slash followed by names that are neither empty, nor [.], nor [..],
    separated by one slash each.  This holds of the path of a list, for
    every list type and group name, and of the paths of the category and
    of the tags in the view model of a post, whatever the names of the
    category and of the tags are. *)
Theorem paths_are_clean_absolute (rd : Renderer) :
  (forall listType groupName pageNumber maxPagination window,
      urls.cleanAbsolute
        (List_Path (list_ rd listType groupName pageNumber maxPagination window)))
  /\ (forall post olderPost newerPost html,
        urls.cleanAbsolute
          (model.Path (Post_Category (postLayout rd post olderPost newerPost html)))
        /\ Forall (fun group => urls.cleanAbsolute (model.Path group))
                  (Post_Tags (postLayout rd post olderPost newerPost html))).
Proof.
  split.
  - intros listType groupName pageNumber maxPagination window.
    cbn [list_ List_Path].
    destruct (listPath_conventions groupName) as (_ & Hcat & Htag & _).
    destruct (Z.eq_dec listType CATEGORY) as [->|Hcategory];
      [rewrite Hcat; apply clean_rooted.Clean_rooted|].
    destruct (Z.eq_dec listType TAG) as [->|Htagged];
      [rewrite Htag; apply clean_rooted.Clean_rooted|].
    unfold listPath.
    apply Z.eqb_neq in Hcategory. apply Z.eqb_neq in Htagged.
    rewrite Hcategory, Htagged.
    exists ["posts"]. split; [|reflexivity].
    constructor; [vm_compute; reflexivity | constructor].
  - intros post olderPost newerPost html. cbn [postLayout Post_Category Post_Tags]. split.
    + unfold category. cbn [model.Name].
      destruct (String.eqb (model.Post_Category post) ""); cbn [model.Path];
        rewrite join_facts.fp_Join_root; apply clean_rooted.Clean_rooted.
    + destruct (tags_sorted post) as [_ Hperm].
      apply Forall_forall. intros group Hin.
      apply (Permutation_in _ Hperm), in_map_iff in Hin.
      destruct Hin as (t & <- & _). cbn [model.Path].
      apply clean_rooted.Clean_rooted.
Qed.

(** ** The view models of a page, a post and a list *)

(** X16: [RenderPage] on a page whose steps succeed.  The templates it
    parses are the base templates followed by the page template; the
    body is read from the path of the page, stripped of its metadata,
    run through the markdown engine and then through the highlighter;
    the template [page.html] is executed on a view model with the title
    and the excerpt of the page, without author, with the thumbnail of
    the page and the pages of the site.  When the templates do not
    parse, the error of the parser is returned and nothing is written. *)
Theorem page_view {env : Env} (rd : Renderer) (page : model.Page) (dst : Go.Writer)
        (base : list string) (content : string) :
  validateConfig rd = None ->
  fileExists (fp.Join [themeDir rd; "page.html"]) = true ->
  getBaseTemplates rd = Go.Ok base ->
  readIndexFile (model.Page_Path page) = Go.Ok content ->
  let view :=
    {| Page_Layout :=
         {| WebsiteTitle := model.Title (Config rd);
            WebsiteOwner := model.Owner (Config rd);
            ContentTitle := model.Page_Title page;
            ContentDesc := model.Page_Excerpt page;
            ContentAuthor := "";
            Pages := Renderer_Pages rd |};
       Page_Thumbnail := model.Page_Thumbnail page;
       Page_HTML := highlightCode (bf_Run (removeMetadata content)) |} in
  match ParseFiles (base ++ [fp.Join [themeDir rd; "page.html"]]) with
  | Go.Ok tpl =>
      RenderPage rd page dst = executeTemplate rd tpl dst "page.html" (PageData view)
  | Go.Failed err => RenderPage rd page dst = (dst, Some err)
  end.
Proof.
  intros Hcfg Htpl Hbase Hread view. unfold RenderPage.
  rewrite Hcfg, Htpl, Hbase, Hread. cbn [negb].
  destruct (ParseFiles _); reflexivity.
Qed.

Lemma page_view_witness :
  RenderPage (env := Demo.env ["_header.html"; "page.html"]) Demo.blog Broken.about "<!-- -->"
  = ("<!-- -->about/index.md", None)
  /\ RenderPage (env := Broken.unparsable ["_header.html"; "page.html"]) Demo.blog Broken.about
       "kept"
     = ("kept", Some Broken.malformed).
Proof.
  split.
  - exact (page_view (env := Demo.env ["_header.html"; "page.html"]) Demo.blog Broken.about
             "<!-- -->" ["theme/t/_header.html"] "about/index.md"
             eq_refl eq_refl eq_refl eq_refl).
  - exact (page_view (env := Broken.unparsable ["_header.html"; "page.html"]) Demo.blog
             Broken.about "kept" ["theme/t/_header.html"] "about/index.md"
             eq_refl eq_refl eq_refl eq_refl).
Defined.

(** X17: [RenderPost] on a post whose steps succeed executes the
    template [post.html], parsed after the base templates, on a view
    model whose author is the author of the post, or the owner of the
    site when the post names no author; whose older and newer posts are
    the ones given; and whose body is the body read from the path of the
    post, stripped of its metadata, run through the markdown engine and
    then through the highlighter. *)
Theorem post_view {env : Env} (rd : Renderer) (post olderPost newerPost : model.Post)
        (dst : Go.Writer) (base : list string) (content : string) (tpl : Template) :
  validateConfig rd = None ->
  fileExists (fp.Join [themeDir rd; "post.html"]) = true ->
  getBaseTemplates rd = Go.Ok base ->
  readIndexFile (model.Post_Path post) = Go.Ok content ->
  ParseFiles (base ++ [fp.Join [themeDir rd; "post.html"]]) = Go.Ok tpl ->
  exists view : Post,
    RenderPost rd post olderPost newerPost dst
    = executeTemplate rd tpl dst "post.html" (PostData view)
    /\ (model.Post_Author post <> "" ->
        ContentAuthor (Post_Layout view) = model.Post_Author post)
    /\ (model.Post_Author post = "" ->
        ContentAuthor (Post_Layout view) = model.Owner (Config rd))
    /\ ContentTitle (Post_Layout view) = model.Post_Title post
    /\ ContentDesc (Post_Layout view) = model.Post_Excerpt post
    /\ Post_Older view = olderPost
    /\ Post_Newer view = newerPost
    /\ Post_HTML view = highlightCode (bf_Run (removeMetadata content)).
Proof.
  intros Hcfg Htpl Hbase Hread Hparse.
  exists (postLayout rd post olderPost newerPost
            (highlightCode (bf_Run (removeMetadata content)))).
  split; [exact (RenderPost_view rd post olderPost newerPost dst base content tpl
                   Hcfg Htpl Hbase Hread Hparse)|].
  cbn [postLayout Post_Layout ContentAuthor ContentTitle ContentDesc
       Post_Older Post_Newer Post_HTML].
  split; [intros Hauthor; apply String.eqb_neq in Hauthor; rewrite Hauthor; reflexivity|].
  split; [intros ->; reflexivity|].
  repeat split.
Qed.

Lemma post_view_witness :
  exists view : Post,
    RenderPost (env := Demo.env Demo.full) Demo.blog Demo.A Demo.B Demo.C ""
    = executeTemplate (env := Demo.env Demo.full) Demo.blog
        ["theme/t/_header.html"; "theme/t/post.html"] "" "post.html" (PostData view)
    /\ ContentAuthor (Post_Layout view) = "Owner"
    /\ Post_Older view = Demo.B
    /\ Post_Newer view = Demo.C.
Proof.
  destruct (post_view (env := Demo.env Demo.full) Demo.blog Demo.A Demo.B Demo.C ""
              ["theme/t/_header.html"] "A" ["theme/t/_header.html"; "theme/t/post.html"]
              eq_refl eq_refl eq_refl eq_refl eq_refl)
    as (view & Hrun & _ & Hauthor & _ & _ & Holder & Hnewer & _).
  exists view. split; [exact Hrun|]. split; [exact (Hauthor eq_refl)|].
  split; [exact Holder | exact Hnewer].
Defined.

(** X18: the view model of a list that has been rendered.  Its current
    page is the page number asked for, or 1 when that is below 1, and it
    lies between 1 and the max page; its title is the group name (empty
    for the group [uncategorized] of a category list); it has no author,
    and, unlike the front page, no categories and no tags of the site. *)
Theorem list_view {env : Env} (rd : Renderer) (listType : ListType)
        (groupName : string) (pageNumber : Go.int) (dst dst' : Go.Writer) (n : Go.int) :
  RenderList rd listType groupName pageNumber dst = Go.Done (dst', (n, None)) ->
  n <> -1 ->
  exists (tpl : Template) (l : List),
    executeTemplate rd tpl dst "list.html" (ListData l) = (dst', None)
    /\ List_Type l = listType
    /\ List_CurrentPage l = Z.max 1 pageNumber
    /\ List_MaxPage l = getMaxPagination rd (fst (filterPosts rd listType groupName))
    /\ 1 <= List_CurrentPage l <= List_MaxPage l
    /\ ContentTitle (List_Layout l) = snd (filterPosts rd listType groupName)
    /\ (listType = CATEGORY -> groupName = "uncategorized" ->
        ContentTitle (List_Layout l) = "")
    /\ (listType <> CATEGORY -> ContentTitle (List_Layout l) = groupName)
    /\ ContentAuthor (List_Layout l) = ""
    /\ List_Categories l = [] /\ List_Tags l = []
    /\ (forall window,
          List_Categories (frontPage rd window) = Renderer_Categories rd
          /\ List_Tags (frontPage rd window) = Renderer_Tags rd).
Proof.
  intros Hrun Hn.
  assert (Hrange : Z.max 1 pageNumber
                   <= getMaxPagination rd (fst (filterPosts rd listType groupName))).
  { unfold RenderList in Hrun.
    destruct (validateConfig rd); [congruence|].
    destruct (negb (fileExists _)); [congruence|].
    destruct (getBaseTemplates rd) as [base|]; [|congruence].
    destruct (filterPosts rd listType groupName) as [posts group]. cbn [fst].
    rewrite clamp_max in Hrun.
    destruct (Z.gtb_spec (Z.max 1 pageNumber) (getMaxPagination rd posts)) as [_|Hle];
      [congruence | exact Hle]. }
  destruct (RenderList_output rd listType groupName pageNumber dst dst' n Hrun Hn)
    as (tpl & window & _ & Hexec & _).
  exists tpl. eexists. split; [exact Hexec|].
  cbn [list_ List_Type List_CurrentPage List_MaxPage List_Layout ContentTitle
       ContentAuthor List_Categories List_Tags frontPage].
  split; [reflexivity|]. split; [reflexivity|]. split; [reflexivity|].
  split; [lia|]. split; [reflexivity|].
  split; [intros -> ->; reflexivity|].
  split.
  { intros Hcat. unfold filterPosts. apply Z.eqb_neq in Hcat. rewrite Hcat.
    destruct (listType =? DEFAULT); reflexivity. }
  repeat split.
Qed.

Lemma list_view_witness :
  RenderList (env := Demo.env Demo.full) Demo.blog CATEGORY "uncategorized" 0 ""
  = Go.Done ("/category:A", (1, None))
  /\ 1 <> -1
  /\ exists (tpl : Template (Env := Demo.env Demo.full)) (l : List),
      executeTemplate (env := Demo.env Demo.full) Demo.blog tpl "" "list.html" (ListData l)
      = ("/category:A", None)
      /\ List_CurrentPage l = 1
      /\ ContentTitle (List_Layout l) = "".
Proof.
  assert (Hrun : RenderList (env := Demo.env Demo.full) Demo.blog CATEGORY "uncategorized" 0 ""
                 = Go.Done ("/category:A", (1, None))) by (vm_compute; reflexivity).
  assert (Hn : 1 <> -1) by lia.
  split; [exact Hrun|]. split; [exact Hn|].
  destruct (list_view (env := Demo.env Demo.full) Demo.blog CATEGORY "uncategorized" 0 ""
              "/category:A" 1 Hrun Hn)
    as (tpl & l & Hexec & _ & Hpage & _ & _ & _ & Htitle & _).
  exists tpl, l. split; [exact Hexec|]. split; [exact Hpage|].
  exact (Htitle eq_refl eq_refl).
Defined.

(** ** Slicing outside the pages *)

(** X19: [getListPosts] itself checks nothing; the range check of
    [RenderList] is what keeps it from panicking.  With a positive page
    size and a page number whose window bounds fit an [int], it panics
    for every page number below 1 and for every page that starts beyond
    the last post; a page that starts right after the last post has an
    empty window. *)
Theorem getListPosts_out_of_range (rd : Renderer) (posts : list model.Post)
        (pageNumber : Go.int) :
  let N := Go.len posts in
  let S := model.Pagination (Config rd) in
  0 < S ->
  Go.min_int <= (pageNumber - 1) * S ->
  (pageNumber - 1) * S + S <= Go.max_int ->
  (pageNumber < 1 -> getListPosts rd posts pageNumber = Go.Panic "slice bounds out of range")
  /\ (N < (pageNumber - 1) * S ->
      getListPosts rd posts pageNumber = Go.Panic "slice bounds out of range")
  /\ ((pageNumber - 1) * S = N -> getListPosts rd posts pageNumber = Go.Done []).
Proof.
  intros N size Hsize Hlow Hhigh.
  pose proof (len_nonneg posts) as HN. fold N in HN.
  assert (Hstart : Go.mul (Go.sub pageNumber 1) size = (pageNumber - 1) * size).
  { unfold Go.mul, Go.sub. unfold Go.min_int, Go.max_int in *.
    rewrite (wrap_id (pageNumber - 1)) by (unfold Go.min_int, Go.max_int; nia).
    apply wrap_id. unfold Go.min_int, Go.max_int. lia. }
  assert (Hend : Go.add ((pageNumber - 1) * size) size = (pageNumber - 1) * size + size).
  { unfold Go.add. apply wrap_id. unfold Go.min_int, Go.max_int in *. lia. }
  unfold getListPosts. fold N size. rewrite Hstart, Hend.
  set (start := (pageNumber - 1) * size) in *.
  split; [|split].
  - intros Hpage. assert (start < 0) by (unfold start; nia).
    unfold Go.slice. replace (0 <=? start) with false by (symmetry; apply Z.leb_gt; lia).
    reflexivity.
  - intros Hbeyond.
    replace (start + size >? N) with true by (symmetry; apply Z.gtb_lt; lia).
    unfold Go.slice. fold N.
    replace (start <=? N) with false by (symmetry; apply Z.leb_gt; lia).
    rewrite andb_false_r. reflexivity.
  - intros Hat.
    replace (start + size >? N) with true by (symmetry; apply Z.gtb_lt; lia).
    unfold Go.slice. fold N. rewrite Hat.
    replace ((0 <=? N) && (N <=? N) && (N <=? N)) with true
      by (symmetry; rewrite !andb_true_iff, !Z.leb_le; lia).
    rewrite Z.sub_diag. reflexivity.
Qed.

Lemma getListPosts_out_of_range_witness :
  0 < model.Pagination (Config Demo.blog)
  /\ getListPosts Demo.blog (Renderer_Posts Demo.blog) 0 = Go.Panic "slice bounds out of range"
  /\ getListPosts Demo.blog (Renderer_Posts Demo.blog) 3 = Go.Panic "slice bounds out of range"
  /\ getListPosts Demo.blog [Demo.A; Demo.B] 2 = Go.Done [].
Proof.
  assert (HS : 0 < model.Pagination (Config Demo.blog)) by (vm_compute; reflexivity).
  assert (Hlow : forall p, -1 <= p -> Go.min_int <= p * model.Pagination (Config Demo.blog))
    by (intros p Hp; change (model.Pagination (Config Demo.blog)) with 2;
        unfold Go.min_int; lia).
  assert (Hhigh : forall p, p <= 2 ->
             p * model.Pagination (Config Demo.blog) + model.Pagination (Config Demo.blog)
             <= Go.max_int)
    by (intros p Hp; change (model.Pagination (Config Demo.blog)) with 2;
        unfold Go.max_int; lia).
  split; [exact HS|]. split; [|split].
  - destruct (getListPosts_out_of_range Demo.blog (Renderer_Posts Demo.blog) 0 HS
                (Hlow (0 - 1) ltac:(lia)) (Hhigh (0 - 1) ltac:(lia))) as (Hbelow & _ & _).
    apply Hbelow. lia.
  - destruct (getListPosts_out_of_range Demo.blog (Renderer_Posts Demo.blog) 3 HS
                (Hlow (3 - 1) ltac:(lia)) (Hhigh (3 - 1) ltac:(lia))) as (_ & Hbeyond & _).
    apply Hbeyond. vm_compute. reflexivity.
  - destruct (getListPosts_out_of_range Demo.blog [Demo.A; Demo.B] 2 HS
                (Hlow (2 - 1) ltac:(lia)) (Hhigh (2 - 1) ltac:(lia))) as (_ & _ & Hat).
    apply Hat. vm_compute. reflexivity.
Defined.

(** ** The front page of a site with posts *)

(** X20: the front page of a site, end to end.  With a valid
    configuration, a listed theme directory, a front page or list
    template that parses, a positive page size [S] and [N] posts,
    [RenderFrontPage] executes the template on a view model whose posts
    are the [S] first posts of the site, whose current page is 1, whose
    max page is the ceiling of [N / S], whose path is [/posts], whose
    title is the title of the site, whose author is its owner, and which
    carries the categories and the tags of the site; the result is that
    of the output pipeline. *)
Theorem front_page_view {env : Env} (rd : Renderer) (dst : Go.Writer)
        (base : list string) (tpl : Template) :
  let tplFrontPage := fp.Join [themeDir rd; "frontpage.html"] in
  let tplList := fp.Join [themeDir rd; "list.html"] in
  let active := if fileExists tplFrontPage then "frontpage.html" else "list.html" in
  let file := if fileExists tplFrontPage then tplFrontPage else tplList in
  let N := Go.len (Renderer_Posts rd) in
  let S := model.Pagination (Config rd) in
  validateConfig rd = None ->
  getBaseTemplates rd = Go.Ok base ->
  fileExists tplFrontPage || fileExists tplList = true ->
  ParseFiles (base ++ [file]) = Go.Ok tpl ->
  N < 2 ^ 53 -> 0 < S <= Go.max_int ->
  exists l : List,
    RenderFrontPage rd dst = Go.Done (executeTemplate rd tpl dst active (ListData l))
    /\ List_Posts l = firstn (Z.to_nat S) (Renderer_Posts rd)
    /\ List_CurrentPage l = 1
    /\ List_MaxPage l = (N + S - 1) / S
    /\ (0 < N -> List_CurrentPage l <= List_MaxPage l)
    /\ List_Type l = DEFAULT
    /\ List_Path l = "/posts"
    /\ ContentTitle (List_Layout l) = model.Title (Config rd)
    /\ ContentAuthor (List_Layout l) = model.Owner (Config rd)
    /\ List_Categories l = Renderer_Categories rd
    /\ List_Tags l = Renderer_Tags rd.
Proof.
  intros tplFrontPage tplList active file N size Hcfg Hbase Hexists Hparse HN HS.
  assert (Hwin : getListPosts rd (Renderer_Posts rd) 1
                 = Go.Done (firstn (Z.to_nat size) (Renderer_Posts rd))).
  { assert (Hmax : N <= 0 \/ 1 <= getMaxPagination rd (Renderer_Posts rd)).
    { destruct (Z_le_gt_dec N 0) as [Hle|Hgt]; [left; exact Hle | right].
      rewrite getMaxPagination_pages by assumption. fold N size.
      pose proof (float_ceil.cdiv_bounds N size ltac:(lia)) as Hc.
      set (c := float64.cdiv N size) in *. nia. }
    destruct Hmax as [Hnone|Hsome].
    - pose proof (len_nonneg (Renderer_Posts rd)) as H0. fold N in H0.
      assert (Hnil : Renderer_Posts rd = [])
        by (destruct (Renderer_Posts rd); [reflexivity | cbn in N; lia]).
      rewrite Hnil, firstn_nil, getListPosts_first by (unfold Go.min_int; lia).
      fold size. change (Go.len (@nil model.Post)) with 0.
      replace (size >? 0) with true by (symmetry; apply Z.gtb_lt; lia).
      reflexivity.
    - destruct (getListPosts_slice rd (Renderer_Posts rd) 1 HN HS (conj (Z.le_refl 1) Hsome))
        as [_ Hslice].
      rewrite Hslice. reflexivity. }
  exists (frontPage rd (firstn (Z.to_nat size) (Renderer_Posts rd))).
  split.
  - unfold RenderFrontPage. rewrite Hcfg, Hbase. fold tplFrontPage tplList.
    subst active file.
    destruct (fileExists tplFrontPage).
    + rewrite Hwin, Hparse. reflexivity.
    + cbn [orb] in Hexists. rewrite Hexists, Hwin, Hparse. reflexivity.
  - cbn [frontPage List_Posts List_CurrentPage List_MaxPage List_Type List_Path
         List_Layout ContentTitle ContentAuthor List_Categories List_Tags].
    rewrite getMaxPagination_pages, float_ceil.cdiv_eq by (assumption || lia).
    fold N size. split; [reflexivity|]. split; [reflexivity|]. split; [reflexivity|].
    split.
    { intros Hpos. rewrite <- float_ceil.cdiv_eq by lia.
      pose proof (float_ceil.cdiv_bounds N size ltac:(lia)) as Hc.
      set (c := float64.cdiv N size) in *. nia. }
    repeat split.
Qed.

Lemma front_page_view_witness :
  exists l : List,
    RenderFrontPage (env := Demo.env Demo.full) Demo.blog ""
    = Go.Done (executeTemplate (env := Demo.env Demo.full) Demo.blog
                 ["theme/t/_header.html"; "theme/t/frontpage.html"] "" "frontpage.html"
                 (ListData l))
    /\ List_Posts l = [Demo.A; Demo.B]
    /\ List_MaxPage l = 2.
Proof.
  assert (HN : Go.len (Renderer_Posts Demo.blog) < 2 ^ 53) by (vm_compute; reflexivity).
  assert (HS : 0 < model.Pagination (Config Demo.blog) <= Go.max_int)
    by (split; vm_compute; [reflexivity | discriminate]).
  destruct (front_page_view (env := Demo.env Demo.full) Demo.blog ""
              ["theme/t/_header.html"] ["theme/t/_header.html"; "theme/t/frontpage.html"]
              eq_refl eq_refl eq_refl eq_refl HN HS)
    as (l & Hrun & Hposts & _ & Hmax & _).
  exists l. split; [exact Hrun|]. split; [exact Hposts | exact Hmax].
Defined.

(** ** The output pipeline, both ways *)

(** X21: when [executeTemplate] succeeds and what a failure leaves
    behind.  It returns no error exactly when the template executes
    without error and, with minification on, the minifier succeeds too.
    When the template fails, its error is returned in both modes, and
    the destination holds the output the template had produced when
    minification is off, nothing new when it is on.  With minification
    off the minifier plays no part. *)
Theorem executeTemplate_outcome {env : Env} (rd : Renderer) (tpl : Template)
        (w : Go.Writer) (name : string) (data : ViewData) :
  let executed := ExecuteTemplate tpl name data in
  let result := executeTemplate rd tpl w name data in
  (snd result = None
   <-> snd executed = None
       /\ (Minimize rd = true -> snd (Minify (fst executed)) = None))
  /\ (forall e, snd executed = Some e ->
        snd result = Some e
        /\ fst result = if Minimize rd then w else (w ++ fst executed)%string)
  /\ (Minimize rd = false -> result = ((w ++ fst executed)%string, snd executed)).
Proof.
  cbv zeta. unfold executeTemplate.
  destruct (ExecuteTemplate tpl name data) as [out err]. cbn [fst snd].
  destruct (Minimize rd); cbn [negb].
  - destruct err as [e|].
    + cbn [fst snd]. split; [|split].
      * split; [discriminate | intros [H _]; discriminate H].
      * intros e' He'. injection He' as <-. split; reflexivity.
      * discriminate.
    + destruct (Minify out) as [out' err']. cbn [fst snd]. split; [|split].
      * split; [intros H; split; [reflexivity | intros _; exact H]
               | intros [_ H]; apply H; reflexivity].
      * discriminate.
      * discriminate.
  - cbn [fst snd]. split; [|split].
    + split; [intros H; split; [exact H | discriminate] | intros [H _]; exact H].
    + intros e He. split; [exact He | reflexivity].
    + reflexivity.
Qed.

Lemma executeTemplate_outcome_witness :
  snd (ExecuteTemplate (Env := Demo.env Demo.full) [] "broken.html" Demo.badPage)
  = Some (Go.Foreign "template" "execution failed")
  /\ executeTemplate (env := Demo.env Demo.full) Demo.blog [] "kept" "broken.html" Demo.badPage
     = ("kept<html", Some (Go.Foreign "template" "execution failed"))
  /\ snd (executeTemplate (env := Demo.env Demo.full) Demo.minimized [] "kept" "broken.html"
            Demo.badPage)
     = Some (Go.Foreign "template" "execution failed")
  /\ fst (executeTemplate (env := Demo.env Demo.full) Demo.minimized [] "kept" "broken.html"
            Demo.badPage)
     = "kept".
Proof.
  destruct (executeTemplate_outcome (env := Demo.env Demo.full) Demo.blog [] "kept"
              "broken.html" Demo.badPage) as (_ & _ & Hoff).
  destruct (executeTemplate_outcome (env := Demo.env Demo.full) Demo.minimized [] "kept"
              "broken.html" Demo.badPage) as (_ & Hfail & _).
  destruct (Hfail _ eq_refl) as [Herr Hdst].
  split; [reflexivity|]. split; [exact (Hoff eq_refl)|].
  split; [exact Herr | exact Hdst].
Defined.
